(** * The MNE example scripts as programs over an external library

    The repository holds two example scripts, [xdawn_denoising.py] and
    [volume_stc_group_study.py].  Both are sequences of calls into the MNE
    signal-processing library (and numpy, autoreject, mne_gui_addons); the
    scripts own only the order of the calls, the arguments, a handful of
    local variables and two kinds of loops.

    The embedding keeps exactly that: a script is a program in a small
    state-and-exception monad whose only effect is [call], a call into the
    library.  The library is a parameter: for every call it answers with a
    returned value or a raised exception and moves to a new state of its own.
    Every call is recorded, with the source line on which the call expression
    is completed, in the trace of the run.

    A function of the library is typed by the result its documentation
    gives it (a pair where the script unpacks a pair, a list where it
    iterates), Python floats are binary64 floats, and [del],
    [list.append] and the arithmetic on the scripts' own numbers are
    computed in place: they are no calls. *)

From Stdlib Require Import PrimFloat.
From Stdlib Require Import List String Ascii ZArith Bool Arith Lia DecimalString.
Import ListNotations.

Set Implicit Arguments.
Set Warnings "-inexact-float".

Open Scope string_scope.

(* ================================================================== *)
(** * Values exchanged with the library *)

(** The classes of the library objects the scripts hold. *)
Inductive Cls : Set :=
| CRaw | CEvents | CEventDict | CInfo | CPicks | CEpochs | CCov
| CXdawn | CDenoised
| CSourceSpaces | CBem | CMontage | CReject | CIca | CScores | CForward
| CRank | CScalar | CNdArray | CEpochsTfr | CCsd | CInverseOperator
| CStcGen | CViewer.

(** A reference to a library object: Python's object identity, typed by the
    class of the object.  The objects themselves live in the library. *)
Record Ref (c : Cls) : Set := mkRef { ref_id : nat }.

Definition Raw := Ref CRaw.
Definition Events := Ref CEvents.
Definition EventDict := Ref CEventDict.
Definition Info := Ref CInfo.
Definition Picks := Ref CPicks.
Definition Epochs := Ref CEpochs.
Definition Cov := Ref CCov.
Definition XdawnObj := Ref CXdawn.
Definition Denoised := Ref CDenoised.
Definition SourceSpaces := Ref CSourceSpaces.
Definition Bem := Ref CBem.
Definition Montage := Ref CMontage.
Definition Reject := Ref CReject.
Definition Ica := Ref CIca.
Definition Scores := Ref CScores.
Definition Forward := Ref CForward.
Definition Rank := Ref CRank.
Definition Scalar := Ref CScalar.
Definition NdArray := Ref CNdArray.
Definition EpochsTfr := Ref CEpochsTfr.
Definition Csd := Ref CCsd.
Definition InverseOperator := Ref CInverseOperator.
Definition StcGen := Ref CStcGen.
Definition Viewer := Ref CViewer.

(** File-system paths.  A path comes from the library and is extended by the
    scripts with [pathlib]'s [/] and with [os.path.join] and
    [os.path.dirname]; the scripts never look inside one. *)
Inductive PathV : Set :=
| LibPath (s : string)
| PathDiv (p : PathV) (name : string)
| OsPathJoin (p : PathV) (names : list string)
| OsPathDirname (p : PathV).

(** A Python exception, as the library raises it. *)
Record Exc : Set := mkExc { exc_type : string; exc_msg : string }.

(** The [group] argument of the viewer: [True] in one call, a string in the
    other. *)
Inductive GroupArg : Set :=
| GroupBool (b : bool)
| GroupStr (s : string).

(** The [inst] argument of the viewer: the list of epochs objects in one
    call, the list of time-frequency objects in the other. *)
Inductive InstList : Set :=
| InstEpochs (l : list Epochs)
| InstTfr (l : list EpochsTfr).

(* ================================================================== *)
(** * The calls the scripts make

    One constructor per library function, method or attribute the scripts
    use, indexed by the type of what the script receives back.  A result the
    script throws away ([raw.filter] returns the recording itself, the plot
    functions return figures) is typed [unit]. *)

Inductive LibCall : Type -> Type :=
(* statements of both scripts *)
| Import (module : string) (names : list string) : LibCall unit
| Print (text : string) : LibCall unit
(* xdawn_denoising.py *)
| SampleDataPath : LibCall PathV
| ReadRawFif (fname : PathV) (preload : bool) : LibCall Raw
| RawFilter (raw : Raw) (l_freq h_freq : Z) (fir_design : string)
  : LibCall unit
| ReadEvents (fname : PathV) : LibCall Events
| RawInfo (raw : Raw) : LibCall Info
| InfoSetItem (info : Info) (key : string) (value : list string)
  : LibCall unit
| PickTypes (info : Info) (meg eeg stim eog : bool) (exclude : string)
  : LibCall Picks
| MneEpochs (raw : Raw) (events : Events) (event_id : list (string * Z))
    (tmin tmax : float) (proj : bool) (picks : Picks)
    (baseline : option (float * float)) (preload : bool)
    (verbose : option bool) : LibCall Epochs
| EpochsGetItem (epochs : Epochs) (key : string) : LibCall Epochs
| PlotEpochsImage (epochs : Epochs) (picks : list Z) (vmin vmax : Z)
  : LibCall unit
| ComputeRawCovariance (raw : Raw) (picks : Picks) : LibCall Cov
| Xdawn (n_components : Z) (signal_cov : Cov) : LibCall XdawnObj
| XdawnFit (xd : XdawnObj) (epochs : Epochs) : LibCall unit
| XdawnApply (xd : XdawnObj) (epochs : Epochs) : LibCall Denoised
| DenoisedGetItem (d : Denoised) (key : string) : LibCall Epochs
(* volume_stc_group_study.py *)
| FetchFsaverage (verbose : bool) : LibCall PathV
| ReadSourceSpaces (fname : PathV) : LibCall SourceSpaces
| ReadBemSolution (fname : PathV) : LibCall Bem
| MakeStandardMontage (kind : string) : LibCall Montage
| EegbciLoadData (subject : Z) (runs : list Z) (update_path : bool)
  : LibCall (list PathV)
| ReadRaw (fname : PathV) (preload verbose : bool) : LibCall Raw
| ConcatenateRaws (raws : list Raw) : LibCall Raw
| EegbciStandardize (raw : Raw) : LibCall unit
| RawSetMontage (raw : Raw) (montage : Montage) (verbose : bool)
  : LibCall unit
| EventsFromAnnotations (raw : Raw) (event_id : list (string * Z))
  : LibCall (Events * EventDict)
| EpochsSetEegReference (epochs : Epochs) (projection : bool)
  : LibCall unit
| GetRejectionThreshold (epochs : Epochs) : LibCall Reject
| EpochsDropBad (epochs : Epochs) (reject : Reject) : LibCall unit
| EpochsFilter (epochs : Epochs) (l_freq : Z) (h_freq : option Z)
  : LibCall unit
| ICA (n_components random_state : Z) : LibCall Ica
| IcaFit (ica : Ica) (epochs : Epochs) : LibCall unit
| IcaFindBadsEog (ica : Ica) (epochs : Epochs) (ch_name : string)
  : LibCall (list Z * Scores)
| IcaFindBadsMuscle (ica : Ica) (epochs : Epochs)
  : LibCall (list Z * Scores)
| IcaApply (ica : Ica) (epochs : Epochs) (exclude : list Z)
  : LibCall unit
| EpochsInfo (epochs : Epochs) : LibCall Info
| MakeForwardSolution (info : Info) (trans : string) (src : SourceSpaces)
    (bem : Bem) (eeg : bool) (mindist : float) : LibCall Forward
| ComputeRank (epochs : Epochs) (tol : float) (tol_kind : string)
  : LibCall Rank
| NpLog10 (x : Z) : LibCall Scalar
| NpLogspace (start stop : Scalar) (num : Z) : LibCall NdArray
| NdArrayDiv (a : NdArray) (d : Z) : LibCall NdArray
| TfrMorlet (epochs : Epochs) (freqs n_cycles : NdArray)
    (return_itc average : bool) (output : string) : LibCall EpochsTfr
| CsdTfr (tfr : EpochsTfr) (tmin tmax : Z) : LibCall Csd
| EpochsTfrDecimate (tfr : EpochsTfr) (decim : Z) : LibCall unit
| EpochsDecimate (epochs : Epochs) (decim : Z) : LibCall unit
| ComputeCovariance (epochs : Epochs) (tmax : Z) : LibCall Cov
| MakeInverseOperator (info : Info) (fwd : Forward) (noise_cov : Cov)
  : LibCall InverseOperator
| ApplyInverseEpochs (epochs : Epochs) (inv : InverseOperator)
    (lambda2 : float) (method pick_ori : string) (return_generator : bool)
  : LibCall StcGen
| EpochsTfrFreqs (tfr : EpochsTfr) : LibCall NdArray
| NdArraySize (a : NdArray) : LibCall nat
| CsdGetData (csd : Csd) (index : nat) (as_cov : bool) : LibCall Cov
| CovGetItem (cov : Cov) (key : string) : LibCall NdArray
| NdArrayReal (a : NdArray) : LibCall NdArray
| CovSetItem (cov : Cov) (key : string) (value : NdArray) : LibCall unit
| ApplyInverseTfrEpochs (tfr : EpochsTfr) (inv : InverseOperator)
    (lambda2 : float) (method pick_ori : string) (return_generator : bool)
  : LibCall StcGen
| ViewVolStc (stcs : list StcGen) (group : GroupArg)
    (freq_first : option bool) (subject : string) (subjects_dir : PathV)
    (src : SourceSpaces) (inst : InstList) (tmin tmax : float)
  : LibCall Viewer
| ViewerGoToExtreme (v : Viewer) : LibCall unit
| ViewerSetCmap (v : Viewer) (vmin vmid : float) : LibCall unit
| ViewerSet3dView (v : Viewer) (azimuth elevation distance : Z)
  : LibCall unit.

(** What a call comes back with. *)
Inductive Outcome (A : Type) : Type :=
| Returns (a : A)
| Raises (e : Exc).

Arguments Returns {A} a.
Arguments Raises {A} e.

(** One entry of the trace: the source line on which the call expression is
    completed, the call, and its outcome. *)
Inductive Event : Type :=
| Ev (line : nat) {T : Type} (c : LibCall T) (o : Outcome T).

(** The library: an answer to every call, and a new state of its own. *)
Definition Library (LibState : Type) : Type :=
  forall T : Type, LibCall T -> LibState -> Outcome T * LibState.

(* ================================================================== *)
(** * The monad of a running script *)

Section Script.

Variable LibState : Type.
Variable lib : Library LibState.

Record World : Type := mkWorld { w_lib : LibState; w_trace : list Event }.

Definition M (A : Type) : Type := World -> Outcome A * World.

Definition ret {A} (a : A) : M A := fun w => (Returns a, w).

(** An exception leaves the rest of the program unexecuted: there is no
    handler anywhere in the two scripts, so the monad has none either. *)
Definition bind {A B} (m : M A) (k : A -> M B) : M B :=
  fun w =>
    match m w with
    | (Returns a, w') => k a w'
    | (Raises e, w') => (Raises e, w')
    end.

Definition call (line : nat) {T} (c : LibCall T) : M T :=
  fun w =>
    let (o, s) := lib c (w_lib w) in
    (o, {| w_lib := s; w_trace := w_trace w ++ [Ev line c o] |}).

(** [for x in xs: st = body(x, st)], the variables the body rebinds being
    threaded through as [st]. *)
Fixpoint for_each {X St} (xs : list X) (body : X -> St -> M St) (st : St)
  : M St :=
  match xs with
  | [] => ret st
  | x :: xs' => bind (body x st) (for_each xs' body)
  end.

(** [[f(x) for x in xs]] *)
Fixpoint comprehension {X Y} (f : X -> M Y) (xs : list X) : M (list Y) :=
  match xs with
  | [] => ret []
  | x :: xs' =>
      bind (f x) (fun y =>
      bind (comprehension f xs') (fun ys => ret (y :: ys)))
  end.

End Script.

Arguments ret {LibState A} a _.
Arguments bind {LibState A B} m k _.
Arguments mkWorld {LibState} w_lib w_trace.
Arguments w_lib {LibState} w.
Arguments w_trace {LibState} w.

Declare Scope script_scope.
Delimit Scope script_scope with script.
Notation "x <- m ;; k" := (bind m (fun x => k))
  (at level 61, m at next level, right associativity) : script_scope.
Notation "' pat <- m ;; k" := (bind m (fun p => match p with pat => k end))
  (at level 61, pat pattern, m at next level, right associativity)
  : script_scope.
Notation "m ;; k" := (bind m (fun _ => k))
  (at level 61, right associativity) : script_scope.

(** [str(n)] for a Python int. *)
Definition string_of_Z (z : Z) : string := NilZero.string_of_int (Z.to_int z).

(* ================================================================== *)
(** * xdawn_denoising.py *)

Module XdawnDenoising.

(** The module docstring, which the script prints. *)
Definition __doc__ : string := "
.. _ex-xdawn-denoising:

===============
XDAWN Denoising
===============

XDAWN filters are trained from epochs, signal is projected in the sources
space and then projected back in the sensor space using only the first two
XDAWN components. The process is similar to an ICA, but is
supervised in order to maximize the signal to signal + noise ratio of the
evoked response :footcite:`RivetEtAl2009, RivetEtAl2011`.

.. warning:: As this denoising method exploits the known events to
             maximize SNR of the contrast between conditions it can lead
             to overfitting. To avoid a statistical analysis problem you
             should split epochs used in fit with the ones used in
             apply method.
".

Definition tmin : float := (-0.1)%float.
Definition tmax : float := 0.3%float.
Definition event_id : list (string * Z) := [("vis_r", 4%Z)].

Section Script.

Variable LibState : Type.
Variable lib : Library LibState.

Local Open Scope script_scope.
Local Abbreviation call := (call lib).

Definition script : M LibState unit :=
  call 28 (Import "mne"
             ["io"; "compute_raw_covariance"; "read_events"; "pick_types";
              "Epochs"]) ;;
  call 29 (Import "mne.datasets" ["sample"]) ;;
  call 30 (Import "mne.preprocessing" ["Xdawn"]) ;;
  call 31 (Import "mne.viz" ["plot_epochs_image"]) ;;
  call 33 (Print __doc__) ;;
  data_path <- call 35 SampleDataPath ;;
  (* Set parameters and read data *)
  let meg_path := PathDiv (PathDiv data_path "MEG") "sample" in
  let raw_fname := PathDiv meg_path "sample_audvis_filt-0-40_raw.fif" in
  let event_fname := PathDiv meg_path "sample_audvis_filt-0-40_raw-eve.fif" in
  (* Setup for reading the raw data *)
  raw <- call 46 (ReadRawFif raw_fname true) ;;
  call 47 (RawFilter raw 1 20 "firwin") ;;
  events <- call 48 (ReadEvents event_fname) ;;
  info <- call 50 (RawInfo raw) ;;
  call 50 (InfoSetItem info "bads" ["MEG 2443"]) ;;
  info <- call 51 (RawInfo raw) ;;
  picks <- call 51 (PickTypes info true false false false "bads") ;;
  (* Epoching *)
  epochs <- call 64 (MneEpochs raw events event_id tmin tmax false picks
                       None true (Some false)) ;;
  (* Plot image epoch before xdawn *)
  vis_r <- call 67 (EpochsGetItem epochs "vis_r") ;;
  call 67 (PlotEpochsImage vis_r [230%Z] (-500) 500) ;;
  (* Estimates signal covariance *)
  signal_cov <- call 74 (ComputeRawCovariance raw picks) ;;
  (* Xdawn instance *)
  xd <- call 77 (Xdawn 2 signal_cov) ;;
  (* Fit xdawn *)
  call 80 (XdawnFit xd epochs) ;;
  (* Epochs are denoised by calling apply *)
  epochs_denoised <- call 86 (XdawnApply xd epochs) ;;
  (* Plot image epoch after Xdawn *)
  vis_r <- call 89 (DenoisedGetItem epochs_denoised "vis_r") ;;
  call 89 (PlotEpochsImage vis_r [230%Z] (-500) 500) ;;
  ret tt.

End Script.

End XdawnDenoising.

(* ================================================================== *)
(** * volume_stc_group_study.py *)

Module GroupStudy.

Definition template : string := "fsaverage".
Definition trans : string := "fsaverage".

(* basic task parameters *)
Definition tmin : float := (-1.0)%float.
Definition tmax : float := 4.0%float.
Definition active_win : Z * Z := (0, 4)%Z.
Definition baseline_win : Z * Z := (-1, 0)%Z.
Definition event_id : list (string * Z) := [("hands", 2%Z); ("feet", 3%Z)].
Definition runs : list Z := [6; 10; 14]%Z.

(** [range(1, 4)] *)
Definition subjects : list Z := [1; 2; 3]%Z.

(** The four lists the script accumulates over the subjects. *)
Record Acc : Type := mkAcc {
  stcs_tfr : list StcGen;
  stcs_epochs : list StcGen;
  insts_tfr : list EpochsTfr;
  insts_epochs : list Epochs
}.

Definition empty_acc : Acc := mkAcc [] [] [] [].

Section Script.

Variable LibState : Type.
Variable lib : Library LibState.

Local Open Scope script_scope.
Local Abbreviation call := (call lib).

(** The module-level names the loop body reads. *)
Variable subjects_dir : PathV.
Variable src : SourceSpaces.
Variable bem : Bem.
Variable montage : Montage.

(** The body of [for freq_idx in range(epochs_tfr.freqs.size)]; it rebinds
    [baseline_cov] and [inverse_operator]. *)
Definition freq_body (baseline_csd : Csd) (epochs : Epochs) (fwd : Forward)
    (freq_idx : nat) (st : Cov * InverseOperator)
  : M LibState (Cov * InverseOperator) :=
  (* for each frequency, compute a separate covariance matrix *)
  baseline_cov <- call 148 (CsdGetData baseline_csd freq_idx true) ;;
  (* only normalize by real *)
  data <- call 150 (CovGetItem baseline_cov "data") ;;
  real <- call 150 (NdArrayReal data) ;;
  call 150 (CovSetItem baseline_cov "data" real) ;;
  (* then use that covariance matrix as normalization for the inverse
     operator *)
  info <- call 154 (EpochsInfo epochs) ;;
  inverse_operator <- call 155 (MakeInverseOperator info fwd baseline_cov) ;;
  ret (baseline_cov, inverse_operator).

(** The body of [for sub in range(1, 4)]; the four lists are its state. *)
Definition subject_body (sub : Z) (acc : Acc) : M LibState Acc :=
  call 51 (Print ("Computing source estimate for subject "
                    ++ string_of_Z sub)) ;;
  raw_fnames <- call 52 (EegbciLoadData sub runs true) ;;
  raws <- comprehension
            (fun raw_fname => call 55 (ReadRaw raw_fname true false))
            raw_fnames ;;
  raw <- call 58 (ConcatenateRaws raws) ;;
  call 59 (EegbciStandardize raw) ;;  (* set channel names *)
  call 60 (RawSetMontage raw montage false) ;;
  (* make epochs *)
  '(events, _) <- call 63 (EventsFromAnnotations raw
                             [("T1", 2%Z); ("T2", 3%Z)]) ;;
  info <- call 66 (RawInfo raw) ;;
  picks <- call 67 (PickTypes info false true false false "bads") ;;
  epochs <- call 78 (MneEpochs raw events event_id
                       (tmin - 0.5)%float (tmax + 0.5)%float true picks
                       None true None) ;;
  (* del raw *)
  call 80 (EpochsSetEegReference epochs true) ;;
  (* reject bad epochs *)
  reject <- call 83 (GetRejectionThreshold epochs) ;;
  call 84 (EpochsDropBad epochs reject) ;;
  call 86 (EpochsFilter epochs 1 None) ;;
  ica <- call 87 (ICA 15 11) ;;
  call 88 (IcaFit ica epochs) ;;
  '(eog_idx, scores) <- call 90 (IcaFindBadsEog ica epochs "Fp1") ;;
  '(muscle_idx, scores) <- call 91 (IcaFindBadsMuscle ica epochs) ;;
  call 92 (IcaApply ica epochs (eog_idx ++ muscle_idx)%list) ;;
  (* make forward model *)
  info <- call 96 (EpochsInfo epochs) ;;
  fwd <- call 97 (MakeForwardSolution info trans src bem true 5.0%float) ;;
  rank <- call 99 (ComputeRank epochs 1e-6%float "relative") ;;
  (* compute cross-spectral density matrices *)
  lo <- call 102 (NpLog10 12) ;;
  hi <- call 102 (NpLog10 30) ;;
  freqs <- call 102 (NpLogspace lo hi 9) ;;
  (* time-frequency decomposition *)
  n_cycles <- call 108 (NdArrayDiv freqs 2) ;;
  epochs_tfr <- call 112 (TfrMorlet epochs freqs n_cycles false false
                            "complex") ;;
  baseline_csd <- call 114 (CsdTfr epochs_tfr (fst baseline_win)
                              (snd baseline_win)) ;;
  call 116 (EpochsTfrDecimate epochs_tfr 20) ;;  (* decimate for speed *)
  let insts_tfr := (insts_tfr acc ++ [epochs_tfr])%list in
  (* Compute source estimate using MNE solver *)
  let snr := 3.0%float in
  let lambda2 := (1.0 / (snr * snr))%float in  (* 1.0 / snr**2 *)
  let method := "MNE" in
  call 124 (EpochsDecimate epochs 20) ;;
  let insts_epochs := (insts_epochs acc ++ [epochs])%list in
  (* do time-series epochs first *)
  baseline_cov <- call 128 (ComputeCovariance epochs 0) ;;
  info <- call 130 (EpochsInfo epochs) ;;
  inverse_operator <- call 131 (MakeInverseOperator info fwd baseline_cov) ;;
  stc <- call 140 (ApplyInverseEpochs epochs inverse_operator lambda2 method
                     "vector" true) ;;
  let stcs_epochs := (stcs_epochs acc ++ [stc])%list in
  (* make a different inverse operator for each frequency so as to properly
     whiten the sensor data *)
  let stcs : list StcGen := [] in
  tfr_freqs <- call 146 (EpochsTfrFreqs epochs_tfr) ;;
  size <- call 146 (NdArraySize tfr_freqs) ;;
  '(baseline_cov, inverse_operator) <-
     for_each (seq 0 size) (freq_body baseline_csd epochs fwd)
       (baseline_cov, inverse_operator) ;;
  (* finally, compute the stcs for each epoch and frequency *)
  stcs <- call 165 (ApplyInverseTfrEpochs epochs_tfr inverse_operator lambda2
                      method "vector" true) ;;
  (* append to group *)
  let stcs_tfr := (stcs_tfr acc ++ [stcs])%list in
  ret (mkAcc stcs_tfr stcs_epochs insts_tfr insts_epochs).

(** The two viewer sections that close the script. *)
Definition viewers (acc : Acc) : M LibState unit :=
  (* Use the viewer to explore the time-course source estimates. *)
  viewer <- call 183 (ViewVolStc (stcs_epochs acc) (GroupBool true)
                        (Some false) template subjects_dir src
                        (InstEpochs (insts_epochs acc)) tmin tmax) ;;
  call 184 (ViewerGoToExtreme viewer) ;;
  call 185 (ViewerSetCmap viewer 0.25%float 0.8%float) ;;
  call 186 (ViewerSet3dView viewer 40 35 300) ;;
  (* del stcs_epochs, insts_epochs *)
  (* Use the viewer to explore the time-frequency source estimates *)
  viewer <- call 202 (ViewVolStc (stcs_tfr acc) (GroupStr "power") None
                        template subjects_dir src
                        (InstTfr (insts_tfr acc)) tmin tmax) ;;
  call 203 (ViewerGoToExtreme viewer) ;;
  call 204 (ViewerSetCmap viewer 0.25%float 0.8%float) ;;
  call 205 (ViewerSet3dView viewer 40 35 300) ;;
  (* del stcs_tfr, insts_tfr *)
  ret tt.

End Script.

Section Whole.

Variable LibState : Type.
Variable lib : Library LibState.

Local Open Scope script_scope.
Local Abbreviation call := (call lib).

Definition script : M LibState unit :=
  call 15 (Import "os.path" []) ;;
  call 17 (Import "autoreject" []) ;;
  call 18 (Import "mne" []) ;;
  call 19 (Import "numpy" []) ;;
  call 20 (Import "mne.time_frequency" ["csd_tfr"]) ;;
  call 22 (Import "mne_gui_addons" []) ;;
  fs_dir <- call 24 (FetchFsaverage true) ;;
  let subjects_dir := OsPathDirname fs_dir in
  src <- call 29 (ReadSourceSpaces
                    (OsPathJoin fs_dir ["bem"; "fsaverage-vol-5-src.fif"])) ;;
  bem <- call 32 (ReadBemSolution
                    (OsPathJoin fs_dir
                       ["bem"; "fsaverage-5120-5120-5120-bem-sol.fif"])) ;;
  (* Compute source time course (stc) estimates for both time courses and
     spectrograms (time-frequency). *)
  montage <- call 45 (MakeStandardMontage "standard_1005") ;;
  acc <- for_each subjects (subject_body lib src bem montage) empty_acc ;;
  viewers lib subjects_dir src acc.

End Whole.

End GroupStudy.

(* ================================================================== *)
(** * Running a script *)

(** A run starts with an empty trace and gives the outcome of the script and
    the calls it made, in the order it made them. *)
Definition run {LibState A} (m : M LibState A) (s : LibState)
  : Outcome A * list Event :=
  let (o, w) := m (mkWorld s []) in (o, w_trace w).

Definition outcome_of {LibState A} (m : M LibState A) (s : LibState)
  : Outcome A := fst (run m s).

Definition trace_of {LibState A} (m : M LibState A) (s : LibState)
  : list Event := snd (run m s).

(* ================================================================== *)
(** * Reading a trace *)

Definition ev_line (ev : Event) : nat :=
  match ev with Ev l _ _ => l end.

(** The exception a call raised, if it raised one. *)
Definition ev_exc (ev : Event) : option Exc :=
  match ev with
  | Ev _ _ (Raises e) => Some e
  | Ev _ _ (Returns _) => None
  end.

Definition ev_ok (ev : Event) : bool :=
  match ev_exc ev with Some _ => false | None => true end.

(** The Python name of what is called. *)
Definition qualname {T} (c : LibCall T) : string :=
  match c with
  | Import _ _ => "builtins.__import__"
  | Print _ => "builtins.print"
  | SampleDataPath => "mne.datasets.sample.data_path"
  | ReadRawFif _ _ => "mne.io.read_raw_fif"
  | RawFilter _ _ _ _ => "mne.io.Raw.filter"
  | ReadEvents _ => "mne.read_events"
  | RawInfo _ => "mne.io.Raw.info"
  | InfoSetItem _ _ _ => "mne.Info.__setitem__"
  | PickTypes _ _ _ _ _ _ => "mne.pick_types"
  | MneEpochs _ _ _ _ _ _ _ _ _ _ => "mne.Epochs"
  | EpochsGetItem _ _ => "mne.Epochs.__getitem__"
  | PlotEpochsImage _ _ _ _ => "mne.viz.plot_epochs_image"
  | ComputeRawCovariance _ _ => "mne.compute_raw_covariance"
  | Xdawn _ _ => "mne.preprocessing.Xdawn"
  | XdawnFit _ _ => "mne.preprocessing.Xdawn.fit"
  | XdawnApply _ _ => "mne.preprocessing.Xdawn.apply"
  | DenoisedGetItem _ _ => "builtins.dict.__getitem__"
  | FetchFsaverage _ => "mne.datasets.fetch_fsaverage"
  | ReadSourceSpaces _ => "mne.read_source_spaces"
  | ReadBemSolution _ => "mne.read_bem_solution"
  | MakeStandardMontage _ => "mne.channels.make_standard_montage"
  | EegbciLoadData _ _ _ => "mne.datasets.eegbci.load_data"
  | ReadRaw _ _ _ => "mne.io.read_raw"
  | ConcatenateRaws _ => "mne.concatenate_raws"
  | EegbciStandardize _ => "mne.datasets.eegbci.standardize"
  | RawSetMontage _ _ _ => "mne.io.Raw.set_montage"
  | EventsFromAnnotations _ _ => "mne.events_from_annotations"
  | EpochsSetEegReference _ _ => "mne.Epochs.set_eeg_reference"
  | GetRejectionThreshold _ => "autoreject.get_rejection_threshold"
  | EpochsDropBad _ _ => "mne.Epochs.drop_bad"
  | EpochsFilter _ _ _ => "mne.Epochs.filter"
  | ICA _ _ => "mne.preprocessing.ICA"
  | IcaFit _ _ => "mne.preprocessing.ICA.fit"
  | IcaFindBadsEog _ _ _ => "mne.preprocessing.ICA.find_bads_eog"
  | IcaFindBadsMuscle _ _ => "mne.preprocessing.ICA.find_bads_muscle"
  | IcaApply _ _ _ => "mne.preprocessing.ICA.apply"
  | EpochsInfo _ => "mne.Epochs.info"
  | MakeForwardSolution _ _ _ _ _ _ => "mne.make_forward_solution"
  | ComputeRank _ _ _ => "mne.compute_rank"
  | NpLog10 _ => "numpy.log10"
  | NpLogspace _ _ _ => "numpy.logspace"
  | NdArrayDiv _ _ => "numpy.ndarray.__truediv__"
  | TfrMorlet _ _ _ _ _ _ => "mne.time_frequency.tfr_morlet"
  | CsdTfr _ _ _ => "mne.time_frequency.csd_tfr"
  | EpochsTfrDecimate _ _ => "mne.time_frequency.EpochsTFR.decimate"
  | EpochsDecimate _ _ => "mne.Epochs.decimate"
  | ComputeCovariance _ _ => "mne.compute_covariance"
  | MakeInverseOperator _ _ _ => "mne.minimum_norm.make_inverse_operator"
  | ApplyInverseEpochs _ _ _ _ _ _ => "mne.minimum_norm.apply_inverse_epochs"
  | EpochsTfrFreqs _ => "mne.time_frequency.EpochsTFR.freqs"
  | NdArraySize _ => "numpy.ndarray.size"
  | CsdGetData _ _ _ => "mne.time_frequency.CrossSpectralDensity.get_data"
  | CovGetItem _ _ => "mne.Covariance.__getitem__"
  | NdArrayReal _ => "numpy.ndarray.real"
  | CovSetItem _ _ _ => "mne.Covariance.__setitem__"
  | ApplyInverseTfrEpochs _ _ _ _ _ _ =>
      "mne.minimum_norm.apply_inverse_tfr_epochs"
  | ViewVolStc _ _ _ _ _ _ _ _ _ => "mne_gui_addons.view_vol_stc"
  | ViewerGoToExtreme _ => "mne_gui_addons.VolSourceEstimateViewer.go_to_extreme"
  | ViewerSetCmap _ _ _ => "mne_gui_addons.VolSourceEstimateViewer.set_cmap"
  | ViewerSet3dView _ _ _ _ =>
      "mne_gui_addons.VolSourceEstimateViewer.set_3d_view"
  end.

Definition ev_name (ev : Event) : string :=
  match ev with Ev _ c _ => qualname c end.

(* ================================================================== *)
(** * Two libraries to run the scripts against

    [sample_lib] never raises: it numbers the objects it hands out, finds
    one recording file per requested run, and reports nine frequencies for a
    time-frequency object.  [fail_at k L] is [L] except that its call number
    [k] (from 0) raises. *)

Definition fresh {c : Cls} (n : nat) : Outcome (Ref c) * nat :=
  (Returns (mkRef c n), S n).

Definition done (n : nat) : Outcome unit * nat := (Returns tt, n).

Definition sample_lib : Library nat :=
  fun T c =>
    match c in LibCall T return nat -> Outcome T * nat with
    | Import _ _ => done
    | Print _ => done
    | SampleDataPath => fun n => (Returns (LibPath "MNE-sample-data"), n)
    | ReadRawFif _ _ => fresh
    | RawFilter _ _ _ _ => done
    | ReadEvents _ => fresh
    | RawInfo _ => fresh
    | InfoSetItem _ _ _ => done
    | PickTypes _ _ _ _ _ _ => fresh
    | MneEpochs _ _ _ _ _ _ _ _ _ _ => fresh
    | EpochsGetItem _ _ => fresh
    | PlotEpochsImage _ _ _ _ => done
    | ComputeRawCovariance _ _ => fresh
    | Xdawn _ _ => fresh
    | XdawnFit _ _ => done
    | XdawnApply _ _ => fresh
    | DenoisedGetItem _ _ => fresh
    | FetchFsaverage _ => fun n => (Returns (LibPath "fsaverage"), n)
    | ReadSourceSpaces _ => fresh
    | ReadBemSolution _ => fresh
    | MakeStandardMontage _ => fresh
    | EegbciLoadData subject runs _ =>
        fun n =>
          (Returns
             (map (fun r => LibPath ("S" ++ string_of_Z subject ++ "R"
                                       ++ string_of_Z r ++ ".edf")) runs),
           n)
    | ReadRaw _ _ _ => fresh
    | ConcatenateRaws _ => fresh
    | EegbciStandardize _ => done
    | RawSetMontage _ _ _ => done
    | EventsFromAnnotations _ _ =>
        fun n => (Returns (mkRef CEvents n, mkRef CEventDict (S n)), S (S n))
    | EpochsSetEegReference _ _ => done
    | GetRejectionThreshold _ => fresh
    | EpochsDropBad _ _ => done
    | EpochsFilter _ _ _ => done
    | ICA _ _ => fresh
    | IcaFit _ _ => done
    | IcaFindBadsEog _ _ _ =>
        fun n => (Returns ([0%Z], mkRef CScores n), S n)
    | IcaFindBadsMuscle _ _ =>
        fun n => (Returns ([3%Z; 7%Z], mkRef CScores n), S n)
    | IcaApply _ _ _ => done
    | EpochsInfo _ => fresh
    | MakeForwardSolution _ _ _ _ _ _ => fresh
    | ComputeRank _ _ _ => fresh
    | NpLog10 _ => fresh
    | NpLogspace _ _ _ => fresh
    | NdArrayDiv _ _ => fresh
    | TfrMorlet _ _ _ _ _ _ => fresh
    | CsdTfr _ _ _ => fresh
    | EpochsTfrDecimate _ _ => done
    | EpochsDecimate _ _ => done
    | ComputeCovariance _ _ => fresh
    | MakeInverseOperator _ _ _ => fresh
    | ApplyInverseEpochs _ _ _ _ _ _ => fresh
    | EpochsTfrFreqs _ => fresh
    | NdArraySize _ => fun n => (Returns 9, n)
    | CsdGetData _ _ _ => fresh
    | CovGetItem _ _ => fresh
    | NdArrayReal _ => fresh
    | CovSetItem _ _ _ => done
    | ApplyInverseTfrEpochs _ _ _ _ _ _ => fresh
    | ViewVolStc _ _ _ _ _ _ _ _ _ => fresh
    | ViewerGoToExtreme _ => done
    | ViewerSetCmap _ _ _ => done
    | ViewerSet3dView _ _ _ _ => done
    end.

Definition fail_at (k : nat) {LibState} (L : Library LibState)
  : Library (nat * LibState) :=
  fun T c st =>
    let (i, s) := st in
    if Nat.eqb i k
    then (Raises (mkExc "RuntimeError" "raised by the library"), (S i, s))
    else let (o, s') := L T c s in (o, (S i, s')).


(* ================================================================== *)
(** * What a program emits

    [emits m Q]: from every world, running [m] appends some events [evs] to
    the trace, and [Q evs o] holds of them and of the outcome [o].  The
    library is arbitrary, so [Q] is established for whatever it answers. *)

Definition emits {LibState A} (m : M LibState A)
    (Q : list Event -> Outcome A -> Prop) : Prop :=
  forall w, exists evs,
    w_trace (snd (m w)) = (w_trace w ++ evs)%list /\ Q evs (fst (m w)).

(** The events selected by [f], in trace order. *)
Definition pick {X} (f : Event -> option X) (tr : list Event) : list X :=
  flat_map (fun ev => match f ev with Some x => [x] | None => [] end) tr.

(** No local recovery: a call that raises is the last call of the run and
    its exception is the outcome of the script; and the script ends with an
    exception only when a call raised it. *)
Definition propagates {A} (evs : list Event) (o : Outcome A) : Prop :=
  match o with
  | Returns _ => forallb ev_ok evs = true
  | Raises e =>
      exists pre ev,
        evs = (pre ++ [ev])%list /\ forallb ev_ok pre = true
        /\ ev_exc ev = Some e
  end.

Definition no_local_recovery {A} (tr : list Event) (o : Outcome A) : Prop :=
  (forall pre ev post e,
      tr = (pre ++ ev :: post)%list -> ev_exc ev = Some e ->
      post = [] /\ o = Raises e)
  /\ (forall e, o = Raises e -> exists ev, In ev tr /\ ev_exc ev = Some e).

(* ================================================================== *)
(** * Selections from a trace *)

(** A library object whatever its class. *)
Definition Obj : Set := (Cls * nat)%type.

Scheme Equality for Cls.

Definition obj {c : Cls} (r : Ref c) : Obj := (c, ref_id r).

Definition obj_eqb (a b : Obj) : bool :=
  Cls_beq (fst a) (fst b) && Nat.eqb (snd a) (snd b).

(** The epochs objects [mne.Epochs(...)] returned. *)
Definition sel_segmentation (ev : Event) : option Epochs :=
  match ev with
  | Ev _ c o =>
      match c in LibCall T return Outcome T -> option Epochs with
      | MneEpochs _ _ _ _ _ _ _ _ _ _ =>
          fun o => match o with Returns e => Some e | Raises _ => None end
      | _ => fun _ => None
      end o
  end.

(** The arguments of the calls of [Xdawn.fit] and of [Xdawn.apply]. *)
Definition sel_xdawn_fit (ev : Event) : option (XdawnObj * Epochs) :=
  match ev with
  | Ev _ c _ =>
      match c with
      | XdawnFit xd epochs => Some (xd, epochs)
      | _ => None
      end
  end.

Definition sel_xdawn_apply (ev : Event) : option (XdawnObj * Epochs) :=
  match ev with
  | Ev _ c _ =>
      match c with
      | XdawnApply xd epochs => Some (xd, epochs)
      | _ => None
      end
  end.

(** [sub in s] for Python strings. *)
Fixpoint contains (sub s : string) : bool :=
  if String.prefix sub s then true
  else match s with
       | EmptyString => false
       | String _ s' => contains sub s'
       end.

(** Of a run of the XDAWN script: whenever [apply] is called, the one
    [fit] call before it had the same transform and the same epochs object,
    and that object is the only one [mne.Epochs] built; and a run that ends
    normally did call [apply]. *)
Definition fit_and_apply_share_epochs (evs : list Event) (o : Outcome unit)
  : Prop :=
  (forall xd e, In (xd, e) (pick sel_xdawn_apply evs) ->
     pick sel_xdawn_fit evs = [(xd, e)] /\ pick sel_segmentation evs = [e])
  /\ (o = Returns tt -> exists xd e, pick sel_xdawn_apply evs = [(xd, e)]).

(* ================================================================== *)
(** * The pipeline of the spec

    "load raw recording, apply filter, segment into trial windows (epochs),
    fit a model/transform on epochs, apply the transform, visualize
    result". *)

Inductive Stage : Set :=
| SLoad | SFilter | SSegment | SFit | SApply | SVisualize.

Scheme Equality for Stage.

(** What a call contributes to the pipeline: its stage, the signal it works
    on, the model it fits or applies, and the signal it leaves behind (the
    same object when it works in place). *)
Record StageEvent : Set := mkStageEvent {
  se_stage : Stage;
  se_signal : option Obj;
  se_model : option Obj;
  se_yield : option Obj
}.

Definition stage_event (ev : Event) : option StageEvent :=
  match ev with
  | Ev _ c o =>
      match c in LibCall T return Outcome T -> option StageEvent with
      | ReadRawFif _ _ => fun o =>
          match o with
          | Returns _ => Some (mkStageEvent SLoad None None None)
          | Raises _ => None
          end
      | ReadRaw _ _ _ => fun o =>
          match o with
          | Returns _ => Some (mkStageEvent SLoad None None None)
          | Raises _ => None
          end
      | RawFilter raw _ _ _ => fun o =>
          match o with
          | Returns _ =>
              Some (mkStageEvent SFilter (Some (obj raw)) None
                      (Some (obj raw)))
          | Raises _ => None
          end
      | EpochsFilter epochs _ _ => fun o =>
          match o with
          | Returns _ =>
              Some (mkStageEvent SFilter (Some (obj epochs)) None
                      (Some (obj epochs)))
          | Raises _ => None
          end
      | MneEpochs raw _ _ _ _ _ _ _ _ _ => fun o =>
          match o with
          | Returns epochs =>
              Some (mkStageEvent SSegment (Some (obj raw)) None
                      (Some (obj epochs)))
          | Raises _ => None
          end
      | XdawnFit xd epochs => fun o =>
          match o with
          | Returns _ =>
              Some (mkStageEvent SFit (Some (obj epochs)) (Some (obj xd))
                      (Some (obj epochs)))
          | Raises _ => None
          end
      | IcaFit ica epochs => fun o =>
          match o with
          | Returns _ =>
              Some (mkStageEvent SFit (Some (obj epochs)) (Some (obj ica))
                      (Some (obj epochs)))
          | Raises _ => None
          end
      | XdawnApply xd epochs => fun o =>
          match o with
          | Returns d =>
              Some (mkStageEvent SApply (Some (obj epochs)) (Some (obj xd))
                      (Some (obj d)))
          | Raises _ => None
          end
      | IcaApply ica epochs _ => fun o =>
          match o with
          | Returns _ =>
              Some (mkStageEvent SApply (Some (obj epochs)) (Some (obj ica))
                      (Some (obj epochs)))
          | Raises _ => None
          end
      | PlotEpochsImage _ _ _ _ => fun o =>
          match o with
          | Returns _ => Some (mkStageEvent SVisualize None None None)
          | Raises _ => None
          end
      | ViewVolStc _ _ _ _ _ _ _ _ _ => fun o =>
          match o with
          | Returns _ => Some (mkStageEvent SVisualize None None None)
          | Raises _ => None
          end
      | _ => fun _ => None
      end o
  end.

(** A stage takes up the signal (or the model) of the stage before it when
    both name one. *)
Definition link (cur x : option Obj) : bool :=
  match cur, x with
  | Some a, Some b => obj_eqb a b
  | _, _ => true
  end.

Definition pass_on (cur x : option Obj) : option Obj :=
  match x with
  | Some _ => x
  | None => cur
  end.

(** [chainb order sig mdl tr]: the trace [tr] has calls of the stages
    [order], one after the other in this order (other calls may come in
    between), each working on the signal the previous one left and, for
    apply, with the model that was fitted. *)
Fixpoint chainb (order : list Stage) (sig mdl : option Obj)
    (tr : list Event) {struct tr} : bool :=
  match order with
  | [] => true
  | s :: order' =>
      match tr with
      | [] => false
      | ev :: tr' =>
          match stage_event ev with
          | Some se =>
              Stage_beq (se_stage se) s
              && link sig (se_signal se) && link mdl (se_model se)
              && chainb order' (pass_on sig (se_yield se))
                   (pass_on mdl (se_model se)) tr'
          | None => false
          end
          || chainb order sig mdl tr'
      end
  end.

(** In the group-study script the filter is a method of the epochs, and a
    segmentation takes a recording. *)
Definition filters_epochs_segments_raw (ev : Event) : bool :=
  match stage_event ev with
  | Some se =>
      match se_stage se with
      | SFilter =>
          match se_yield se with
          | Some o => Cls_beq (fst o) CEpochs
          | None => false
          end
      | SSegment =>
          match se_signal se with
          | Some o => Cls_beq (fst o) CRaw
          | None => false
          end
      | _ => true
      end
  | None => true
  end.

Definition follows_pipeline (order : list Stage) (tr : list Event) : bool :=
  chainb order None None tr.

(** The order the spec states. *)
Definition stated_pipeline : list Stage :=
  [SLoad; SFilter; SSegment; SFit; SApply; SVisualize].

(* ================================================================== *)
(** * The calls of a run of the group-study script that ends normally

    What the library answered is collected in records; the functions below
    lay out, answer by answer, the calls the script then made.  That a run
    which ends normally has exactly this trace is proved from the script
    further down ([group_study_transcript]). *)

Module GroupRun.

Import GroupStudy.

(** The answers within one pass of the frequency loop. *)
Record FreqReplies : Set := mkFreqReplies {
  f_cov : Cov;
  f_data : NdArray;
  f_real : NdArray;
  f_info : Info;
  f_op : InverseOperator
}.

Definition freq_events (baseline_csd : Csd) (epochs : Epochs) (fwd : Forward)
    (freq_idx : nat) (r : FreqReplies) : list Event :=
  [ Ev 148 (CsdGetData baseline_csd freq_idx true) (Returns (f_cov r));
    Ev 150 (CovGetItem (f_cov r) "data") (Returns (f_data r));
    Ev 150 (NdArrayReal (f_data r)) (Returns (f_real r));
    Ev 150 (CovSetItem (f_cov r) "data" (f_real r)) (Returns tt);
    Ev 154 (EpochsInfo epochs) (Returns (f_info r));
    Ev 155 (MakeInverseOperator (f_info r) fwd (f_cov r))
      (Returns (f_op r)) ].

Fixpoint loop_events (baseline_csd : Csd) (epochs : Epochs) (fwd : Forward)
    (start : nat) (rs : list FreqReplies) : list Event :=
  match rs with
  | [] => []
  | r :: rs' =>
      (freq_events baseline_csd epochs fwd start r
       ++ loop_events baseline_csd epochs fwd (S start) rs')%list
  end.

(** The values of [baseline_cov] and [inverse_operator] after the loop. *)
Definition loop_state (rs : list FreqReplies) (st : Cov * InverseOperator)
  : Cov * InverseOperator :=
  last (map (fun r => (f_cov r, f_op r)) rs) st.

(** The calls of the list comprehension that reads the recordings. *)
Definition read_events (fnames : list PathV) (raws : list Raw)
  : list Event :=
  map (fun fr => Ev 55 (ReadRaw (fst fr) true false) (Returns (snd fr)))
    (combine fnames raws).

(** The answers within one pass of the subject loop. *)
Record SubjectReplies : Set := mkSubjectReplies {
  s_raw_fnames : list PathV;
  s_raws : list Raw;
  s_raw : Raw;
  s_events : Events;
  s_event_dict : EventDict;
  s_raw_info : Info;
  s_picks : Picks;
  s_epochs : Epochs;
  s_reject : Reject;
  s_ica : Ica;
  s_eog_idx : list Z;
  s_eog_scores : Scores;
  s_muscle_idx : list Z;
  s_muscle_scores : Scores;
  s_fwd_info : Info;
  s_fwd : Forward;
  s_rank : Rank;
  s_lo : Scalar;
  s_hi : Scalar;
  s_freqs : NdArray;
  s_n_cycles : NdArray;
  s_epochs_tfr : EpochsTfr;
  s_baseline_csd : Csd;
  s_baseline_cov : Cov;
  s_inv_info : Info;
  s_inverse_operator : InverseOperator;
  s_stc : StcGen;
  s_tfr_freqs : NdArray;
  s_per_freq : list FreqReplies;
  s_stcs : StcGen
}.

(** [lambda2 = 1.0 / snr**2] with [snr = 3.0]. *)
Definition lambda2 : float := (1.0 / (3.0 * 3.0))%float.

Definition subject_events (src : SourceSpaces) (bem : Bem)
    (montage : Montage) (sub : Z) (r : SubjectReplies) : list Event :=
  ([ Ev 51 (Print ("Computing source estimate for subject "
                     ++ string_of_Z sub)) (Returns tt);
     Ev 52 (EegbciLoadData sub runs true) (Returns (s_raw_fnames r)) ]
   ++ read_events (s_raw_fnames r) (s_raws r)
   ++ [ Ev 58 (ConcatenateRaws (s_raws r)) (Returns (s_raw r));
        Ev 59 (EegbciStandardize (s_raw r)) (Returns tt);
        Ev 60 (RawSetMontage (s_raw r) montage false) (Returns tt);
        Ev 63 (EventsFromAnnotations (s_raw r) [("T1", 2%Z); ("T2", 3%Z)])
          (Returns (s_events r, s_event_dict r));
        Ev 66 (RawInfo (s_raw r)) (Returns (s_raw_info r));
        Ev 67 (PickTypes (s_raw_info r) false true false false "bads")
          (Returns (s_picks r));
        Ev 78 (MneEpochs (s_raw r) (s_events r) event_id
                 (tmin - 0.5)%float (tmax + 0.5)%float true (s_picks r)
                 None true None)
          (Returns (s_epochs r));
        Ev 80 (EpochsSetEegReference (s_epochs r) true) (Returns tt);
        Ev 83 (GetRejectionThreshold (s_epochs r)) (Returns (s_reject r));
        Ev 84 (EpochsDropBad (s_epochs r) (s_reject r)) (Returns tt);
        Ev 86 (EpochsFilter (s_epochs r) 1 None) (Returns tt);
        Ev 87 (ICA 15 11) (Returns (s_ica r));
        Ev 88 (IcaFit (s_ica r) (s_epochs r)) (Returns tt);
        Ev 90 (IcaFindBadsEog (s_ica r) (s_epochs r) "Fp1")
          (Returns (s_eog_idx r, s_eog_scores r));
        Ev 91 (IcaFindBadsMuscle (s_ica r) (s_epochs r))
          (Returns (s_muscle_idx r, s_muscle_scores r));
        Ev 92 (IcaApply (s_ica r) (s_epochs r)
                 (s_eog_idx r ++ s_muscle_idx r))
          (Returns tt);
        Ev 96 (EpochsInfo (s_epochs r)) (Returns (s_fwd_info r));
        Ev 97 (MakeForwardSolution (s_fwd_info r) trans src bem true
                 5.0%float)
          (Returns (s_fwd r));
        Ev 99 (ComputeRank (s_epochs r) 1e-6%float "relative")
          (Returns (s_rank r));
        Ev 102 (NpLog10 12) (Returns (s_lo r));
        Ev 102 (NpLog10 30) (Returns (s_hi r));
        Ev 102 (NpLogspace (s_lo r) (s_hi r) 9) (Returns (s_freqs r));
        Ev 108 (NdArrayDiv (s_freqs r) 2) (Returns (s_n_cycles r));
        Ev 112 (TfrMorlet (s_epochs r) (s_freqs r) (s_n_cycles r) false
                  false "complex")
          (Returns (s_epochs_tfr r));
        Ev 114 (CsdTfr (s_epochs_tfr r) (-1) 0)
          (Returns (s_baseline_csd r));
        Ev 116 (EpochsTfrDecimate (s_epochs_tfr r) 20) (Returns tt);
        Ev 124 (EpochsDecimate (s_epochs r) 20) (Returns tt);
        Ev 128 (ComputeCovariance (s_epochs r) 0)
          (Returns (s_baseline_cov r));
        Ev 130 (EpochsInfo (s_epochs r)) (Returns (s_inv_info r));
        Ev 131 (MakeInverseOperator (s_inv_info r) (s_fwd r)
                  (s_baseline_cov r))
          (Returns (s_inverse_operator r));
        Ev 140 (ApplyInverseEpochs (s_epochs r) (s_inverse_operator r)
                  lambda2 "MNE" "vector" true)
          (Returns (s_stc r));
        Ev 146 (EpochsTfrFreqs (s_epochs_tfr r)) (Returns (s_tfr_freqs r));
        Ev 146 (NdArraySize (s_tfr_freqs r))
          (Returns (List.length (s_per_freq r))) ]
   ++ loop_events (s_baseline_csd r) (s_epochs r) (s_fwd r) 0 (s_per_freq r)
   ++ [ Ev 165 (ApplyInverseTfrEpochs (s_epochs_tfr r)
                  (snd (loop_state (s_per_freq r)
                          (s_baseline_cov r, s_inverse_operator r)))
                  lambda2 "MNE" "vector" true)
          (Returns (s_stcs r)) ])%list.

(** The four lists after a pass of the subject loop. *)
Definition acc_after (acc : Acc) (r : SubjectReplies) : Acc :=
  mkAcc (stcs_tfr acc ++ [s_stcs r]) (stcs_epochs acc ++ [s_stc r])
        (insts_tfr acc ++ [s_epochs_tfr r]) (insts_epochs acc ++ [s_epochs r]).

(** The four lists after several passes. *)
Definition acc_extend (acc : Acc) (rs : list SubjectReplies) : Acc :=
  mkAcc (stcs_tfr acc ++ map s_stcs rs) (stcs_epochs acc ++ map s_stc rs)
        (insts_tfr acc ++ map s_epochs_tfr rs)
        (insts_epochs acc ++ map s_epochs rs).

Fixpoint subjects_events (src : SourceSpaces) (bem : Bem)
    (montage : Montage) (subs : list Z) (rs : list SubjectReplies)
  : list Event :=
  match subs, rs with
  | sub :: subs', r :: rs' =>
      (subject_events src bem montage sub r
       ++ subjects_events src bem montage subs' rs')%list
  | _, _ => []
  end.

Definition viewer_events (subjects_dir : PathV) (src : SourceSpaces)
    (acc : Acc) (viewer1 viewer2 : Viewer) : list Event :=
  [ Ev 183 (ViewVolStc (stcs_epochs acc) (GroupBool true) (Some false)
              template subjects_dir src (InstEpochs (insts_epochs acc))
              tmin tmax)
      (Returns viewer1);
    Ev 184 (ViewerGoToExtreme viewer1) (Returns tt);
    Ev 185 (ViewerSetCmap viewer1 0.25%float 0.8%float) (Returns tt);
    Ev 186 (ViewerSet3dView viewer1 40 35 300) (Returns tt);
    Ev 202 (ViewVolStc (stcs_tfr acc) (GroupStr "power") None template
              subjects_dir src (InstTfr (insts_tfr acc)) tmin tmax)
      (Returns viewer2);
    Ev 203 (ViewerGoToExtreme viewer2) (Returns tt);
    Ev 204 (ViewerSetCmap viewer2 0.25%float 0.8%float) (Returns tt);
    Ev 205 (ViewerSet3dView viewer2 40 35 300) (Returns tt) ].

(** The answers of a whole run. *)
Record ScriptReplies : Set := mkScriptReplies {
  g_fs_dir : PathV;
  g_src : SourceSpaces;
  g_bem : Bem;
  g_montage : Montage;
  g_subjects : list SubjectReplies;
  g_viewer1 : Viewer;
  g_viewer2 : Viewer
}.

(** The four lists after the subject loop. *)
Definition final_acc (rs : list SubjectReplies) : Acc :=
  mkAcc (map s_stcs rs) (map s_stc rs) (map s_epochs_tfr rs)
        (map s_epochs rs).

Definition script_events (g : ScriptReplies) : list Event :=
  ([ Ev 15 (Import "os.path" []) (Returns tt);
     Ev 17 (Import "autoreject" []) (Returns tt);
     Ev 18 (Import "mne" []) (Returns tt);
     Ev 19 (Import "numpy" []) (Returns tt);
     Ev 20 (Import "mne.time_frequency" ["csd_tfr"]) (Returns tt);
     Ev 22 (Import "mne_gui_addons" []) (Returns tt);
     Ev 24 (FetchFsaverage true) (Returns (g_fs_dir g));
     Ev 29 (ReadSourceSpaces
              (OsPathJoin (g_fs_dir g) ["bem"; "fsaverage-vol-5-src.fif"]))
       (Returns (g_src g));
     Ev 32 (ReadBemSolution
              (OsPathJoin (g_fs_dir g)
                 ["bem"; "fsaverage-5120-5120-5120-bem-sol.fif"]))
       (Returns (g_bem g));
     Ev 45 (MakeStandardMontage "standard_1005") (Returns (g_montage g)) ]
   ++ subjects_events (g_src g) (g_bem g) (g_montage g) subjects
        (g_subjects g)
   ++ viewer_events (OsPathDirname (g_fs_dir g)) (g_src g)
        (final_acc (g_subjects g)) (g_viewer1 g) (g_viewer2 g))%list.

End GroupRun.

(* ================================================================== *)
(** * What the claims select from a trace *)

(** The life of a viewer object: its creation by [view_vol_stc] and the
    methods called on it. *)
Inductive ViewerOp : Set :=
| VCreated (v : Viewer)
| VGoToExtreme (v : Viewer)
| VSetCmap (v : Viewer) (vmin vmid : float)
| VSet3dView (v : Viewer) (azimuth elevation distance : Z).

Definition sel_viewer_op (ev : Event) : option ViewerOp :=
  match ev with
  | Ev _ c o =>
      match c in LibCall T return Outcome T -> option ViewerOp with
      | ViewVolStc _ _ _ _ _ _ _ _ _ => fun o =>
          match o with
          | Returns v => Some (VCreated v)
          | Raises _ => None
          end
      | ViewerGoToExtreme v => fun _ => Some (VGoToExtreme v)
      | ViewerSetCmap v vmin vmid => fun _ => Some (VSetCmap v vmin vmid)
      | ViewerSet3dView v a e d => fun _ => Some (VSet3dView v a e d)
      | _ => fun _ => None
      end o
  end.

(** The calls that produce what the group-study script accumulates, the
    call that opens a pass of the subject loop, and the viewer calls that
    receive the accumulated lists. *)
Inductive Landmark : Set :=
| LSubject (sub : Z)
| LEpochs (epochs : Epochs)
| LTfr (epochs_tfr : EpochsTfr)
| LStcEpochs (stc : StcGen)
| LStcTfr (stcs : StcGen)
| LViewer (stcs : list StcGen) (inst : InstList).

Definition sel_landmark (ev : Event) : option Landmark :=
  match ev with
  | Ev _ c o =>
      match c in LibCall T return Outcome T -> option Landmark with
      | EegbciLoadData sub _ _ => fun _ => Some (LSubject sub)
      | MneEpochs _ _ _ _ _ _ _ _ _ _ => fun o =>
          match o with
          | Returns e => Some (LEpochs e)
          | Raises _ => None
          end
      | TfrMorlet _ _ _ _ _ _ => fun o =>
          match o with
          | Returns t => Some (LTfr t)
          | Raises _ => None
          end
      | ApplyInverseEpochs _ _ _ _ _ _ => fun o =>
          match o with
          | Returns g => Some (LStcEpochs g)
          | Raises _ => None
          end
      | ApplyInverseTfrEpochs _ _ _ _ _ _ => fun o =>
          match o with
          | Returns g => Some (LStcTfr g)
          | Raises _ => None
          end
      | ViewVolStc stcs _ _ _ _ _ inst _ _ => fun _ =>
          Some (LViewer stcs inst)
      | _ => fun _ => None
      end o
  end.

(** One pass of the subject loop, by what it produced. *)
Record Pass : Set := mkPass {
  p_sub : Z;
  p_epochs : Epochs;
  p_tfr : EpochsTfr;
  p_stc_epochs : StcGen;
  p_stc_tfr : StcGen
}.

Definition pass_landmarks (p : Pass) : list Landmark :=
  [ LSubject (p_sub p); LEpochs (p_epochs p); LTfr (p_tfr p);
    LStcEpochs (p_stc_epochs p); LStcTfr (p_stc_tfr p) ].

(** Of the trace of a run: the passes, their results and the lists the
    viewers receive. *)
Definition one_entry_per_subject (tr : list Event) : Prop :=
  exists passes : list Pass,
    map p_sub passes = [1; 2; 3]%Z
    /\ pick sel_landmark tr
       = (flat_map pass_landmarks passes
          ++ [ LViewer (map p_stc_epochs passes)
                 (InstEpochs (map p_epochs passes));
               LViewer (map p_stc_tfr passes)
                 (InstTfr (map p_tfr passes)) ])%list.

(** Of one pass of the loop body: each list grows by one entry. *)
Definition appends_one_to_each (acc acc' : GroupStudy.Acc) : Prop :=
  exists (a b : StcGen) (c : EpochsTfr) (d : Epochs),
    acc' = GroupStudy.mkAcc
             (GroupStudy.stcs_tfr acc ++ [a])
             (GroupStudy.stcs_epochs acc ++ [b])
             (GroupStudy.insts_tfr acc ++ [c])
             (GroupStudy.insts_epochs acc ++ [d]).

(** The calls that make up the time-frequency decomposition, each with
    its arguments and with what it returned. *)
Inductive TfStep : Set :=
| TfSegment (epochs : Epochs)
| TfLog10 (x : Z) (out : Scalar)
| TfLogspace (start stop : Scalar) (num : Z) (out : NdArray)
| TfDiv (a : NdArray) (d : Z) (out : NdArray)
| TfMorlet (epochs : Epochs) (freqs n_cycles : NdArray)
    (return_itc average : bool) (output : string) (out : EpochsTfr).

Definition sel_tf (ev : Event) : option TfStep :=
  match ev with
  | Ev _ c o =>
      match c in LibCall T return Outcome T -> option TfStep with
      | MneEpochs _ _ _ _ _ _ _ _ _ _ => fun o =>
          match o with
          | Returns e => Some (TfSegment e)
          | Raises _ => None
          end
      | NpLog10 x => fun o =>
          match o with
          | Returns out => Some (TfLog10 x out)
          | Raises _ => None
          end
      | NpLogspace a b n => fun o =>
          match o with
          | Returns out => Some (TfLogspace a b n out)
          | Raises _ => None
          end
      | NdArrayDiv a d => fun o =>
          match o with
          | Returns out => Some (TfDiv a d out)
          | Raises _ => None
          end
      | TfrMorlet e f nc itc avg output => fun o =>
          match o with
          | Returns out => Some (TfMorlet e f nc itc avg output out)
          | Raises _ => None
          end
      | _ => fun _ => None
      end o
  end.

(** One time-frequency decomposition, by the objects involved. *)
Record TfPass : Set := mkTfPass {
  tf_epochs : Epochs;
  tf_lo : Scalar;
  tf_hi : Scalar;
  tf_freqs : NdArray;
  tf_n_cycles : NdArray;
  tf_out : EpochsTfr
}.

(** [freqs = np.logspace(np.log10(12), np.log10(30), 9)], then
    [tfr_morlet(epochs, freqs=freqs, n_cycles=freqs / 2, return_itc=False,
    average=False, output="complex")]. *)
Definition tf_steps (p : TfPass) : list TfStep :=
  [ TfSegment (tf_epochs p);
    TfLog10 12 (tf_lo p);
    TfLog10 30 (tf_hi p);
    TfLogspace (tf_lo p) (tf_hi p) 9 (tf_freqs p);
    TfDiv (tf_freqs p) 2 (tf_n_cycles p);
    TfMorlet (tf_epochs p) (tf_freqs p) (tf_n_cycles p) false false
      "complex" (tf_out p) ].

(** The calls around the inverse operators: the number of frequencies the
    time-frequency object reports, the covariance taken for a frequency
    index, an inverse operator made from a covariance, an inverse operator
    applied (to the epochs, or to the time-frequency epochs), and the list
    of source estimates a viewer is given. *)
Inductive InvStep : Set :=
| ISize (n : nat)
| IFreqCov (freq_idx : nat) (cov : Cov)
| IMade (noise_cov : Cov) (op : InverseOperator)
| IAppliedEpochs (op : InverseOperator) (stc : StcGen)
| IAppliedTfr (op : InverseOperator) (stcs : StcGen)
| IViewed (stcs : list StcGen).

Definition sel_inv (ev : Event) : option InvStep :=
  match ev with
  | Ev _ c o =>
      match c in LibCall T return Outcome T -> option InvStep with
      | NdArraySize _ => fun o =>
          match o with
          | Returns n => Some (ISize n)
          | Raises _ => None
          end
      | CsdGetData _ idx _ => fun o =>
          match o with
          | Returns cov => Some (IFreqCov idx cov)
          | Raises _ => None
          end
      | MakeInverseOperator _ _ cov => fun o =>
          match o with
          | Returns op => Some (IMade cov op)
          | Raises _ => None
          end
      | ApplyInverseEpochs _ op _ _ _ _ => fun o =>
          match o with
          | Returns g => Some (IAppliedEpochs op g)
          | Raises _ => None
          end
      | ApplyInverseTfrEpochs _ op _ _ _ _ => fun o =>
          match o with
          | Returns g => Some (IAppliedTfr op g)
          | Raises _ => None
          end
      | ViewVolStc stcs _ _ _ _ _ _ _ _ => fun _ => Some (IViewed stcs)
      | _ => fun _ => None
      end o
  end.

(** The frequency counts the library reported. *)
Definition sel_size (ev : Event) : option nat :=
  match sel_inv ev with
  | Some (ISize n) => Some n
  | _ => None
  end.

(** One pass of the subject loop, by its inverse operators: the covariance
    and operator of the time-series part, its source estimate, the
    covariance and operator of each pass of the frequency loop, and the
    source estimate of the time-frequency part. *)
Record InvPass : Set := mkInvPass {
  i_cov0 : Cov;
  i_op0 : InverseOperator;
  i_stc : StcGen;
  i_freq : list (Cov * InverseOperator);
  i_stcs : StcGen
}.

(** The operator [inverse_operator] names once the frequency loop is over:
    the one made last. *)
Definition last_made (p : InvPass) : InverseOperator :=
  snd (last (i_freq p) (i_cov0 p, i_op0 p)).

Definition freq_steps (ic : nat * (Cov * InverseOperator)) : list InvStep :=
  [ IFreqCov (fst ic) (fst (snd ic)); IMade (fst (snd ic)) (snd (snd ic)) ].

Definition inv_steps (p : InvPass) : list InvStep :=
  ([ IMade (i_cov0 p) (i_op0 p);
     IAppliedEpochs (i_op0 p) (i_stc p);
     ISize (List.length (i_freq p)) ]
   ++ flat_map freq_steps
        (combine (seq 0 (List.length (i_freq p))) (i_freq p))
   ++ [ IAppliedTfr (last_made p) (i_stcs p) ])%list.

(** The inverse operators of a pass, from the answers of the library. *)
Definition inv_pass_of (r : GroupRun.SubjectReplies) : InvPass :=
  mkInvPass (GroupRun.s_baseline_cov r) (GroupRun.s_inverse_operator r)
    (GroupRun.s_stc r)
    (map (fun f => (GroupRun.f_cov f, GroupRun.f_op f))
       (GroupRun.s_per_freq r))
    (GroupRun.s_stcs r).

(** Of the trace of a run: in each of the three passes nine frequencies,
    and the calls around the inverse operators as [inv_steps] lays them
    out. *)
Definition last_operator_serves_all_frequencies (tr : list Event) : Prop :=
  exists passes : list InvPass,
    List.length passes = 3
    /\ Forall (fun p => List.length (i_freq p) = 9) passes
    /\ pick sel_inv tr
       = (flat_map inv_steps passes
          ++ [ IViewed (map i_stc passes); IViewed (map i_stcs passes) ])%list.

(* ================================================================== *)
(** * The pipeline, object by object

    What each call of the pipeline works on and what the script takes from
    it, so that the stages can be followed from the recording that is read
    to what is shown. *)

Inductive PipeStep : Set :=
| PipeLoad (raw : Raw)
| PipeConcatenate (raws : list Raw) (raw : Raw)
| PipeFilterRaw (raw : Raw)
| PipeSegment (raw : Raw) (epochs : Epochs)
| PipeFilterEpochs (epochs : Epochs)
| PipeFit (model : Obj) (epochs : Epochs)
| PipeApply (model : Obj) (epochs : Epochs) (returned : option Obj)
| PipeDerive (from result : Obj)
| PipeShowImage (epochs : Epochs)
| PipeView (stcs : list StcGen) (inst : InstList).

(** [PipeLoad]: a reader returned the recording.  [PipeApply]: [returned]
    is what the script takes from the call, the denoised epochs of
    [Xdawn.apply] and nothing of [ICA.apply], which works on the epochs it
    is given.
    [PipeDerive]: an object computed from another, by indexing
    ([epochs["vis_r"]]), [tfr_morlet], [apply_inverse_epochs] or
    [apply_inverse_tfr_epochs]. *)
Definition sel_pipe (ev : Event) : option PipeStep :=
  match ev with
  | Ev _ c o =>
      match c in LibCall T return Outcome T -> option PipeStep with
      | ReadRawFif _ _ => fun o =>
          match o with Returns raw => Some (PipeLoad raw) | Raises _ => None end
      | ReadRaw _ _ _ => fun o =>
          match o with Returns raw => Some (PipeLoad raw) | Raises _ => None end
      | ConcatenateRaws raws => fun o =>
          match o with
          | Returns raw => Some (PipeConcatenate raws raw)
          | Raises _ => None
          end
      | RawFilter raw _ _ _ => fun _ => Some (PipeFilterRaw raw)
      | MneEpochs raw _ _ _ _ _ _ _ _ _ => fun o =>
          match o with
          | Returns epochs => Some (PipeSegment raw epochs)
          | Raises _ => None
          end
      | EpochsFilter epochs _ _ => fun _ => Some (PipeFilterEpochs epochs)
      | XdawnFit xd epochs => fun _ => Some (PipeFit (obj xd) epochs)
      | IcaFit ica epochs => fun _ => Some (PipeFit (obj ica) epochs)
      | XdawnApply xd epochs => fun o =>
          match o with
          | Returns d => Some (PipeApply (obj xd) epochs (Some (obj d)))
          | Raises _ => None
          end
      | IcaApply ica epochs _ => fun _ =>
          Some (PipeApply (obj ica) epochs None)
      | EpochsGetItem epochs _ => fun o =>
          match o with
          | Returns out => Some (PipeDerive (obj epochs) (obj out))
          | Raises _ => None
          end
      | DenoisedGetItem d _ => fun o =>
          match o with
          | Returns out => Some (PipeDerive (obj d) (obj out))
          | Raises _ => None
          end
      | TfrMorlet epochs _ _ _ _ _ => fun o =>
          match o with
          | Returns tfr => Some (PipeDerive (obj epochs) (obj tfr))
          | Raises _ => None
          end
      | ApplyInverseEpochs epochs _ _ _ _ _ => fun o =>
          match o with
          | Returns stc => Some (PipeDerive (obj epochs) (obj stc))
          | Raises _ => None
          end
      | ApplyInverseTfrEpochs tfr _ _ _ _ _ => fun o =>
          match o with
          | Returns stcs => Some (PipeDerive (obj tfr) (obj stcs))
          | Raises _ => None
          end
      | PlotEpochsImage epochs _ _ _ => fun _ => Some (PipeShowImage epochs)
      | ViewVolStc stcs _ _ _ _ _ inst _ _ => fun _ => Some (PipeView stcs inst)
      | _ => fun _ => None
      end o
  end.

(** The XDAWN script: the stated order.  The recording that was loaded is
    filtered, then segmented; the transform is fitted on the epochs and
    applied to them; what is shown last is taken from what [apply]
    returned.  (The epochs are also shown once before the fit.) *)
Definition xdawn_pipeline (raw : Raw) (epochs before : Epochs)
    (xd : XdawnObj) (denoised : Denoised) (after : Epochs)
  : list PipeStep :=
  [ PipeLoad raw;
    PipeFilterRaw raw;
    PipeSegment raw epochs;
    PipeDerive (obj epochs) (obj before);
    PipeShowImage before;
    PipeFit (obj xd) epochs;
    PipeApply (obj xd) epochs (Some (obj denoised));
    PipeDerive (obj denoised) (obj after);
    PipeShowImage after ].

(** One subject of the group-study script. *)
Record PipePass : Set := mkPipePass {
  pl_raws : list Raw;
  pl_raw : Raw;
  pl_epochs : Epochs;
  pl_ica : Ica;
  pl_tfr : EpochsTfr;
  pl_stc : StcGen;
  pl_stcs : StcGen
}.

(** The order of the group-study script for one subject: the recordings are
    loaded and concatenated, the concatenated recording is segmented, and
    it is the epochs that are filtered; the ICA is fitted on these epochs
    and applied to them; the time-frequency object and the two source
    estimates are computed from them. *)
Definition pipe_steps (p : PipePass) : list PipeStep :=
  (map PipeLoad (pl_raws p)
   ++ [ PipeConcatenate (pl_raws p) (pl_raw p);
        PipeSegment (pl_raw p) (pl_epochs p);
        PipeFilterEpochs (pl_epochs p);
        PipeFit (obj (pl_ica p)) (pl_epochs p);
        PipeApply (obj (pl_ica p)) (pl_epochs p) None;
        PipeDerive (obj (pl_epochs p)) (obj (pl_tfr p));
        PipeDerive (obj (pl_epochs p)) (obj (pl_stc p));
        PipeDerive (obj (pl_tfr p)) (obj (pl_stcs p)) ])%list.

(** The whole script: the subjects one after the other, then the two
    viewers, which show the epochs of the subjects with their source
    estimates and the time-frequency objects with theirs. *)
Definition group_study_pipeline (passes : list PipePass) : list PipeStep :=
  (flat_map pipe_steps passes
   ++ [ PipeView (map pl_stc passes) (InstEpochs (map pl_epochs passes));
        PipeView (map pl_stcs passes) (InstTfr (map pl_tfr passes)) ])%list.

Definition pipe_pass_of (r : GroupRun.SubjectReplies) : PipePass :=
  mkPipePass (GroupRun.s_raws r) (GroupRun.s_raw r) (GroupRun.s_epochs r)
    (GroupRun.s_ica r) (GroupRun.s_epochs_tfr r) (GroupRun.s_stc r)
    (GroupRun.s_stcs r).

(** A call that filters a recording. *)
Definition filters_a_recording (ev : Event) : bool :=
  match ev with
  | Ev _ c _ =>
      match c with
      | RawFilter _ _ _ _ => true
      | _ => false
      end
  end.

Definition leaves_recordings_unfiltered (ev : Event) : bool :=
  negb (filters_a_recording ev).

(* ================================================================== *)
(** * Properties of every call, and the order of the calls *)

(** Every call of the run satisfies [P]. *)
Definition all_events (P : Event -> bool) {A} (evs : list Event)
    (o : Outcome A) : Prop :=
  forallb P evs = true.

(** The text of [s] before its first dot: the top-level package of a dotted
    Python name. *)
Fixpoint top_package (s : string) : string :=
  match s with
  | EmptyString => EmptyString
  | String c s' =>
      if Ascii.eqb c "."%char then EmptyString else String c (top_package s')
  end.

Definition string_in (s : string) (l : list string) : bool :=
  existsb (String.eqb s) l.

(** The modules the XDAWN script imports, and the functions, methods and
    attributes it calls, by their Python names. *)
Definition xdawn_modules : list string :=
  [ "mne"; "mne.datasets"; "mne.preprocessing"; "mne.viz" ].

Definition xdawn_calls : list string :=
  [ "builtins.print";
    "mne.datasets.sample.data_path";
    "mne.io.read_raw_fif";
    "mne.io.Raw.filter";
    "mne.read_events";
    "mne.io.Raw.info";
    "mne.Info.__setitem__";
    "mne.pick_types";
    "mne.Epochs";
    "mne.Epochs.__getitem__";
    "mne.viz.plot_epochs_image";
    "mne.compute_raw_covariance";
    "mne.preprocessing.Xdawn";
    "mne.preprocessing.Xdawn.fit";
    "mne.preprocessing.Xdawn.apply";
    "builtins.dict.__getitem__" ].

(** The same for the group-study script. *)
Definition group_study_modules : list string :=
  [ "os.path"; "autoreject"; "mne"; "numpy"; "mne.time_frequency";
    "mne_gui_addons" ].

Definition group_study_calls : list string :=
  [ "mne.datasets.fetch_fsaverage";
    "mne.read_source_spaces";
    "mne.read_bem_solution";
    "mne.channels.make_standard_montage";
    "builtins.print";
    "mne.datasets.eegbci.load_data";
    "mne.io.read_raw";
    "mne.concatenate_raws";
    "mne.datasets.eegbci.standardize";
    "mne.io.Raw.set_montage";
    "mne.events_from_annotations";
    "mne.io.Raw.info";
    "mne.pick_types";
    "mne.Epochs";
    "mne.Epochs.set_eeg_reference";
    "autoreject.get_rejection_threshold";
    "mne.Epochs.drop_bad";
    "mne.Epochs.filter";
    "mne.preprocessing.ICA";
    "mne.preprocessing.ICA.fit";
    "mne.preprocessing.ICA.find_bads_eog";
    "mne.preprocessing.ICA.find_bads_muscle";
    "mne.preprocessing.ICA.apply";
    "mne.Epochs.info";
    "mne.make_forward_solution";
    "mne.compute_rank";
    "numpy.log10";
    "numpy.logspace";
    "numpy.ndarray.__truediv__";
    "mne.time_frequency.tfr_morlet";
    "mne.time_frequency.csd_tfr";
    "mne.time_frequency.EpochsTFR.decimate";
    "mne.Epochs.decimate";
    "mne.compute_covariance";
    "mne.minimum_norm.make_inverse_operator";
    "mne.minimum_norm.apply_inverse_epochs";
    "mne.time_frequency.EpochsTFR.freqs";
    "numpy.ndarray.size";
    "mne.time_frequency.CrossSpectralDensity.get_data";
    "mne.Covariance.__getitem__";
    "numpy.ndarray.real";
    "mne.Covariance.__setitem__";
    "mne.minimum_norm.apply_inverse_tfr_epochs";
    "mne_gui_addons.view_vol_stc";
    "mne_gui_addons.VolSourceEstimateViewer.go_to_extreme";
    "mne_gui_addons.VolSourceEstimateViewer.set_cmap";
    "mne_gui_addons.VolSourceEstimateViewer.set_3d_view" ].

(** An import is of one of [modules], and any other call is of one of
    [names]. *)
Definition calls_only (modules names : list string) (ev : Event) : bool :=
  match ev with
  | Ev _ c _ =>
      match c with
      | Import module _ => string_in module modules
      | _ => string_in (qualname c) names
      end
  end.

(** Two calls that follow each other are in program order when the second
    is completed on the same or a later line, or when the first is the last
    call of the body of a loop and the second the first call of that body: a
    new pass of the loop.  [loops] gives, for each loop, the lines of the
    first and of the last call of its body. *)
Definition step_ok (loops : list (nat * nat)) (l1 l2 : nat) : bool :=
  Nat.leb l1 l2
  || existsb (fun ht => Nat.eqb l2 (fst ht) && Nat.eqb l1 (snd ht)) loops.

Fixpoint in_program_order (loops : list (nat * nat)) (lines : list nat)
  : bool :=
  match lines with
  | [] => true
  | l1 :: rest =>
      match rest with
      | [] => true
      | l2 :: _ => step_ok loops l1 l2
      end
      && in_program_order loops rest
  end.

(** The calls [evs] are in program order and on lines from [lo] to [hi]. *)
Definition ordered (loops : list (nat * nat)) (lo hi : nat) {A}
    (evs : list Event) (o : Outcome A) : Prop :=
  in_program_order loops (map ev_line evs) = true
  /\ Forall (fun ev => lo <= ev_line ev <= hi) evs.

(** The first call, if any, is on line [head]. *)
Definition starts_at (head : nat) {A} (evs : list Event) (o : Outcome A)
  : Prop :=
  match evs with
  | [] => True
  | ev :: _ => ev_line ev = head
  end.

(** When the outcome is normal there is a last call, on line [tail]. *)
Definition ends_at (tail : nat) {A} (evs : list Event) (o : Outcome A)
  : Prop :=
  match o with
  | Returns _ => exists pre ev, evs = (pre ++ [ev])%list /\ ev_line ev = tail
  | Raises _ => True
  end.

(** A pass of a loop body whose first call is on line [head] and whose last
    call is on line [tail]. *)
Definition pass_of (loops : list (nat * nat)) (head tail : nat) {A}
    (evs : list Event) (o : Outcome A) : Prop :=
  ordered loops head tail evs o /\ starts_at head evs o
  /\ ends_at tail evs o.

(** The XDAWN script has no loop. *)
Definition xdawn_loops : list (nat * nat) := [].

(** The loops of the group-study script: the body of [for sub in
    range(1, 4)] makes its first call on line 51 and its last on line 165,
    the body of [for freq_idx in ...] its first on line 148 and its last on
    line 155.  (The calls of the list comprehension are all completed on
    line 55.) *)
Definition group_study_loops : list (nat * nat) := [(51, 165); (148, 155)].

(* ================================================================== *)
(** * Files and interfaces *)

(** The libraries the scripts are written against. *)
Definition external_libraries : list string :=
  [ "mne"; "numpy"; "autoreject"; "mne_gui_addons" ].

(** A call stays within the external libraries: it is a function, method or
    attribute of one of them, or the import of one of them or of [os.path]
    (whose [join] and [dirname] build the paths), or one of the two builtins
    the scripts use, [print] and the indexing of the dict that [Xdawn.apply]
    returned. *)
Definition external_only (ev : Event) : bool :=
  match ev with
  | Ev _ c _ =>
      match c with
      | Import module _ =>
          string_in (top_package module) ("os" :: external_libraries)
      | Print _ => true
      | DenoisedGetItem _ _ => true
      | _ => string_in (top_package (qualname c)) external_libraries
      end
  end.

(** What a script does about files: a directory the library hands out, the
    recording files the library locates, and a file read through one of the
    library's readers. *)
Inductive FileStep : Set :=
| FRoot (dir : PathV)
| FFound (files : list PathV)
| FRead (reader : string) (fname : PathV).

Definition sel_file (ev : Event) : option FileStep :=
  match ev with
  | Ev _ c o =>
      match c in LibCall T return Outcome T -> option FileStep with
      | SampleDataPath => fun o =>
          match o with
          | Returns d => Some (FRoot d)
          | Raises _ => None
          end
      | FetchFsaverage _ => fun o =>
          match o with
          | Returns d => Some (FRoot d)
          | Raises _ => None
          end
      | EegbciLoadData _ _ _ => fun o =>
          match o with
          | Returns files => Some (FFound files)
          | Raises _ => None
          end
      | ReadRawFif fname _ => fun _ =>
          Some (FRead "mne.io.read_raw_fif" fname)
      | ReadEvents fname => fun _ => Some (FRead "mne.read_events" fname)
      | ReadSourceSpaces fname => fun _ =>
          Some (FRead "mne.read_source_spaces" fname)
      | ReadBemSolution fname => fun _ =>
          Some (FRead "mne.read_bem_solution" fname)
      | ReadRaw fname _ _ => fun _ => Some (FRead "mne.io.read_raw" fname)
      | _ => fun _ => None
      end o
  end.

(** The files of the XDAWN script: a raw recording and an event file, both
    in the directory of the sample data. *)
Definition xdawn_files (data_path : PathV) : list FileStep :=
  [ FRoot data_path;
    FRead "mne.io.read_raw_fif"
      (PathDiv (PathDiv (PathDiv data_path "MEG") "sample")
         "sample_audvis_filt-0-40_raw.fif");
    FRead "mne.read_events"
      (PathDiv (PathDiv (PathDiv data_path "MEG") "sample")
         "sample_audvis_filt-0-40_raw-eve.fif") ].

(** The files of the group-study script: a source-space file and a
    boundary-element-model solution file in the [fsaverage] directory, and
    for each subject the recording files the library located. *)
Definition group_study_files (fs_dir : PathV) (found : list (list PathV))
  : list FileStep :=
  ([ FRoot fs_dir;
     FRead "mne.read_source_spaces"
       (OsPathJoin fs_dir ["bem"; "fsaverage-vol-5-src.fif"]);
     FRead "mne.read_bem_solution"
       (OsPathJoin fs_dir ["bem"; "fsaverage-5120-5120-5120-bem-sol.fif"]) ]
   ++ flat_map
        (fun files => FFound files :: map (FRead "mne.io.read_raw") files)
        found)%list.

(** [mne.preprocessing.ICA(n_components=15, random_state=11)]: an ICA
    object is made with these two constants and never otherwise. *)
Definition ica_seeded (ev : Event) : bool :=
  match ev with
  | Ev _ c _ =>
      match c with
      | ICA n_components random_state =>
          Z.eqb n_components 15 && Z.eqb random_state 11
      | _ => true
      end
  end.

(* ================================================================== *)
(** * Further selections from a group-study trace *)

(** Getting the recordings of a subject: the progress message, the montage
    made for all subjects, the files the library locates, each file read,
    the recordings concatenated, and what is done with the result up to the
    segmentation. *)
Inductive RecStep : Set :=
| RMontageMade (kind : string) (montage : Montage)
| RAnnounce (text : string)
| RFound (sub : Z) (runs : list Z) (update_path : bool) (files : list PathV)
| RRead (fname : PathV) (preload verbose : bool) (raw : Raw)
| RConcat (raws : list Raw) (out : Raw)
| RStandardize (raw : Raw)
| RSetMontage (raw : Raw) (montage : Montage) (verbose : bool)
| RSegment (raw : Raw).

Definition sel_rec (ev : Event) : option RecStep :=
  match ev with
  | Ev _ c o =>
      match c in LibCall T return Outcome T -> option RecStep with
      | MakeStandardMontage kind => fun o =>
          match o with
          | Returns m => Some (RMontageMade kind m)
          | Raises _ => None
          end
      | Print text => fun _ => Some (RAnnounce text)
      | EegbciLoadData sub runs up => fun o =>
          match o with
          | Returns files => Some (RFound sub runs up files)
          | Raises _ => None
          end
      | ReadRaw fname preload verbose => fun o =>
          match o with
          | Returns raw => Some (RRead fname preload verbose raw)
          | Raises _ => None
          end
      | ConcatenateRaws raws => fun o =>
          match o with
          | Returns out => Some (RConcat raws out)
          | Raises _ => None
          end
      | EegbciStandardize raw => fun _ => Some (RStandardize raw)
      | RawSetMontage raw m v => fun _ => Some (RSetMontage raw m v)
      | MneEpochs raw _ _ _ _ _ _ _ _ _ => fun _ => Some (RSegment raw)
      | _ => fun _ => None
      end o
  end.

Record RecPass : Set := mkRecPass {
  rc_sub : Z;
  rc_files : list PathV;
  rc_raws : list Raw;
  rc_raw : Raw
}.

Definition rec_steps (montage : Montage) (p : RecPass) : list RecStep :=
  ([ RAnnounce ("Computing source estimate for subject "
                  ++ string_of_Z (rc_sub p));
     RFound (rc_sub p) [6; 10; 14]%Z true (rc_files p) ]
   ++ map (fun fr => RRead (fst fr) true false (snd fr))
        (combine (rc_files p) (rc_raws p))
   ++ [ RConcat (rc_raws p) (rc_raw p);
        RStandardize (rc_raw p);
        RSetMontage (rc_raw p) montage false;
        RSegment (rc_raw p) ])%list.

Definition rec_pass_of (sub : Z) (r : GroupRun.SubjectReplies) : RecPass :=
  mkRecPass sub (GroupRun.s_raw_fnames r) (GroupRun.s_raws r)
    (GroupRun.s_raw r).

(** What is done to the epochs of a subject before the ICA is fitted. *)
Inductive PreStep : Set :=
| PSegment (epochs : Epochs)
| PReference (epochs : Epochs) (projection : bool)
| PThreshold (epochs : Epochs) (reject : Reject)
| PDropBad (epochs : Epochs) (reject : Reject)
| PFilter (epochs : Epochs) (l_freq : Z) (h_freq : option Z)
| PIcaFit (ica : Ica) (epochs : Epochs).

Definition sel_pre (ev : Event) : option PreStep :=
  match ev with
  | Ev _ c o =>
      match c in LibCall T return Outcome T -> option PreStep with
      | MneEpochs _ _ _ _ _ _ _ _ _ _ => fun o =>
          match o with
          | Returns e => Some (PSegment e)
          | Raises _ => None
          end
      | EpochsSetEegReference e proj => fun _ => Some (PReference e proj)
      | GetRejectionThreshold e => fun o =>
          match o with
          | Returns rej => Some (PThreshold e rej)
          | Raises _ => None
          end
      | EpochsDropBad e rej => fun _ => Some (PDropBad e rej)
      | EpochsFilter e l h => fun _ => Some (PFilter e l h)
      | IcaFit ica e => fun _ => Some (PIcaFit ica e)
      | _ => fun _ => None
      end o
  end.

Record PrePass : Set := mkPrePass {
  pp_epochs : Epochs;
  pp_reject : Reject;
  pp_ica : Ica
}.

Definition pre_steps (p : PrePass) : list PreStep :=
  [ PSegment (pp_epochs p);
    PReference (pp_epochs p) true;
    PThreshold (pp_epochs p) (pp_reject p);
    PDropBad (pp_epochs p) (pp_reject p);
    PFilter (pp_epochs p) 1 None;
    PIcaFit (pp_ica p) (pp_epochs p) ].

Definition pre_pass_of (r : GroupRun.SubjectReplies) : PrePass :=
  mkPrePass (GroupRun.s_epochs r) (GroupRun.s_reject r) (GroupRun.s_ica r).

(** The removal of artifacts with the ICA. *)
Inductive IcaStep : Set :=
| IcaMade (n_components random_state : Z) (ica : Ica)
| IcaFitted (ica : Ica) (epochs : Epochs)
| IcaEog (ica : Ica) (epochs : Epochs) (ch_name : string) (idx : list Z)
| IcaMuscle (ica : Ica) (epochs : Epochs) (idx : list Z)
| IcaApplied (ica : Ica) (epochs : Epochs) (exclude : list Z).

Definition sel_ica (ev : Event) : option IcaStep :=
  match ev with
  | Ev _ c o =>
      match c in LibCall T return Outcome T -> option IcaStep with
      | ICA n seed => fun o =>
          match o with
          | Returns ica => Some (IcaMade n seed ica)
          | Raises _ => None
          end
      | IcaFit ica e => fun _ => Some (IcaFitted ica e)
      | IcaFindBadsEog ica e ch => fun o =>
          match o with
          | Returns p => Some (IcaEog ica e ch (fst p))
          | Raises _ => None
          end
      | IcaFindBadsMuscle ica e => fun o =>
          match o with
          | Returns p => Some (IcaMuscle ica e (fst p))
          | Raises _ => None
          end
      | IcaApply ica e exclude => fun _ => Some (IcaApplied ica e exclude)
      | _ => fun _ => None
      end o
  end.

Record IcaPass : Set := mkIcaPass {
  ic_ica : Ica;
  ic_epochs : Epochs;
  ic_eog : list Z;
  ic_muscle : list Z
}.

Definition ica_steps (p : IcaPass) : list IcaStep :=
  [ IcaMade 15 11 (ic_ica p);
    IcaFitted (ic_ica p) (ic_epochs p);
    IcaEog (ic_ica p) (ic_epochs p) "Fp1" (ic_eog p);
    IcaMuscle (ic_ica p) (ic_epochs p) (ic_muscle p);
    IcaApplied (ic_ica p) (ic_epochs p) (ic_eog p ++ ic_muscle p) ].

Definition ica_pass_of (r : GroupRun.SubjectReplies) : IcaPass :=
  mkIcaPass (GroupRun.s_ica r) (GroupRun.s_epochs r) (GroupRun.s_eog_idx r)
    (GroupRun.s_muscle_idx r).

(** Where the decimation stands among the computations of a pass. *)
Inductive DecStep : Set :=
| DMorlet (epochs : Epochs) (tfr : EpochsTfr)
| DCsd (tfr : EpochsTfr) (tmin tmax : Z) (csd : Csd)
| DDecimateTfr (tfr : EpochsTfr) (decim : Z)
| DDecimateEpochs (epochs : Epochs) (decim : Z)
| DCovariance (epochs : Epochs) (tmax : Z)
| DSourceEpochs (epochs : Epochs)
| DFreqCov (csd : Csd) (freq_idx : nat)
| DSourceTfr (tfr : EpochsTfr).

Definition sel_dec (ev : Event) : option DecStep :=
  match ev with
  | Ev _ c o =>
      match c in LibCall T return Outcome T -> option DecStep with
      | TfrMorlet e _ _ _ _ _ => fun o =>
          match o with
          | Returns t => Some (DMorlet e t)
          | Raises _ => None
          end
      | CsdTfr t a b => fun o =>
          match o with
          | Returns csd => Some (DCsd t a b csd)
          | Raises _ => None
          end
      | EpochsTfrDecimate t n => fun _ => Some (DDecimateTfr t n)
      | EpochsDecimate e n => fun _ => Some (DDecimateEpochs e n)
      | ComputeCovariance e tmax => fun _ => Some (DCovariance e tmax)
      | ApplyInverseEpochs e _ _ _ _ _ => fun _ => Some (DSourceEpochs e)
      | CsdGetData csd idx _ => fun _ => Some (DFreqCov csd idx)
      | ApplyInverseTfrEpochs t _ _ _ _ _ => fun _ => Some (DSourceTfr t)
      | _ => fun _ => None
      end o
  end.

Record DecPass : Set := mkDecPass {
  dc_epochs : Epochs;
  dc_tfr : EpochsTfr;
  dc_csd : Csd;
  dc_size : nat
}.

Definition dec_steps (p : DecPass) : list DecStep :=
  ([ DMorlet (dc_epochs p) (dc_tfr p);
     DCsd (dc_tfr p) (-1) 0 (dc_csd p);
     DDecimateTfr (dc_tfr p) 20;
     DDecimateEpochs (dc_epochs p) 20;
     DCovariance (dc_epochs p) 0;
     DSourceEpochs (dc_epochs p) ]
   ++ map (DFreqCov (dc_csd p)) (seq 0 (dc_size p))
   ++ [ DSourceTfr (dc_tfr p) ])%list.

Definition dec_pass_of (r : GroupRun.SubjectReplies) : DecPass :=
  mkDecPass (GroupRun.s_epochs r) (GroupRun.s_epochs_tfr r)
    (GroupRun.s_baseline_csd r) (List.length (GroupRun.s_per_freq r)).

(** The anatomy: the [fsaverage] directory, the source space and the
    boundary-element model read from it, the forward solutions built from
    them, the inverse operators made from a forward solution, and what the
    viewers are given. *)
Inductive AnStep : Set :=
| AFetched (verbose : bool) (fs_dir : PathV)
| ASourceSpace (fname : PathV) (src : SourceSpaces)
| ABemSolution (fname : PathV) (bem : Bem)
| AForward (trans : string) (src : SourceSpaces) (bem : Bem) (eeg : bool)
    (mindist : float) (fwd : Forward)
| AInverse (fwd : Forward)
| AViewed (subject : string) (subjects_dir : PathV) (src : SourceSpaces).

Definition sel_an (ev : Event) : option AnStep :=
  match ev with
  | Ev _ c o =>
      match c in LibCall T return Outcome T -> option AnStep with
      | FetchFsaverage v => fun o =>
          match o with
          | Returns d => Some (AFetched v d)
          | Raises _ => None
          end
      | ReadSourceSpaces f => fun o =>
          match o with
          | Returns src => Some (ASourceSpace f src)
          | Raises _ => None
          end
      | ReadBemSolution f => fun o =>
          match o with
          | Returns bem => Some (ABemSolution f bem)
          | Raises _ => None
          end
      | MakeForwardSolution _ trans src bem eeg mindist => fun o =>
          match o with
          | Returns fwd => Some (AForward trans src bem eeg mindist fwd)
          | Raises _ => None
          end
      | MakeInverseOperator _ fwd _ => fun _ => Some (AInverse fwd)
      | ViewVolStc _ _ _ subject subjects_dir src _ _ _ => fun _ =>
          Some (AViewed subject subjects_dir src)
      | _ => fun _ => None
      end o
  end.

Record AnPass : Set := mkAnPass {
  an_fwd : Forward;
  an_size : nat
}.

(** One forward solution, then one inverse operator for the time series and
    one for each frequency, all from that forward solution. *)
Definition an_steps (src : SourceSpaces) (bem : Bem) (p : AnPass)
  : list AnStep :=
  AForward "fsaverage" src bem true 5.0%float (an_fwd p)
  :: repeat (AInverse (an_fwd p)) (S (an_size p)).

Definition an_pass_of (r : GroupRun.SubjectReplies) : AnPass :=
  mkAnPass (GroupRun.s_fwd r) (List.length (GroupRun.s_per_freq r)).

Definition anatomy_steps (fs_dir : PathV) (src : SourceSpaces) (bem : Bem)
    (passes : list AnPass) : list AnStep :=
  ([ AFetched true fs_dir;
     ASourceSpace (OsPathJoin fs_dir ["bem"; "fsaverage-vol-5-src.fif"]) src;
     ABemSolution
       (OsPathJoin fs_dir ["bem"; "fsaverage-5120-5120-5120-bem-sol.fif"])
       bem ]
   ++ flat_map (an_steps src bem) passes
   ++ [ AViewed "fsaverage" (OsPathDirname fs_dir) src;
        AViewed "fsaverage" (OsPathDirname fs_dir) src ])%list.

(** The covariances the inverse operators are made from. *)
Inductive CovStep : Set :=
| CComputed (epochs : Epochs) (tmax : Z) (cov : Cov)
| CTaken (csd : Csd) (freq_idx : nat) (as_cov : bool) (cov : Cov)
| CData (cov : Cov) (key : string) (data : NdArray)
| CReal (data real : NdArray)
| CStored (cov : Cov) (key : string) (value : NdArray)
| CMade (cov : Cov) (op : InverseOperator).

Definition sel_cov (ev : Event) : option CovStep :=
  match ev with
  | Ev _ c o =>
      match c in LibCall T return Outcome T -> option CovStep with
      | ComputeCovariance e tmax => fun o =>
          match o with
          | Returns cov => Some (CComputed e tmax cov)
          | Raises _ => None
          end
      | CsdGetData csd idx as_cov => fun o =>
          match o with
          | Returns cov => Some (CTaken csd idx as_cov cov)
          | Raises _ => None
          end
      | CovGetItem cov key => fun o =>
          match o with
          | Returns d => Some (CData cov key d)
          | Raises _ => None
          end
      | NdArrayReal d => fun o =>
          match o with
          | Returns r => Some (CReal d r)
          | Raises _ => None
          end
      | CovSetItem cov key v => fun _ => Some (CStored cov key v)
      | MakeInverseOperator _ _ cov => fun o =>
          match o with
          | Returns op => Some (CMade cov op)
          | Raises _ => None
          end
      | _ => fun _ => None
      end o
  end.

(** A pass of the frequency loop, by the objects involved. *)
Record CovIter : Set := mkCovIter {
  ci_cov : Cov;
  ci_data : NdArray;
  ci_real : NdArray;
  ci_op : InverseOperator
}.

Definition cov_iter_steps (csd : Csd) (ic : nat * CovIter) : list CovStep :=
  [ CTaken csd (fst ic) true (ci_cov (snd ic));
    CData (ci_cov (snd ic)) "data" (ci_data (snd ic));
    CReal (ci_data (snd ic)) (ci_real (snd ic));
    CStored (ci_cov (snd ic)) "data" (ci_real (snd ic));
    CMade (ci_cov (snd ic)) (ci_op (snd ic)) ].

Record CovPass : Set := mkCovPass {
  cp_epochs : Epochs;
  cp_cov0 : Cov;
  cp_op0 : InverseOperator;
  cp_csd : Csd;
  cp_iters : list CovIter
}.

Definition cov_steps (p : CovPass) : list CovStep :=
  ([ CComputed (cp_epochs p) 0 (cp_cov0 p); CMade (cp_cov0 p) (cp_op0 p) ]
   ++ flat_map (cov_iter_steps (cp_csd p))
        (combine (seq 0 (List.length (cp_iters p))) (cp_iters p)))%list.

Definition cov_iter_of (f : GroupRun.FreqReplies) : CovIter :=
  mkCovIter (GroupRun.f_cov f) (GroupRun.f_data f) (GroupRun.f_real f)
    (GroupRun.f_op f).

Definition cov_pass_of (r : GroupRun.SubjectReplies) : CovPass :=
  mkCovPass (GroupRun.s_epochs r) (GroupRun.s_baseline_cov r)
    (GroupRun.s_inverse_operator r) (GroupRun.s_baseline_csd r)
    (map cov_iter_of (GroupRun.s_per_freq r)).

(** The calls around the inverse operators of a pass in which the library
    reports no frequency. *)
Definition inv_steps_without_frequencies (p : InvPass) : list InvStep :=
  [ IMade (i_cov0 p) (i_op0 p);
    IAppliedEpochs (i_op0 p) (i_stc p);
    ISize 0;
    IAppliedTfr (i_op0 p) (i_stcs p) ].

(** [L], except that every array reports [n] elements. *)
Definition with_size (n : nat) {LibState} (L : Library LibState)
  : Library LibState :=
  fun T c =>
    match c in LibCall T
          return (LibState -> Outcome T * LibState)
                 -> LibState -> Outcome T * LibState with
    | NdArraySize _ => fun _ s => (Returns n, s)
    | _ => fun answer => answer
    end (L T c).

(** A call other than [view_vol_stc]. *)
Definition not_a_viewer_call (ev : Event) : bool :=
  match sel_landmark ev with
  | Some (LViewer _ _) => false
  | _ => true
  end.

(** Whenever a viewer is called, three passes of the subject loop are
    complete and the viewer is given the lists of all three. *)
Definition viewed_lists_are_complete (tr : list Event) : Prop :=
  forall stcs inst,
    In (LViewer stcs inst) (pick sel_landmark tr) ->
    exists passes : list Pass,
      map p_sub passes = [1; 2; 3]%Z
      /\ firstn 15 (pick sel_landmark tr) = flat_map pass_landmarks passes
      /\ ((stcs = map p_stc_epochs passes
           /\ inst = InstEpochs (map p_epochs passes))
          \/ (stcs = map p_stc_tfr passes
              /\ inst = InstTfr (map p_tfr passes))).

(** A pass of the subject loop, by what it produced, from the answers of
    the library. *)
Definition pass_of_replies (sub : Z) (r : GroupRun.SubjectReplies) : Pass :=
  mkPass sub (GroupRun.s_epochs r) (GroupRun.s_epochs_tfr r)
    (GroupRun.s_stc r) (GroupRun.s_stcs r).

(* ================================================================== *)
(** * Further selections from an XDAWN trace *)

(** The choice of channels: the info of the recording, the bad channels
    written into an info, the channels picked from an info, and the two
    computations that take the picked channels. *)
Inductive ChStep : Set :=
| ChInfo (raw : Raw) (info : Info)
| ChBads (info : Info) (key : string) (value : list string)
| ChPicks (info : Info) (meg eeg stim eog : bool) (exclude : string)
    (picks : Picks)
| ChEpochs (raw : Raw) (picks : Picks)
| ChCovariance (raw : Raw) (picks : Picks).

Definition sel_ch (ev : Event) : option ChStep :=
  match ev with
  | Ev _ c o =>
      match c in LibCall T return Outcome T -> option ChStep with
      | RawInfo raw => fun o =>
          match o with
          | Returns info => Some (ChInfo raw info)
          | Raises _ => None
          end
      | InfoSetItem info key value => fun _ => Some (ChBads info key value)
      | PickTypes info meg eeg stim eog exclude => fun o =>
          match o with
          | Returns picks => Some (ChPicks info meg eeg stim eog exclude picks)
          | Raises _ => None
          end
      | MneEpochs raw _ _ _ _ _ picks _ _ _ => fun _ =>
          Some (ChEpochs raw picks)
      | ComputeRawCovariance raw picks => fun _ =>
          Some (ChCovariance raw picks)
      | _ => fun _ => None
      end o
  end.

Definition ch_steps (raw : Raw) (info1 info2 : Info) (picks : Picks)
  : list ChStep :=
  [ ChInfo raw info1;
    ChBads info1 "bads" ["MEG 2443"];
    ChInfo raw info2;
    ChPicks info2 true false false false "bads" picks;
    ChEpochs raw picks;
    ChCovariance raw picks ].

(** From the recording to the fitted transform. *)
Inductive XdStep : Set :=
| XdLoaded (preload : bool) (raw : Raw)
| XdFiltered (raw : Raw) (l_freq h_freq : Z) (fir_design : string)
| XdSegmented (raw : Raw) (epochs : Epochs)
| XdCovariance (raw : Raw) (cov : Cov)
| XdMade (n_components : Z) (signal_cov : Cov) (xd : XdawnObj)
| XdFitted (xd : XdawnObj) (epochs : Epochs)
| XdApplied (xd : XdawnObj) (epochs : Epochs).

Definition sel_xd (ev : Event) : option XdStep :=
  match ev with
  | Ev _ c o =>
      match c in LibCall T return Outcome T -> option XdStep with
      | ReadRawFif _ preload => fun o =>
          match o with
          | Returns raw => Some (XdLoaded preload raw)
          | Raises _ => None
          end
      | RawFilter raw l h d => fun _ => Some (XdFiltered raw l h d)
      | MneEpochs raw _ _ _ _ _ _ _ _ _ => fun o =>
          match o with
          | Returns e => Some (XdSegmented raw e)
          | Raises _ => None
          end
      | ComputeRawCovariance raw _ => fun o =>
          match o with
          | Returns cov => Some (XdCovariance raw cov)
          | Raises _ => None
          end
      | Xdawn n cov => fun o =>
          match o with
          | Returns xd => Some (XdMade n cov xd)
          | Raises _ => None
          end
      | XdawnFit xd e => fun _ => Some (XdFitted xd e)
      | XdawnApply xd e => fun _ => Some (XdApplied xd e)
      | _ => fun _ => None
      end o
  end.

Definition xd_steps (raw : Raw) (epochs : Epochs) (cov : Cov)
    (xd : XdawnObj) : list XdStep :=
  [ XdLoaded true raw;
    XdFiltered raw 1 20 "firwin";
    XdSegmented raw epochs;
    XdCovariance raw cov;
    XdMade 2 cov xd;
    XdFitted xd epochs;
    XdApplied xd epochs ].

(** The two images and what they show. *)
Inductive PlotStep : Set :=
| PlEpochs (epochs : Epochs)
| PlSelect (epochs : Epochs) (key : string) (out : Epochs)
| PlImage (epochs : Epochs) (picks : list Z) (vmin vmax : Z)
| PlFitted (epochs : Epochs)
| PlDenoised (epochs : Epochs) (denoised : Denoised)
| PlSelectDenoised (denoised : Denoised) (key : string) (out : Epochs).

Definition sel_plot (ev : Event) : option PlotStep :=
  match ev with
  | Ev _ c o =>
      match c in LibCall T return Outcome T -> option PlotStep with
      | MneEpochs _ _ _ _ _ _ _ _ _ _ => fun o =>
          match o with
          | Returns e => Some (PlEpochs e)
          | Raises _ => None
          end
      | EpochsGetItem e key => fun o =>
          match o with
          | Returns out => Some (PlSelect e key out)
          | Raises _ => None
          end
      | PlotEpochsImage e picks vmin vmax => fun _ =>
          Some (PlImage e picks vmin vmax)
      | XdawnFit _ e => fun _ => Some (PlFitted e)
      | XdawnApply _ e => fun o =>
          match o with
          | Returns d => Some (PlDenoised e d)
          | Raises _ => None
          end
      | DenoisedGetItem d key => fun o =>
          match o with
          | Returns out => Some (PlSelectDenoised d key out)
          | Raises _ => None
          end
      | _ => fun _ => None
      end o
  end.

Definition plot_steps (epochs before : Epochs) (denoised : Denoised)
    (after : Epochs) : list PlotStep :=
  [ PlEpochs epochs;
    PlSelect epochs "vis_r" before;
    PlImage before [230%Z] (-500) 500;
    PlFitted epochs;
    PlDenoised epochs denoised;
    PlSelectDenoised denoised "vis_r" after;
    PlImage after [230%Z] (-500) 500 ].

(* ================================================================== *)
(** * Proofs *)

Section Rules.

Variable LibState : Type.
Variable lib : Library LibState.

Lemma emits_ret A (a : A) (Q : list Event -> Outcome A -> Prop) :
  Q [] (Returns a) -> emits (ret (LibState:=LibState) a) Q.
Proof.
  intros H w. exists []. simpl. rewrite app_nil_r. auto.
Qed.

Lemma emits_call line T (c : LibCall T)
    (Q : list Event -> Outcome T -> Prop) :
  (forall o, Q [Ev line c o] o) -> emits (call lib line c) Q.
Proof.
  intros H w. unfold call.
  destruct (lib c (w_lib w)) as [o s]. simpl.
  exists [Ev line c o]. auto.
Qed.

Lemma emits_bind A B (m : M LibState A) (k : A -> M LibState B)
    (Q : list Event -> Outcome B -> Prop) :
  emits m (fun evs1 o1 =>
             match o1 with
             | Returns a =>
                 emits (k a) (fun evs2 o2 => Q (evs1 ++ evs2)%list o2)
             | Raises e => Q evs1 (Raises e)
             end) ->
  emits (bind m k) Q.
Proof.
  intros H w. unfold bind.
  destruct (H w) as (evs1 & Ht & Hq).
  destruct (m w) as [[a | e] w1]; simpl in *.
  - destruct (Hq w1) as (evs2 & Ht2 & Hq2).
    exists (evs1 ++ evs2)%list. split; auto.
    rewrite Ht2, Ht. now rewrite app_assoc.
  - exists evs1. auto.
Qed.

Lemma emits_weaken A (m : M LibState A)
    (P Q : list Event -> Outcome A -> Prop) :
  emits m P -> (forall evs o, P evs o -> Q evs o) -> emits m Q.
Proof.
  intros H HPQ w. destruct (H w) as (evs & Ht & Hp). exists evs. auto.
Qed.

(** What [emits] says of a run from the empty trace. *)
Lemma emits_run A (m : M LibState A) Q (s : LibState) :
  emits m Q -> Q (trace_of m s) (outcome_of m s).
Proof.
  intros H. unfold trace_of, outcome_of, run.
  destruct (H (mkWorld s [])) as (evs & Ht & Hq).
  destruct (m (mkWorld s [])) as [o w]. simpl in *. now subst.
Qed.

End Rules.

(* ------------------------------------------------------------------ *)
(** ** Exceptions pass through every construct the scripts use *)

Section Propagation.

Variable LibState : Type.
Variable lib : Library LibState.

Lemma propagates_app A B (evs1 evs2 : list Event) (a : A) (o : Outcome B) :
  propagates evs1 (Returns a) -> propagates evs2 o ->
  propagates (evs1 ++ evs2) o.
Proof.
  unfold propagates. intros H1 H2. destruct o as [b | e].
  - rewrite forallb_app, H1, H2. reflexivity.
  - destruct H2 as (pre & ev & -> & Hpre & Hev).
    exists (evs1 ++ pre)%list, ev. rewrite app_assoc. repeat split; auto.
    now rewrite forallb_app, H1, Hpre.
Qed.

Lemma propagates_ret A (a : A) :
  emits (ret (LibState:=LibState) a) (@propagates A).
Proof. apply emits_ret. reflexivity. Qed.

Lemma propagates_call line T (c : LibCall T) :
  emits (call lib line c) (@propagates T).
Proof.
  apply emits_call. intros [v | e]; simpl.
  - reflexivity.
  - exists [], (Ev line c (Raises e)). auto.
Qed.

Lemma propagates_bind A B (m : M LibState A) (k : A -> M LibState B) :
  emits m (@propagates A) -> (forall a, emits (k a) (@propagates B)) ->
  emits (bind m k) (@propagates B).
Proof.
  intros Hm Hk. apply emits_bind.
  eapply emits_weaken; [exact Hm |]. intros evs1 [a | e] H1.
  - eapply emits_weaken; [apply Hk |]. intros evs2 o2 H2.
    eapply propagates_app; eauto.
  - exact H1.
Qed.

Lemma propagates_for_each X St (body : X -> St -> M LibState St) xs :
  (forall x st, emits (body x st) (@propagates St)) ->
  forall st, emits (for_each xs body st) (@propagates St).
Proof.
  intros Hb. induction xs as [| x xs IH]; intros st; simpl.
  - apply propagates_ret.
  - apply propagates_bind; auto.
Qed.

Lemma propagates_comprehension X Y (f : X -> M LibState Y) xs :
  (forall x, emits (f x) (@propagates Y)) ->
  emits (comprehension f xs) (@propagates (list Y)).
Proof.
  intros Hf. induction xs as [| x xs IH]; simpl.
  - apply propagates_ret.
  - apply propagates_bind; [apply Hf |]. intros y.
    apply propagates_bind; [exact IH |]. intros ys. apply propagates_ret.
Qed.

End Propagation.

Lemma forallb_ev_ok_not_raised (l : list Event) ev e :
  forallb ev_ok l = true -> In ev l -> ev_exc ev = Some e -> False.
Proof.
  intros Hall Hin Hex. rewrite forallb_forall in Hall.
  specialize (Hall ev Hin). unfold ev_ok in Hall. now rewrite Hex in Hall.
Qed.

Lemma propagates_no_local_recovery A (tr : list Event) (o : Outcome A) :
  propagates tr o -> no_local_recovery tr o.
Proof.
  intros Hp. split.
  - intros pre ev post e Htr Hex. destruct o as [a | e']; simpl in Hp.
    + exfalso. eapply forallb_ev_ok_not_raised; eauto.
      subst tr. apply in_elt.
    + destruct Hp as (pre' & ev' & Htr' & Hpre' & Hex').
      destruct (exists_last (l:=ev :: post)) as (l' & x & Hl);
        [discriminate |].
      rewrite Htr' in Htr.
      assert (Hsplit : (pre' ++ [ev'] = (pre ++ l') ++ [x])%list)
        by (now rewrite <- app_assoc, <- Hl).
      apply app_inj_tail in Hsplit. destruct Hsplit as [Hpre Hx].
      destruct l' as [| y l'']; simpl in Hl.
      * injection Hl as Hev Hpost. subst. split; [reflexivity |].
        rewrite Hex in Hex'. now injection Hex' as ->.
      * exfalso. injection Hl as Hev Hpost. subst y.
        eapply forallb_ev_ok_not_raised; [exact Hpre' | | exact Hex].
        rewrite Hpre. apply in_elt.
  - intros e ->. simpl in Hp. destruct Hp as (pre & ev & -> & _ & Hex).
    exists ev. split; [apply in_elt | exact Hex].
Qed.

Ltac propagate :=
  repeat first
    [ apply propagates_ret
    | apply propagates_call
    | apply propagates_for_each; intros
    | apply propagates_comprehension; intros
    | apply propagates_bind; [| intros]
    | match goal with |- emits (match ?p with _ => _ end) _ => destruct p end
    | match goal with |- emits (let _ := _ in _) _ => cbv zeta end ].

Lemma xdawn_propagates LibState (lib : Library LibState) :
  emits (XdawnDenoising.script lib) (@propagates unit).
Proof. unfold XdawnDenoising.script. propagate. Qed.

Lemma group_study_propagates LibState (lib : Library LibState) :
  emits (GroupStudy.script lib) (@propagates unit).
Proof.
  unfold GroupStudy.script, GroupStudy.viewers. propagate.
  all: unfold GroupStudy.subject_body, GroupStudy.freq_body; propagate.
Qed.

(** C4.  Neither script recovers from an error.  Whatever the library does,
    in a run of either script a call that raises is the last call made and
    its exception, unchanged, is the outcome of the script; and a script
    ends with an exception only when one of its calls raised it. *)
Theorem scripts_have_no_local_recovery :
  forall (LibState : Type) (lib : Library LibState) (s : LibState),
    no_local_recovery (trace_of (XdawnDenoising.script lib) s)
                      (outcome_of (XdawnDenoising.script lib) s)
    /\ no_local_recovery (trace_of (GroupStudy.script lib) s)
                         (outcome_of (GroupStudy.script lib) s).
Proof.
  intros LibState lib s. split; apply propagates_no_local_recovery.
  - apply emits_run, xdawn_propagates.
  - apply emits_run, group_study_propagates.
Qed.

(* ------------------------------------------------------------------ *)
(** ** Stepping through straight-line code *)

Ltac step :=
  first
    [ apply emits_ret
    | apply emits_bind; apply emits_call;
      let v := fresh "v" in let e := fresh "e" in
      intros [v | e]; cbn beta iota zeta delta [app] ].

Lemma xdawn_fit_and_apply LibState (lib : Library LibState) :
  emits (XdawnDenoising.script lib) fit_and_apply_share_epochs.
Proof.
  unfold XdawnDenoising.script.
  repeat step.
  all: unfold fit_and_apply_share_epochs; cbn; split;
    [ intros xd ep Hin | intros Ho ];
    repeat match goal with
           | H : _ \/ _ |- _ => destruct H
           | H : False |- _ => destruct H
           | H : (_, _) = (_, _) |- _ => injection H as <- <-
           end;
    try discriminate; auto.
  all: eauto.
Qed.

(** C5.  In the XDAWN script the epochs object given to [Xdawn.fit] is the
    very object later given to [Xdawn.apply]: in every run, an [apply] call
    has the transform and the epochs of the single [fit] call, that epochs
    object being the only one the script builds with [mne.Epochs], so no
    split is made; a run that ends normally makes the [apply] call; and the
    module docstring carries the warning that the epochs used in fit should
    be split from those used in apply. *)
Theorem xdawn_fit_and_apply_same_epochs :
  forall (LibState : Type) (lib : Library LibState) (s : LibState),
    fit_and_apply_share_epochs (trace_of (XdawnDenoising.script lib) s)
                               (outcome_of (XdawnDenoising.script lib) s)
    /\ contains "should split epochs used in fit with the ones used in"
         XdawnDenoising.__doc__ = true
    /\ contains "apply method." XdawnDenoising.__doc__ = true.
Proof.
  intros LibState lib s. split; [| split].
  - apply emits_run, xdawn_fit_and_apply.
  - vm_compute. reflexivity.
  - vm_compute. reflexivity.
Qed.

(* ------------------------------------------------------------------ *)
(** ** Finding the pipeline in a trace *)

Lemma obj_eqb_refl (a : Obj) : obj_eqb a a = true.
Proof.
  destruct a as [c n]. unfold obj_eqb. simpl.
  rewrite Nat.eqb_refl, andb_true_r. destruct c; reflexivity.
Qed.

Lemma chainb_nil sig mdl tr : chainb [] sig mdl tr = true.
Proof. destruct tr; reflexivity. Qed.

Lemma chainb_skip order sig mdl ev tr :
  chainb order sig mdl tr = true -> chainb order sig mdl (ev :: tr) = true.
Proof.
  intros H. destruct order as [| s order]; [reflexivity |].
  cbn [chainb]. rewrite H. apply orb_true_r.
Qed.

Lemma chainb_skip_app order sig mdl pre tr :
  chainb order sig mdl tr = true -> chainb order sig mdl (pre ++ tr) = true.
Proof.
  intros H. induction pre as [| ev pre IH]; [exact H |].
  simpl app. now apply chainb_skip.
Qed.

Lemma chainb_take s order sig mdl ev tr se :
  stage_event ev = Some se ->
  Stage_beq (se_stage se) s = true ->
  link sig (se_signal se) = true ->
  link mdl (se_model se) = true ->
  chainb order (pass_on sig (se_yield se)) (pass_on mdl (se_model se)) tr
  = true ->
  chainb (s :: order) sig mdl (ev :: tr) = true.
Proof.
  intros Hse Hs Hsig Hmdl Hrest. cbn [chainb].
  rewrite Hse, Hs, Hsig, Hmdl, Hrest. reflexivity.
Qed.

Ltac link_ok :=
  cbn [link pass_on se_signal se_model se_yield];
  first [reflexivity | apply obj_eqb_refl].

Ltac chain :=
  cbn [app];
  lazymatch goal with
  | |- chainb [] _ _ _ = true => apply chainb_nil
  | |- chainb (_ :: _) _ _ (_ :: _) = true =>
      first
        [ eapply chainb_take;
          [ reflexivity | reflexivity | link_ok | link_ok | cbn [pass_on se_yield se_model]; chain ]
        | apply chainb_skip; chain ]
  | |- chainb _ _ _ (_ ++ _) = true => apply chainb_skip_app; chain
  end.

Lemma xdawn_follows_stated_pipeline LibState (lib : Library LibState) :
  emits (XdawnDenoising.script lib)
    (fun evs o =>
       o = Returns tt -> follows_pipeline stated_pipeline evs = true).
Proof.
  unfold XdawnDenoising.script.
  repeat step.
  all: intros Ho; try discriminate Ho.
  unfold follows_pipeline, stated_pipeline. chain.
Qed.

(** The stated order read against the group-study script, run with the
    library that never raises: no filter call comes between the loading and
    the segmentation of a recording. *)
Lemma group_study_filters_after_segmenting :
  follows_pipeline stated_pipeline
    (trace_of (GroupStudy.script sample_lib) 0) = false.
Proof. vm_compute. reflexivity. Qed.

(* ------------------------------------------------------------------ *)
(** ** The trace of a group-study run that ends normally *)

Section GroupTranscript.

Import GroupStudy GroupRun.

Variable LibState : Type.
Variable lib : Library LibState.

Ltac step ::=
  first
    [ apply emits_ret
    | match goal with
      | |- emits (match ?p with _ => _ end) _ => destruct p
      end
    | apply emits_bind; apply emits_call;
      let v := fresh "v" in let e := fresh "e" in
      intros [v | e]; cbn beta iota zeta delta [app] ].

Lemma last_cons_default X (l : list X) :
  forall a d, last (a :: l) d = last l a.
Proof.
  induction l as [| b l IH]; intros a d; [reflexivity |].
  change (last (a :: b :: l) d) with (last (b :: l) d).
  rewrite IH. symmetry. apply IH.
Qed.

Lemma freq_body_transcript csd epochs fwd idx st :
  emits (freq_body lib csd epochs fwd idx st)
    (fun evs o =>
       forall st', o = Returns st' ->
         exists r, evs = freq_events csd epochs fwd idx r
                   /\ st' = (f_cov r, f_op r)).
Proof.
  unfold freq_body. repeat step.
  all: intros st' Ho; try discriminate Ho.
  injection Ho as <-. destruct v2.
  now exists (mkFreqReplies v v0 v1 v3 v4).
Qed.

Lemma freq_loop_transcript csd epochs fwd n :
  forall start st,
    emits (for_each (seq start n)
             (freq_body lib csd epochs fwd) st)
      (fun evs o =>
         forall st', o = Returns st' ->
           exists rs, List.length rs = n
                      /\ evs = loop_events csd epochs fwd start rs
                      /\ st' = loop_state rs st).
Proof.
  induction n as [| n IH]; intros start st; simpl.
  - apply emits_ret. intros st' Ho. injection Ho as <-. now exists [].
  - apply emits_bind.
    eapply emits_weaken; [apply freq_body_transcript |].
    intros evs1 [st1 | e] H1; [| intros st' Ho; discriminate Ho].
    destruct (H1 _ eq_refl) as (r & -> & ->).
    eapply emits_weaken; [apply IH |].
    intros evs2 o2 H2 st' Ho.
    destruct (H2 _ Ho) as (rs & Hlen & -> & ->).
    exists (r :: rs). simpl. split; [now rewrite Hlen |]. split; auto.
    unfold loop_state. cbn [map]. symmetry. apply last_cons_default.
Qed.

Lemma comprehension_transcript fnames :
  emits (comprehension
           (fun raw_fname => call lib 55 (ReadRaw raw_fname true false))
           fnames)
    (fun evs o =>
       forall raws, o = Returns raws ->
         List.length raws = List.length fnames
         /\ evs = read_events fnames raws).
Proof.
  induction fnames as [| f fnames IH]; simpl.
  - apply emits_ret. intros raws Ho. injection Ho as <-. now split.
  - apply emits_bind. apply emits_call. intros [r | e];
      [| intros raws Ho; discriminate Ho].
    apply emits_bind. eapply emits_weaken; [exact IH |].
    intros evs1 [rs | e] H1; [| intros raws Ho; discriminate Ho].
    destruct (H1 _ eq_refl) as (Hlen & ->).
    apply emits_ret. intros raws Ho. injection Ho as <-.
    simpl. split; [now rewrite Hlen |]. now rewrite app_nil_r.
Qed.

Lemma subject_body_transcript src bem montage sub acc :
  emits (subject_body lib src bem montage sub acc)
    (fun evs o =>
       forall acc', o = Returns acc' ->
         exists r, evs = subject_events src bem montage sub r
                   /\ acc' = acc_after acc r
                   /\ List.length (s_raws r) = List.length (s_raw_fnames r)).
Proof.
  unfold subject_body.
  repeat step.
  all: try (intros acc' Ho; discriminate Ho).
  apply emits_bind.
  eapply emits_weaken; [apply comprehension_transcript |].
  intros evs1 [raws | exn] H1; [| intros acc' Ho; discriminate Ho].
  destruct (H1 _ eq_refl) as (Hlen & ->). clear H1.
  cbn beta iota zeta delta [app].
  repeat step.
  all: try (intros acc' Ho; discriminate Ho).
  apply emits_bind.
  eapply emits_weaken; [apply freq_loop_transcript |].
  intros evs2 [st | exn] H2; [| intros acc' Ho; discriminate Ho].
  destruct (H2 _ eq_refl) as (rs & Hsize & -> & Hst). clear H2.
  cbn beta iota zeta delta [app].
  repeat step.
  all: intros acc' Ho; try discriminate Ho.
  injection Ho as <-.
  apply (f_equal snd) in Hst. cbn [snd] in Hst. subst.
  repeat match goal with u : unit |- _ => destruct u end.
  unshelve eexists; [econstructor |]; shelve_unifiable.
  split; [reflexivity | split; [reflexivity | exact Hlen]].
Qed.

Lemma subject_loop_transcript src bem montage subs :
  forall acc,
    emits (for_each subs (subject_body lib src bem montage) acc)
      (fun evs o =>
         forall acc', o = Returns acc' ->
           exists rs, List.length rs = List.length subs
                      /\ evs = subjects_events src bem montage subs rs
                      /\ acc' = acc_extend acc rs
                      /\ Forall (fun r => List.length (s_raws r)
                                          = List.length (s_raw_fnames r)) rs).
Proof.
  induction subs as [| sub subs IH]; intros acc; simpl.
  - apply emits_ret. intros acc' Ho. injection Ho as <-. exists [].
    unfold acc_extend. simpl. rewrite !app_nil_r. destruct acc. auto.
  - apply emits_bind.
    eapply emits_weaken; [apply subject_body_transcript |].
    intros evs1 [acc1 | exn] H1; [| intros acc' Ho; discriminate Ho].
    destruct (H1 _ eq_refl) as (r & -> & -> & Hr). clear H1.
    eapply emits_weaken; [apply IH |].
    intros evs2 o2 H2 acc' Ho.
    destruct (H2 _ Ho) as (rs & Hlen & -> & -> & Hrs).
    exists (r :: rs). simpl. split; [now rewrite Hlen |].
    split; [reflexivity |]. split; [| now constructor].
    unfold acc_extend, acc_after. simpl. now rewrite <- !app_assoc.
Qed.

Lemma viewers_transcript subjects_dir src acc :
  emits (viewers lib subjects_dir src acc)
    (fun evs o =>
       o = Returns tt ->
       exists viewer1 viewer2,
         evs = viewer_events subjects_dir src acc viewer1 viewer2).
Proof.
  unfold viewers. repeat step.
  all: intros Ho; try discriminate Ho.
  repeat match goal with u : unit |- _ => destruct u end.
  now exists v, v3.
Qed.

Lemma script_transcript :
  emits (script lib)
    (fun evs o =>
       o = Returns tt ->
       exists g, evs = script_events g
                 /\ List.length (g_subjects g) = 3
                 /\ Forall (fun r => List.length (s_raws r)
                                     = List.length (s_raw_fnames r))
                      (g_subjects g)).
Proof.
  unfold script. repeat step.
  all: try (intros Ho; discriminate Ho).
  apply emits_bind.
  eapply emits_weaken; [apply subject_loop_transcript |].
  intros evs1 [acc | exn] H1; [| intros Ho; discriminate Ho].
  destruct (H1 _ eq_refl) as (rs & Hlen & -> & -> & Hrs). clear H1.
  eapply emits_weaken; [apply viewers_transcript |].
  intros evs2 o2 H2 Ho. destruct (H2 Ho) as (viewer1 & viewer2 & ->).
  repeat match goal with u : unit |- _ => destruct u end.
  exists (mkScriptReplies v5 v6 v7 v8 rs viewer1 viewer2).
  split; [reflexivity | split; [exact Hlen | exact Hrs]].
Qed.

End GroupTranscript.

(** A run of the group-study script that ends normally made exactly the
    calls of [script_events], for the answers [g] the library gave. *)
Lemma group_study_transcript LibState (lib : Library LibState) s :
  outcome_of (GroupStudy.script lib) s = Returns tt ->
  exists g,
    trace_of (GroupStudy.script lib) s = GroupRun.script_events g
    /\ List.length (GroupRun.g_subjects g) = 3
    /\ Forall (fun r => List.length (GroupRun.s_raws r)
                        = List.length (GroupRun.s_raw_fnames r))
         (GroupRun.g_subjects g).
Proof.
  intros Ho.
  exact (emits_run s (script_transcript lib) Ho).
Qed.

(* ------------------------------------------------------------------ *)
(** ** Selecting from the trace of a group-study run *)

Lemma pick_app X (f : Event -> option X) (l1 l2 : list Event) :
  pick f (l1 ++ l2) = (pick f l1 ++ pick f l2)%list.
Proof. apply flat_map_app. Qed.

Lemma pick_read_events X (f : Event -> option X) :
  (forall fname raw, f (Ev 55 (ReadRaw fname true false) (Returns raw)) = None)
  -> forall fnames raws, pick f (GroupRun.read_events fnames raws) = [].
Proof.
  intros Hf fnames raws. unfold GroupRun.read_events.
  induction (combine fnames raws) as [| [fn r] l IH]; [reflexivity |].
  simpl. rewrite Hf. exact IH.
Qed.

Lemma pick_loop_events X (f : Event -> option X) csd epochs fwd rs :
  forall start,
    pick f (GroupRun.loop_events csd epochs fwd start rs)
    = flat_map
        (fun ir => pick f (GroupRun.freq_events csd epochs fwd
                             (fst ir) (snd ir)))
        (combine (seq start (List.length rs)) rs).
Proof.
  induction rs as [| r rs IH]; intros start; [reflexivity |].
  cbn [GroupRun.loop_events List.length seq combine flat_map fst snd].
  now rewrite pick_app, IH.
Qed.

Lemma flat_map_nil X Y (l : list X) :
  flat_map (fun _ : X => @nil Y) l = [].
Proof. induction l; auto. Qed.

(** The answers of a run with its three subjects named. *)
Lemma three_subjects (rs : list GroupRun.SubjectReplies) :
  List.length rs = 3 -> exists r1 r2 r3, rs = [r1; r2; r3].
Proof.
  destruct rs as [| r1 [| r2 [| r3 [| r4 rs]]]]; try discriminate.
  intros _. now exists r1, r2, r3.
Qed.

Ltac open_transcript H :=
  let g := fresh "g" in
  let Htr := fresh "Htr" in
  let Hlen := fresh "Hlen" in
  let Hraws := fresh "Hraws" in
  destruct (group_study_transcript _ _ H) as (g & Htr & Hlen & Hraws);
  rewrite Htr;
  destruct g as [fs_dir src bem montage rs viewer1 viewer2];
  cbn [GroupRun.g_subjects] in Hlen, Hraws;
  let r1 := fresh "r1" in
  let r2 := fresh "r2" in
  let r3 := fresh "r3" in
  destruct (three_subjects _ Hlen) as (r1 & r2 & r3 & ->);
  unfold GroupRun.script_events, GroupRun.viewer_events;
  cbn [GroupRun.g_subjects GroupRun.g_fs_dir GroupRun.g_src GroupRun.g_bem
       GroupRun.g_montage GroupRun.g_viewer1 GroupRun.g_viewer2
       GroupRun.subjects_events GroupStudy.subjects];
  unfold GroupRun.subject_events.

Ltac pick_trace :=
  repeat rewrite pick_app;
  repeat (rewrite pick_read_events by (intros; reflexivity));
  repeat rewrite pick_loop_events.

(** C7.  In a run of the group-study script that ends normally, each of the
    two viewers that [view_vol_stc] creates receives exactly three method
    calls, in this order: [go_to_extreme()], [set_cmap(vmin=0.25,
    vmid=0.8)], [set_3d_view(azimuth=40, elevation=35, distance=300)]; no
    other viewer is created and no other viewer method is called. *)
Theorem viewers_go_to_extreme_cmap_view :
  forall (LibState : Type) (lib : Library LibState) (s : LibState),
    outcome_of (GroupStudy.script lib) s = Returns tt ->
    exists v1 v2 : Viewer,
      pick sel_viewer_op (trace_of (GroupStudy.script lib) s)
      = [ VCreated v1; VGoToExtreme v1;
          VSetCmap v1 0.25%float 0.8%float; VSet3dView v1 40 35 300;
          VCreated v2; VGoToExtreme v2;
          VSetCmap v2 0.25%float 0.8%float; VSet3dView v2 40 35 300 ].
Proof.
  intros LibState lib s Ho. open_transcript Ho.
  exists viewer1, viewer2.
  pick_trace.
  cbn [GroupRun.freq_events pick flat_map app sel_viewer_op].
  rewrite !flat_map_nil. reflexivity.
Qed.

(** C3.  In a run of the group-study script that ends normally the subject
    loop makes its passes for the subjects 1, 2, 3 in this order; each pass
    produces one epochs object, one time-frequency object and one source
    estimate of each kind, in this order and after the pass has been opened
    for its subject; and the two viewer calls that follow receive these
    objects as four lists, one entry per subject, in subject order.  And
    whatever the library does, a pass of the loop body that ends normally
    has appended exactly one entry to each of the four lists. *)
Theorem one_result_per_subject_in_order :
  forall (LibState : Type) (lib : Library LibState),
    (forall s : LibState,
        outcome_of (GroupStudy.script lib) s = Returns tt ->
        one_entry_per_subject (trace_of (GroupStudy.script lib) s))
    /\ (forall src bem montage sub acc w acc',
           fst (GroupStudy.subject_body lib src bem montage sub acc w)
           = Returns acc' ->
           appends_one_to_each acc acc').
Proof.
  intros LibState lib. split.
  - intros s Ho. open_transcript Ho.
    exists [ mkPass 1 (GroupRun.s_epochs r1) (GroupRun.s_epochs_tfr r1)
               (GroupRun.s_stc r1) (GroupRun.s_stcs r1);
             mkPass 2 (GroupRun.s_epochs r2) (GroupRun.s_epochs_tfr r2)
               (GroupRun.s_stc r2) (GroupRun.s_stcs r2);
             mkPass 3 (GroupRun.s_epochs r3) (GroupRun.s_epochs_tfr r3)
               (GroupRun.s_stc r3) (GroupRun.s_stcs r3) ].
    split; [reflexivity |].
    pick_trace.
    cbn [GroupRun.freq_events pick flat_map app sel_landmark].
    rewrite !flat_map_nil. reflexivity.
  - intros src bem montage sub acc w acc' Ho.
    destruct (subject_body_transcript lib src bem montage sub acc w)
      as (evs & _ & Hq).
    destruct (Hq _ Ho) as (r & _ & -> & _).
    unfold GroupRun.acc_after. red. eauto.
Qed.

(** C6.  In a run of the group-study script that ends normally, the
    time-frequency representation of each of the three subjects comes from
    [tfr_morlet], called on the subject's epochs with [freqs] the array that
    [np.logspace(np.log10(12), np.log10(30), 9)] returned, with [n_cycles]
    the array that dividing this very array by 2 returned, and with
    [return_itc=False], [average=False] and [output="complex"]; the script
    makes no other call of these functions. *)
Theorem tfr_is_morlet_over_nine_log_spaced_frequencies :
  forall (LibState : Type) (lib : Library LibState) (s : LibState),
    outcome_of (GroupStudy.script lib) s = Returns tt ->
    exists passes : list TfPass,
      List.length passes = 3
      /\ pick sel_tf (trace_of (GroupStudy.script lib) s)
         = flat_map tf_steps passes.
Proof.
  intros LibState lib s Ho. open_transcript Ho.
  exists (map (fun r =>
                 mkTfPass (GroupRun.s_epochs r) (GroupRun.s_lo r)
                   (GroupRun.s_hi r) (GroupRun.s_freqs r)
                   (GroupRun.s_n_cycles r) (GroupRun.s_epochs_tfr r))
            [r1; r2; r3]).
  split; [reflexivity |].
  pick_trace.
  cbn [GroupRun.freq_events pick flat_map app sel_tf map].
  rewrite !flat_map_nil. reflexivity.
Qed.

Lemma freq_steps_of_loop csd epochs fwd (rs : list GroupRun.FreqReplies) :
  forall start,
    flat_map
      (fun ir => pick sel_inv (GroupRun.freq_events csd epochs fwd
                                 (fst ir) (snd ir)))
      (combine (seq start (List.length rs)) rs)
    = flat_map freq_steps
        (combine
           (seq start
              (List.length
                 (map (fun r => (GroupRun.f_cov r, GroupRun.f_op r)) rs)))
           (map (fun r => (GroupRun.f_cov r, GroupRun.f_op r)) rs)).
Proof.
  induction rs as [| r rs IH]; intros start; [reflexivity |].
  cbn [List.length seq combine map flat_map].
  now rewrite IH.
Qed.

(** C2.  In a run of the group-study script that ends normally and in which
    the library reports nine frequencies for each time-frequency object,
    each pass of the subject loop makes ten inverse operators, one for the
    time series and one in each of the nine passes of the frequency loop,
    each of these from the covariance of its frequency index;
    [apply_inverse_tfr_epochs] is called once in the pass, after the
    frequency loop, with the operator made last, that of the last
    frequency; the only other operator applied is the one of the time
    series, so the operators of the eight earlier frequencies are applied
    nowhere; and the list the second viewer receives holds what
    [apply_inverse_tfr_epochs] returned, not the empty list [stcs] was
    first bound to. *)
Theorem last_inverse_operator_is_the_one_applied :
  forall (LibState : Type) (lib : Library LibState) (s : LibState),
    outcome_of (GroupStudy.script lib) s = Returns tt ->
    Forall (fun n => n = 9)
      (pick sel_size (trace_of (GroupStudy.script lib) s)) ->
    last_operator_serves_all_frequencies
      (trace_of (GroupStudy.script lib) s).
Proof.
  intros LibState lib s Ho H9.
  destruct (group_study_transcript _ _ Ho) as (g & Htr & Hlen & _).
  rewrite Htr in *. clear Htr.
  destruct g as [fs_dir src bem montage rs viewer1 viewer2].
  cbn [GroupRun.g_subjects] in Hlen.
  destruct (three_subjects _ Hlen) as (r1 & r2 & r3 & ->).
  unfold GroupRun.script_events, GroupRun.viewer_events in *.
  cbn [GroupRun.g_subjects GroupRun.g_fs_dir GroupRun.g_src GroupRun.g_bem
       GroupRun.g_montage GroupRun.g_viewer1 GroupRun.g_viewer2
       GroupRun.subjects_events GroupStudy.subjects] in *.
  unfold GroupRun.subject_events in *.
  exists (map inv_pass_of [r1; r2; r3]).
  split; [reflexivity |]. split.
  - revert H9. pick_trace.
    cbn [GroupRun.freq_events pick flat_map app sel_size sel_inv].
    rewrite !flat_map_nil. cbn [app].
    intros H9. inversion_clear H9 as [| ? ? H1 H9'].
    inversion_clear H9' as [| ? ? H2 H9''].
    inversion_clear H9'' as [| ? ? H3 _].
    unfold inv_pass_of. cbn [map]. repeat constructor;
      cbn [i_freq]; now rewrite length_map.
  - clear H9. pick_trace.
    rewrite !freq_steps_of_loop.
    cbn [pick flat_map app sel_inv].
    unfold inv_pass_of, inv_steps, last_made, GroupRun.loop_state.
    cbn [map flat_map app i_cov0 i_op0 i_stc i_freq i_stcs
         GroupRun.final_acc GroupStudy.stcs_epochs GroupStudy.stcs_tfr].
    rewrite !length_map, <- !app_assoc. cbn [app].
    rewrite ?app_nil_r. reflexivity.
Qed.

(* ------------------------------------------------------------------ *)
(** ** Properties of every call *)

Section EveryCall.

Variable LibState : Type.
Variable lib : Library LibState.
Variable P : Event -> bool.

Lemma all_ret A (a : A) :
  emits (ret (LibState:=LibState) a) (@all_events P A).
Proof. apply emits_ret. reflexivity. Qed.

Lemma all_call line T (c : LibCall T) :
  (forall o, P (Ev line c o) = true) ->
  emits (call lib line c) (@all_events P T).
Proof.
  intros H. apply emits_call. intros o. unfold all_events. simpl.
  now rewrite H.
Qed.

Lemma all_bind A B (m : M LibState A) (k : A -> M LibState B) :
  emits m (@all_events P A) -> (forall a, emits (k a) (@all_events P B)) ->
  emits (bind m k) (@all_events P B).
Proof.
  intros Hm Hk. apply emits_bind.
  eapply emits_weaken; [exact Hm |]. intros evs1 [a | e] H1.
  - eapply emits_weaken; [apply Hk |]. intros evs2 o2 H2.
    unfold all_events in *. now rewrite forallb_app, H1, H2.
  - exact H1.
Qed.

Lemma all_for_each X St (body : X -> St -> M LibState St) xs :
  (forall x st, emits (body x st) (@all_events P St)) ->
  forall st, emits (for_each xs body st) (@all_events P St).
Proof.
  intros Hb. induction xs as [| x xs IH]; intros st; simpl.
  - apply all_ret.
  - apply all_bind; auto.
Qed.

Lemma all_comprehension X Y (f : X -> M LibState Y) xs :
  (forall x, emits (f x) (@all_events P Y)) ->
  emits (comprehension f xs) (@all_events P (list Y)).
Proof.
  intros Hf. induction xs as [| x xs IH]; simpl.
  - apply all_ret.
  - apply all_bind; [apply Hf |]. intros y.
    apply all_bind; [exact IH |]. intros ys. apply all_ret.
Qed.

End EveryCall.

Ltac every_call :=
  repeat first
    [ apply all_ret
    | apply all_call; intros [? | ?]; reflexivity
    | apply all_for_each; intros
    | apply all_comprehension; intros
    | apply all_bind; [| intros]
    | match goal with |- emits (match ?p with _ => _ end) _ => destruct p end
    | match goal with |- emits (let _ := _ in _) _ => cbv zeta end ].

Lemma xdawn_calls_only LibState (lib : Library LibState) :
  emits (XdawnDenoising.script lib)
    (@all_events (calls_only xdawn_modules xdawn_calls) unit).
Proof. unfold XdawnDenoising.script. every_call. Qed.

Lemma group_study_calls_only LibState (lib : Library LibState) :
  emits (GroupStudy.script lib)
    (@all_events (calls_only group_study_modules group_study_calls) unit).
Proof.
  unfold GroupStudy.script, GroupStudy.viewers. every_call.
  all: unfold GroupStudy.subject_body, GroupStudy.freq_body; every_call.
Qed.

(* ------------------------------------------------------------------ *)
(** ** Program order *)

Section ProgramOrder.

Local Open Scope list_scope.

Variable LibState : Type.
Variable lib : Library LibState.
Variable loops : list (nat * nat).

Lemma emits_conj A (m : M LibState A)
    (P Q : list Event -> Outcome A -> Prop) :
  emits m P -> emits m Q -> emits m (fun evs o => P evs o /\ Q evs o).
Proof.
  intros HP HQ w. destruct (HP w) as (evs & Ht & Hp).
  destruct (HQ w) as (evs' & Ht' & Hq).
  rewrite Ht in Ht'. apply app_inv_head in Ht'. subst evs'.
  exists evs. auto.
Qed.

Lemma in_program_order_app (l1 l2 : list nat) :
  in_program_order loops l1 = true ->
  in_program_order loops l2 = true ->
  (forall pre x y rest,
      l1 = pre ++ [x] -> l2 = y :: rest -> step_ok loops x y = true) ->
  in_program_order loops (l1 ++ l2) = true.
Proof.
  induction l1 as [| x [| x' l1] IH]; intros H1 H2 Hxy.
  - exact H2.
  - simpl. rewrite H2, andb_true_r. destruct l2 as [| y l2]; [reflexivity |].
    apply (Hxy [] x y l2); reflexivity.
  - cbn [app in_program_order] in *.
    apply andb_true_iff in H1. destruct H1 as [Hs H1].
    rewrite Hs. simpl. apply IH; auto.
    intros pre a b rest Hpre Hrest.
    apply (Hxy (x :: pre) a b rest); [| exact Hrest].
    simpl. now rewrite Hpre.
Qed.

Lemma step_ok_le l1 l2 : l1 <= l2 -> step_ok loops l1 l2 = true.
Proof.
  intros H. unfold step_ok. apply Nat.leb_le in H. now rewrite H.
Qed.

Lemma step_ok_loop head tail :
  In (head, tail) loops -> step_ok loops tail head = true.
Proof.
  intros Hin. unfold step_ok. apply orb_true_iff. right.
  apply existsb_exists. exists (head, tail). split; [exact Hin |]. simpl.
  now rewrite !Nat.eqb_refl.
Qed.

Lemma ordered_seq A B lo mid hi evs1 evs2 (o1 : Outcome A) (o2 : Outcome B) :
  lo <= mid <= hi ->
  ordered loops lo mid evs1 o1 -> ordered loops mid hi evs2 o2 ->
  ordered loops lo hi (evs1 ++ evs2) o2.
Proof.
  intros Hb [Ho1 Hf1] [Ho2 Hf2]. split.
  - rewrite map_app. apply in_program_order_app; auto.
    intros pre x y rest Hx Hy. apply step_ok_le.
    assert (Hinx : In x (map ev_line evs1))
      by (rewrite Hx; apply in_elt).
    assert (Hiny : In y (map ev_line evs2))
      by (rewrite Hy; now left).
    apply in_map_iff in Hinx. destruct Hinx as (ex & <- & Hinx).
    apply in_map_iff in Hiny. destruct Hiny as (ey & <- & Hiny).
    rewrite Forall_forall in Hf1, Hf2.
    specialize (Hf1 _ Hinx). specialize (Hf2 _ Hiny). lia.
  - apply Forall_app. split; eapply Forall_impl; try eassumption;
      cbv beta; intros; lia.
Qed.

(** Two passes of one loop, one after the other. *)
Lemma ordered_again A B head tail evs1 evs2 (a : A) (o2 : Outcome B) :
  In (head, tail) loops ->
  pass_of loops head tail evs1 (Returns a) ->
  ordered loops head tail evs2 o2 -> starts_at head evs2 o2 ->
  ordered loops head tail (evs1 ++ evs2) o2.
Proof.
  intros Hin ([Ho1 Hf1] & _ & Hend) [Ho2 Hf2] Hstart. split.
  - rewrite map_app. apply in_program_order_app; auto.
    intros pre x y rest Hx Hy.
    destruct Hend as (pre1 & ev1 & -> & Hl1).
    rewrite map_app in Hx. simpl in Hx.
    apply app_inj_tail in Hx. destruct Hx as [_ Hx].
    destruct evs2 as [| ev2 evs2]; [discriminate Hy |].
    simpl in Hy, Hstart. injection Hy as Hy _.
    subst x y. rewrite Hl1, Hstart. now apply step_ok_loop.
  - apply Forall_app. now split.
Qed.

Lemma ord_ret A (a : A) lo hi :
  emits (ret (LibState:=LibState) a) (@ordered loops lo hi A).
Proof. apply emits_ret. split; [reflexivity | constructor]. Qed.

Lemma ord_call line T (c : LibCall T) lo hi :
  lo <= line <= hi ->
  emits (call lib line c) (@ordered loops lo hi T).
Proof.
  intros H. apply emits_call. intros o. split; [reflexivity |].
  constructor; [exact H | constructor].
Qed.

Lemma ord_bind A B (m : M LibState A) (k : A -> M LibState B) lo mid hi :
  lo <= mid <= hi ->
  emits m (@ordered loops lo mid A) ->
  (forall a, emits (k a) (@ordered loops mid hi B)) ->
  emits (bind m k) (@ordered loops lo hi B).
Proof.
  intros Hb Hm Hk. apply emits_bind.
  eapply emits_weaken; [exact Hm |]. intros evs1 [a | e] H1.
  - eapply emits_weaken; [apply Hk |]. intros evs2 o2 H2.
    eapply ordered_seq; eauto.
  - destruct H1 as [Ho Hf]. split; [exact Ho |].
    eapply Forall_impl; [| exact Hf]. cbv beta. intros; lia.
Qed.

Lemma ord_widen A (m : M LibState A) lo hi lo' hi' :
  lo' <= lo -> hi <= hi' ->
  emits m (@ordered loops lo hi A) -> emits m (@ordered loops lo' hi' A).
Proof.
  intros Hlo Hhi Hm. eapply emits_weaken; [exact Hm |].
  intros evs o [Ho Hf]. split; [exact Ho |].
  eapply Forall_impl; [| exact Hf]. cbv beta. intros; lia.
Qed.

Lemma ord_for_each X St (body : X -> St -> M LibState St) xs head tail :
  In (head, tail) loops ->
  (forall x st, emits (body x st) (@pass_of loops head tail St)) ->
  forall st,
    emits (for_each xs body st)
      (fun evs o => ordered loops head tail evs o /\ starts_at head evs o).
Proof.
  intros Hin Hbody. induction xs as [| x xs IH]; intros st; simpl.
  - apply emits_ret. split; [split; [reflexivity | constructor] | exact I].
  - apply emits_bind.
    eapply emits_weaken; [apply Hbody |]. intros evs1 [st1 | e] H1.
    + eapply emits_weaken; [apply IH |]. intros evs2 o2 [H2 Hs2]. split.
      * eapply ordered_again; eauto.
      * destruct H1 as (_ & Hs1 & Hend).
        destruct Hend as (pre & ev & -> & _).
        destruct pre; simpl in *; exact Hs1.
    + destruct H1 as (Ho & Hs & _). split; assumption.
Qed.

Lemma ord_comprehension X Y (f : X -> M LibState Y) xs line :
  (forall x, emits (f x) (@ordered loops line line Y)) ->
  emits (comprehension f xs) (@ordered loops line line (list Y)).
Proof.
  intros Hf. induction xs as [| x xs IH]; simpl.
  - apply ord_ret.
  - apply ord_bind with (mid:=line); [lia | apply Hf |]. intros y.
    apply ord_bind with (mid:=line); [lia | exact IH |]. intros ys.
    apply ord_ret.
Qed.

(** A block that begins with a call begins on the line of that call. *)
Lemma starts_with_call line T (c : LibCall T) B (k : T -> M LibState B) Q :
  (forall a, emits (k a) Q) ->
  emits (bind (call lib line c) k) (@starts_at line B).
Proof.
  intros Hk. apply emits_bind. apply emits_call. intros [a | e].
  - eapply emits_weaken; [apply Hk |]. intros evs o _. reflexivity.
  - reflexivity.
Qed.

End ProgramOrder.

(** A call on line [l] followed by the rest of the block. *)
Ltac in_order :=
  repeat first
    [ apply ord_ret
    | match goal with
      | |- emits (bind (call _ ?l _) _) (@ordered _ _ _ _) =>
          apply ord_bind with (mid:=l);
          [ lia | apply ord_call; lia | intros ]
      | |- emits (match ?p with _ => _ end) _ => destruct p
      | |- emits (let _ := _ in _) _ => cbv zeta
      end ].

Lemma xdawn_in_program_order LibState (lib : Library LibState) :
  emits (XdawnDenoising.script lib) (@ordered xdawn_loops 28 89 unit).
Proof. unfold XdawnDenoising.script. in_order. Qed.

Lemma freq_body_pass LibState (lib : Library LibState)
    csd epochs fwd idx st :
  emits (GroupStudy.freq_body lib csd epochs fwd idx st)
    (@pass_of group_study_loops 148 155 _).
Proof.
  apply emits_conj; [| apply emits_conj].
  - unfold GroupStudy.freq_body. in_order.
  - unfold GroupStudy.freq_body.
    eapply starts_with_call with (Q:=@propagates _). intros a. propagate.
  - eapply emits_weaken; [apply freq_body_transcript |].
    intros evs [st' | e] H; [| exact I].
    destruct (H _ eq_refl) as (r & -> & _). unfold GroupRun.freq_events.
    eexists (_ :: _ :: _ :: _ :: _ :: nil), _. split; reflexivity.
Qed.

Lemma subject_body_pass LibState (lib : Library LibState)
    src bem montage sub acc :
  emits (GroupStudy.subject_body lib src bem montage sub acc)
    (@pass_of group_study_loops 51 165 _).
Proof.
  apply emits_conj; [| apply emits_conj].
  - unfold GroupStudy.subject_body. in_order.
    apply ord_bind with (mid:=55); [lia | |].
    { apply ord_widen with (lo:=55) (hi:=55); [lia | lia |].
      apply ord_comprehension. intros x. apply ord_call. lia. }
    intros raws. in_order.
    apply ord_bind with (mid:=155); [lia | |].
    { apply ord_widen with (lo:=148) (hi:=155); [lia | lia |].
      eapply emits_weaken.
      - apply ord_for_each with (loops:=group_study_loops) (head:=148)
                                (tail:=155);
          [unfold group_study_loops; simpl; auto |].
        intros x st. apply freq_body_pass.
      - intros evs o [H _]. exact H. }
    intros st. in_order.
  - unfold GroupStudy.subject_body.
    eapply starts_with_call with (Q:=@propagates _). intros a.
    unfold GroupStudy.freq_body. propagate.
  - eapply emits_weaken; [apply subject_body_transcript |].
    intros evs [acc' | e] H; [| exact I].
    destruct (H _ eq_refl) as (r & -> & _). unfold GroupRun.subject_events.
    rewrite !app_assoc. eexists _, _. split; reflexivity.
Qed.

Lemma group_study_in_program_order LibState (lib : Library LibState) :
  emits (GroupStudy.script lib) (@ordered group_study_loops 15 205 unit).
Proof.
  unfold GroupStudy.script. in_order.
  apply ord_bind with (mid:=165); [lia | |].
  { apply ord_widen with (lo:=51) (hi:=165); [lia | lia |].
    eapply emits_weaken.
    - apply ord_for_each with (loops:=group_study_loops) (head:=51)
                              (tail:=165);
        [unfold group_study_loops; simpl; auto |].
      intros x st. apply subject_body_pass.
    - intros evs o [H _]. exact H. }
  intros acc. unfold GroupStudy.viewers. in_order.
Qed.

(** The calls of a run, whatever the library does.  Every call of a run of
    either script is the import of one of the modules the script imports or
    a call of one of the functions, methods and attributes listed for it;
    and each call is completed on the line of the call before it or on a
    later line, except that in the group-study script the last call of the
    body of one of its two loops is followed, for a new pass, by the first
    call of that body.

    This is as far as a trace goes.  The calls of a program of [M] follow
    one another by the way [bind] is written, whatever the program calls:
    that a script runs in a single thread, or shares no state with another
    one, is no property of these traces, and what a library function starts
    on its own is the library's. *)
Lemma scripts_make_their_listed_calls_in_line_order :
  forall (LibState : Type) (lib : Library LibState) (s : LibState),
    (forallb (calls_only xdawn_modules xdawn_calls)
       (trace_of (XdawnDenoising.script lib) s) = true
     /\ in_program_order xdawn_loops
          (map ev_line (trace_of (XdawnDenoising.script lib) s)) = true)
    /\ (forallb (calls_only group_study_modules group_study_calls)
          (trace_of (GroupStudy.script lib) s) = true
        /\ in_program_order group_study_loops
             (map ev_line (trace_of (GroupStudy.script lib) s)) = true).
Proof.
  intros LibState lib s. repeat split.
  - exact (emits_run s (xdawn_calls_only lib)).
  - exact (proj1 (emits_run s (xdawn_in_program_order lib))).
  - exact (emits_run s (group_study_calls_only lib)).
  - exact (proj1 (emits_run s (group_study_in_program_order lib))).
Qed.

(* ------------------------------------------------------------------ *)
(** ** Files and interfaces *)

Lemma xdawn_external_only LibState (lib : Library LibState) :
  emits (XdawnDenoising.script lib) (@all_events external_only unit).
Proof. unfold XdawnDenoising.script. every_call. Qed.

Lemma group_study_external_only LibState (lib : Library LibState) :
  emits (GroupStudy.script lib) (@all_events external_only unit).
Proof.
  unfold GroupStudy.script, GroupStudy.viewers. every_call.
  all: unfold GroupStudy.subject_body, GroupStudy.freq_body; every_call.
Qed.

Lemma xdawn_reads_two_files LibState (lib : Library LibState) :
  emits (XdawnDenoising.script lib)
    (fun evs o =>
       o = Returns tt ->
       exists data_path, pick sel_file evs = xdawn_files data_path).
Proof.
  unfold XdawnDenoising.script.
  repeat step.
  all: intros Ho; try discriminate Ho.
  eexists. reflexivity.
Qed.

Lemma pick_file_read_events fnames :
  forall raws,
    List.length raws = List.length fnames ->
    pick sel_file (GroupRun.read_events fnames raws)
    = map (FRead "mne.io.read_raw") fnames.
Proof.
  unfold GroupRun.read_events.
  induction fnames as [| f fnames IH]; intros [| r raws] Hlen;
    try discriminate; [reflexivity |].
  simpl. f_equal. apply IH. now injection Hlen.
Qed.

(** C9.  The scripts keep to the external libraries.  Whatever the library
    does, every call of a run of either script is a call into mne, numpy,
    autoreject or mne_gui_addons, the import of one of them or of
    [os.path], [print], or the indexing of the dict that [Xdawn.apply]
    returned: no command-line argument is read, no network
    interface is opened and no file is written by the scripts themselves.
    In a run that ends normally the files read are, for the XDAWN script, a
    raw recording and an event file in the sample-data directory, through
    [read_raw_fif] and [read_events]; and, for the group-study script, a
    source-space file and a boundary-element-model solution file in the
    [fsaverage] directory, through [read_source_spaces] and
    [read_bem_solution], and for each of the three subjects the recording
    files that [eegbci.load_data] located, through [read_raw]. *)
Theorem scripts_read_files_only_through_the_library :
  forall (LibState : Type) (lib : Library LibState) (s : LibState),
    forallb external_only (trace_of (XdawnDenoising.script lib) s) = true
    /\ forallb external_only (trace_of (GroupStudy.script lib) s) = true
    /\ (outcome_of (XdawnDenoising.script lib) s = Returns tt ->
        exists data_path,
          pick sel_file (trace_of (XdawnDenoising.script lib) s)
          = xdawn_files data_path)
    /\ (outcome_of (GroupStudy.script lib) s = Returns tt ->
        exists fs_dir found,
          List.length found = 3
          /\ pick sel_file (trace_of (GroupStudy.script lib) s)
             = group_study_files fs_dir found).
Proof.
  intros LibState lib s. split; [| split; [| split]].
  - exact (emits_run s (xdawn_external_only lib)).
  - exact (emits_run s (group_study_external_only lib)).
  - exact (emits_run s (xdawn_reads_two_files lib)).
  - intros Ho. open_transcript Ho.
    exists fs_dir, (map GroupRun.s_raw_fnames [r1; r2; r3]).
    split; [reflexivity |].
    inversion_clear Hraws as [| ? ? H1 Hraws'].
    inversion_clear Hraws' as [| ? ? H2 Hraws''].
    inversion_clear Hraws'' as [| ? ? H3 _].
    pick_trace.
    rewrite !pick_file_read_events by assumption.
    cbn [GroupRun.freq_events pick flat_map app sel_file map].
    rewrite !flat_map_nil.
    unfold group_study_files. cbn [flat_map app map].
    rewrite <- !app_assoc, ?app_nil_r. reflexivity.
Qed.

(* ------------------------------------------------------------------ *)
(** ** The order of the pipeline in the group-study script *)

Lemma segment_refuses_epochs rest tr :
  forallb filters_epochs_segments_raw tr = true ->
  forall o mdl,
    Cls_beq (fst o) CEpochs = true ->
    chainb (SSegment :: rest) (Some o) mdl tr = false.
Proof.
  induction tr as [| ev tr IH]; intros Hall o mdl Ho; [reflexivity |].
  cbn [forallb] in Hall. apply andb_true_iff in Hall.
  destruct Hall as [Hev Hall].
  cbn [chainb]. rewrite (IH Hall o mdl Ho), orb_false_r.
  unfold filters_epochs_segments_raw in Hev.
  destruct (stage_event ev) as [[st sig m y] |]; [| reflexivity].
  cbn [se_stage se_signal se_model se_yield] in *.
  destruct st; try reflexivity.
  destruct sig as [[c n] |]; [| discriminate Hev].
  destruct o as [c' n']. cbn [fst] in *.
  destruct c; try discriminate Hev.
  destruct c'; try discriminate Ho. reflexivity.
Qed.

Lemma filter_then_segment_never rest tr :
  forallb filters_epochs_segments_raw tr = true ->
  forall sig mdl, chainb (SFilter :: SSegment :: rest) sig mdl tr = false.
Proof.
  induction tr as [| ev tr IH]; intros Hall sig mdl; [reflexivity |].
  cbn [forallb] in Hall. apply andb_true_iff in Hall.
  destruct Hall as [Hev Hall].
  cbn [chainb]. rewrite (IH Hall sig mdl), orb_false_r.
  unfold filters_epochs_segments_raw in Hev.
  destruct (stage_event ev) as [[st sg m y] |]; [| reflexivity].
  cbn [se_stage se_signal se_model se_yield] in *.
  destruct st; try reflexivity.
  destruct y as [o |]; [| discriminate Hev].
  cbn [pass_on].
  rewrite segment_refuses_epochs by assumption.
  now rewrite andb_false_r.
Qed.

Lemma stated_pipeline_never tr :
  forallb filters_epochs_segments_raw tr = true ->
  follows_pipeline stated_pipeline tr = false.
Proof.
  unfold follows_pipeline, stated_pipeline. generalize (@None Obj) at 1.
  generalize (@None Obj).
  induction tr as [| ev tr IH]; intros mdl sig Hall; [reflexivity |].
  pose proof Hall as Hall'.
  cbn [forallb] in Hall'. apply andb_true_iff in Hall'.
  destruct Hall' as [_ Htl].
  cbn [chainb]. rewrite (IH mdl sig Htl), orb_false_r.
  destruct (stage_event ev) as [se |]; [| reflexivity].
  rewrite (filter_then_segment_never _ tr Htl). now rewrite andb_false_r.
Qed.

Lemma group_study_filters_epochs LibState (lib : Library LibState) :
  emits (GroupStudy.script lib)
    (@all_events filters_epochs_segments_raw unit).
Proof.
  unfold GroupStudy.script, GroupStudy.viewers. every_call.
  all: unfold GroupStudy.subject_body, GroupStudy.freq_body; every_call.
Qed.

Lemma pick_pipe_read_events fnames :
  forall raws,
    List.length raws = List.length fnames ->
    pick sel_pipe (GroupRun.read_events fnames raws) = map PipeLoad raws.
Proof.
  unfold GroupRun.read_events.
  induction fnames as [| f fnames IH]; intros [| r raws] Hlen;
    try discriminate; [reflexivity |].
  simpl. f_equal. apply IH. now injection Hlen.
Qed.

Lemma xdawn_follows_its_pipeline LibState (lib : Library LibState) :
  emits (XdawnDenoising.script lib)
    (fun evs o =>
       o = Returns tt ->
       exists raw epochs before xd denoised after,
         pick sel_pipe evs
         = xdawn_pipeline raw epochs before xd denoised after).
Proof.
  unfold XdawnDenoising.script.
  repeat step.
  all: intros Ho; try discriminate Ho.
  do 6 eexists. reflexivity.
Qed.

Lemma group_study_never_filters_a_recording LibState
    (lib : Library LibState) :
  emits (GroupStudy.script lib)
    (@all_events leaves_recordings_unfiltered unit).
Proof.
  unfold GroupStudy.script, GroupStudy.viewers. every_call.
  all: unfold GroupStudy.subject_body, GroupStudy.freq_body; every_call.
Qed.

Lemma group_study_pipeline_of_a_run LibState (lib : Library LibState) s :
  outcome_of (GroupStudy.script lib) s = Returns tt ->
  exists passes : list PipePass,
    List.length passes = 3
    /\ pick sel_pipe (trace_of (GroupStudy.script lib) s)
       = group_study_pipeline passes.
Proof.
  intros Ho. open_transcript Ho.
  exists (map pipe_pass_of [r1; r2; r3]).
  split; [reflexivity |].
  inversion_clear Hraws as [| ? ? H1 Hraws'].
  inversion_clear Hraws' as [| ? ? H2 Hraws''].
  inversion_clear Hraws'' as [| ? ? H3 _].
  pick_trace.
  rewrite !pick_pipe_read_events by assumption.
  cbn [GroupRun.freq_events pick flat_map app sel_pipe map].
  rewrite !flat_map_nil.
  unfold group_study_pipeline, pipe_steps, pipe_pass_of.
  cbn [flat_map app map pl_raws pl_raw pl_epochs pl_ica pl_tfr pl_stc
       pl_stcs GroupRun.final_acc GroupStudy.stcs_epochs GroupStudy.stcs_tfr
       GroupStudy.insts_epochs GroupStudy.insts_tfr].
  rewrite <- !app_assoc, ?app_nil_r. reflexivity.
Qed.

(* ------------------------------------------------------------------ *)
(** ** The claims about the pipeline, and runs that meet their
       conditions *)

(** C1, as the scripts have it.

    A run of the XDAWN script that ends normally follows the stated order,
    on one and the same signal: the recording it loads is the one it
    filters and then segments into epochs; the transform is fitted on these
    epochs and applied to them; and the image shown last is of the epochs
    taken from what the transform returned.  (An image of the epochs is
    also shown once before the fit.)

    The group-study script follows a different order.  No run of it follows
    the stated one, and in no run, however it ends, is a recording filtered.
    In a run that ends normally, for each of the three subjects in turn the
    recordings that were loaded are concatenated, the concatenated
    recording is segmented into epochs, the epochs are then filtered, the
    ICA is fitted on these epochs and applied to them, and the
    time-frequency object and the source estimates are computed from them;
    after the third subject the two viewers are given these epochs and
    time-frequency objects, of all three subjects, with the source
    estimates computed from them. *)
Theorem pipeline_order_of_the_scripts :
  forall (LibState : Type) (lib : Library LibState) (s : LibState),
    (outcome_of (XdawnDenoising.script lib) s = Returns tt ->
     follows_pipeline stated_pipeline
       (trace_of (XdawnDenoising.script lib) s) = true
     /\ exists raw epochs before xd denoised after,
          pick sel_pipe (trace_of (XdawnDenoising.script lib) s)
          = xdawn_pipeline raw epochs before xd denoised after)
    /\ follows_pipeline stated_pipeline
         (trace_of (GroupStudy.script lib) s) = false
    /\ forallb leaves_recordings_unfiltered
         (trace_of (GroupStudy.script lib) s) = true
    /\ (outcome_of (GroupStudy.script lib) s = Returns tt ->
        exists passes : list PipePass,
          List.length passes = 3
          /\ pick sel_pipe (trace_of (GroupStudy.script lib) s)
             = group_study_pipeline passes).
Proof.
  intros LibState lib s. split; [| split; [| split]].
  - intros Ho. split.
    + exact (emits_run s (xdawn_follows_stated_pipeline lib) Ho).
    + exact (emits_run s (xdawn_follows_its_pipeline lib) Ho).
  - apply stated_pipeline_never.
    exact (emits_run s (group_study_filters_epochs lib)).
  - exact (emits_run s (group_study_never_filters_a_recording lib)).
  - apply group_study_pipeline_of_a_run.
Qed.

Lemma pipeline_order_witness :
  outcome_of (XdawnDenoising.script sample_lib) 0 = Returns tt
  /\ outcome_of (GroupStudy.script sample_lib) 0 = Returns tt
  /\ (exists raw epochs before xd denoised after,
        pick sel_pipe (trace_of (XdawnDenoising.script sample_lib) 0)
        = xdawn_pipeline raw epochs before xd denoised after)
  /\ (exists passes : list PipePass,
        List.length passes = 3
        /\ pick sel_pipe (trace_of (GroupStudy.script sample_lib) 0)
           = group_study_pipeline passes).
Proof.
  assert (Hx : outcome_of (XdawnDenoising.script sample_lib) 0 = Returns tt)
    by (vm_compute; reflexivity).
  assert (Hg : outcome_of (GroupStudy.script sample_lib) 0 = Returns tt)
    by (vm_compute; reflexivity).
  destruct (pipeline_order_of_the_scripts sample_lib 0)
    as (H1 & _ & _ & H4).
  split; [exact Hx |]. split; [exact Hg |]. split.
  - exact (proj2 (H1 Hx)).
  - exact (H4 Hg).
Defined.

Lemma last_inverse_operator_witness :
  outcome_of (GroupStudy.script sample_lib) 0 = Returns tt
  /\ Forall (fun n => n = 9)
       (pick sel_size (trace_of (GroupStudy.script sample_lib) 0))
  /\ last_operator_serves_all_frequencies
       (trace_of (GroupStudy.script sample_lib) 0).
Proof.
  assert (Ho : outcome_of (GroupStudy.script sample_lib) 0 = Returns tt)
    by (vm_compute; reflexivity).
  assert (H9 : Forall (fun n => n = 9)
                 (pick sel_size (trace_of (GroupStudy.script sample_lib) 0)))
    by (vm_compute; repeat constructor).
  split; [exact Ho | split; [exact H9 |]].
  exact (last_inverse_operator_is_the_one_applied sample_lib 0 Ho H9).
Defined.

Lemma one_result_per_subject_witness :
  outcome_of (GroupStudy.script sample_lib) 0 = Returns tt
  /\ one_entry_per_subject (trace_of (GroupStudy.script sample_lib) 0).
Proof.
  assert (Ho : outcome_of (GroupStudy.script sample_lib) 0 = Returns tt)
    by (vm_compute; reflexivity).
  split; [exact Ho |].
  exact (proj1 (one_result_per_subject_in_order sample_lib) 0 Ho).
Defined.

Lemma tfr_is_morlet_witness :
  outcome_of (GroupStudy.script sample_lib) 0 = Returns tt
  /\ exists passes : list TfPass,
       List.length passes = 3
       /\ pick sel_tf (trace_of (GroupStudy.script sample_lib) 0)
          = flat_map tf_steps passes.
Proof.
  assert (Ho : outcome_of (GroupStudy.script sample_lib) 0 = Returns tt)
    by (vm_compute; reflexivity).
  split; [exact Ho |].
  exact (tfr_is_morlet_over_nine_log_spaced_frequencies sample_lib 0 Ho).
Defined.

Lemma viewers_witness :
  outcome_of (GroupStudy.script sample_lib) 0 = Returns tt
  /\ exists v1 v2 : Viewer,
       pick sel_viewer_op (trace_of (GroupStudy.script sample_lib) 0)
       = [ VCreated v1; VGoToExtreme v1;
           VSetCmap v1 0.25%float 0.8%float; VSet3dView v1 40 35 300;
           VCreated v2; VGoToExtreme v2;
           VSetCmap v2 0.25%float 0.8%float; VSet3dView v2 40 35 300 ].
Proof.
  assert (Ho : outcome_of (GroupStudy.script sample_lib) 0 = Returns tt)
    by (vm_compute; reflexivity).
  split; [exact Ho |].
  exact (viewers_go_to_extreme_cmap_view sample_lib 0 Ho).
Defined.

Lemma files_witness :
  outcome_of (XdawnDenoising.script sample_lib) 0 = Returns tt
  /\ outcome_of (GroupStudy.script sample_lib) 0 = Returns tt
  /\ (exists data_path,
         pick sel_file (trace_of (XdawnDenoising.script sample_lib) 0)
         = xdawn_files data_path)
  /\ (exists fs_dir found,
         List.length found = 3
         /\ pick sel_file (trace_of (GroupStudy.script sample_lib) 0)
            = group_study_files fs_dir found).
Proof.
  assert (Hx : outcome_of (XdawnDenoising.script sample_lib) 0 = Returns tt)
    by (vm_compute; reflexivity).
  assert (Hg : outcome_of (GroupStudy.script sample_lib) 0 = Returns tt)
    by (vm_compute; reflexivity).
  destruct (scripts_read_files_only_through_the_library sample_lib 0)
    as (_ & _ & H3 & H4).
  split; [exact Hx | split; [exact Hg | split; [exact (H3 Hx) |
    exact (H4 Hg)]]].
Defined.

(** A run in which the library fails: the call of [tfr_morlet] for the first
    subject raises, it is the last call of the run, and the script ends with
    that exception. *)
Lemma no_local_recovery_witness :
  outcome_of (GroupStudy.script (fail_at 38 sample_lib)) (0, 0)
  = Raises (mkExc "RuntimeError" "raised by the library")
  /\ option_map ev_name
       (last (map Some (trace_of (GroupStudy.script (fail_at 38 sample_lib))
                          (0, 0))) None)
     = Some "mne.time_frequency.tfr_morlet"
  /\ no_local_recovery
       (trace_of (GroupStudy.script (fail_at 38 sample_lib)) (0, 0))
       (outcome_of (GroupStudy.script (fail_at 38 sample_lib)) (0, 0)).
Proof.
  split; [vm_compute; reflexivity | split; [vm_compute; reflexivity |]].
  exact (proj2 (scripts_have_no_local_recovery (fail_at 38 sample_lib)
                  (0, 0))).
Defined.

(* ------------------------------------------------------------------ *)
(** ** The seed of the ICA *)

(** Whatever the library does, each ICA object of a run of the group-study
    script is made with [n_components=15] and [random_state=11].  What the
    library computes from the seed is the library's. *)
Lemma ica_is_made_with_seed_11 :
  forall (LibState : Type) (lib : Library LibState) (s : LibState),
    forallb ica_seeded (trace_of (GroupStudy.script lib) s) = true.
Proof.
  intros LibState lib s.
  apply (emits_run (Q:=@all_events ica_seeded unit) s).
  unfold GroupStudy.script, GroupStudy.viewers. every_call.
  all: unfold GroupStudy.subject_body, GroupStudy.freq_body; every_call.
Qed.

(** Read without one of its two loops, the group-study trace is out of
    order: the order of its calls is that of a program with these loops. *)
Example group_study_goes_back_in_its_loops :
  in_program_order [(148, 155)]
    (map ev_line (trace_of (GroupStudy.script sample_lib) 0)) = false
  /\ in_program_order [(51, 165)]
       (map ev_line (trace_of (GroupStudy.script sample_lib) 0)) = false.
Proof. split; vm_compute; reflexivity. Qed.

(* ================================================================== *)
(** * More of the group-study script *)

Lemma pick_rec_read_events fnames raws :
  pick sel_rec (GroupRun.read_events fnames raws)
  = map (fun fr => RRead (fst fr) true false (snd fr)) (combine fnames raws).
Proof.
  unfold GroupRun.read_events.
  induction (combine fnames raws) as [| fr l IH]; [reflexivity |].
  simpl. now rewrite <- IH.
Qed.

(** In a run of the group-study script that ends normally, one montage is
    made before the subject loop; each pass announces its subject, asks the
    library for the files of runs 6, 10 and 14 of that subject, reads each
    file the library located once and in the order given, concatenates the
    recordings read in that same order (none, when the library located no
    file), and standardizes, gives the montage to and segments the
    concatenated recording. *)
Theorem recordings_are_read_once_and_concatenated_in_order :
  forall (LibState : Type) (lib : Library LibState) (s : LibState),
    outcome_of (GroupStudy.script lib) s = Returns tt ->
    exists (montage : Montage) (passes : list RecPass),
      map rc_sub passes = [1; 2; 3]%Z
      /\ Forall (fun p => List.length (rc_raws p) = List.length (rc_files p))
           passes
      /\ pick sel_rec (trace_of (GroupStudy.script lib) s)
         = (RMontageMade "standard_1005" montage
            :: flat_map (rec_steps montage) passes)%list.
Proof.
  intros LibState lib s Ho. open_transcript Ho.
  exists montage,
    [rec_pass_of 1 r1; rec_pass_of 2 r2; rec_pass_of 3 r3].
  split; [reflexivity |]. split.
  - inversion_clear Hraws as [| ? ? H1 Hraws'].
    inversion_clear Hraws' as [| ? ? H2 Hraws''].
    inversion_clear Hraws'' as [| ? ? H3 _].
    repeat constructor; assumption.
  - pick_trace. rewrite !pick_rec_read_events.
    cbn [GroupRun.freq_events pick flat_map app sel_rec].
    rewrite !flat_map_nil.
    unfold rec_steps, rec_pass_of.
    cbn [flat_map app rc_sub rc_files rc_raws rc_raw].
    rewrite <- !app_assoc, ?app_nil_r. reflexivity.
Qed.

(** In a run of the group-study script that ends normally, the epochs of
    each subject are, in this order: given an average reference as a
    projection, cleared of bad epochs with the very thresholds autoreject
    computed for them, high-pass filtered at 1 (no upper edge), and only
    then used to fit the ICA. *)
Theorem bad_epochs_are_dropped_before_filter_and_ica :
  forall (LibState : Type) (lib : Library LibState) (s : LibState),
    outcome_of (GroupStudy.script lib) s = Returns tt ->
    exists passes : list PrePass,
      List.length passes = 3
      /\ pick sel_pre (trace_of (GroupStudy.script lib) s)
         = flat_map pre_steps passes.
Proof.
  intros LibState lib s Ho. open_transcript Ho.
  exists (map pre_pass_of [r1; r2; r3]).
  split; [reflexivity |].
  pick_trace.
  cbn [GroupRun.freq_events pick flat_map app sel_pre map].
  rewrite !flat_map_nil. reflexivity.
Qed.

(** In a run of the group-study script that ends normally, each subject's
    ICA object is fitted on the subject's epochs, searched on these epochs
    for EOG components (channel Fp1) and for muscle components, and applied
    to the same epochs excluding the EOG components followed by the muscle
    components, exactly as the library returned them. *)
Theorem ica_excludes_eog_then_muscle_components :
  forall (LibState : Type) (lib : Library LibState) (s : LibState),
    outcome_of (GroupStudy.script lib) s = Returns tt ->
    exists passes : list IcaPass,
      List.length passes = 3
      /\ pick sel_ica (trace_of (GroupStudy.script lib) s)
         = flat_map ica_steps passes.
Proof.
  intros LibState lib s Ho. open_transcript Ho.
  exists (map ica_pass_of [r1; r2; r3]).
  split; [reflexivity |].
  pick_trace.
  cbn [GroupRun.freq_events pick flat_map app sel_ica map fst].
  rewrite !flat_map_nil. reflexivity.
Qed.

Lemma freq_steps_of_dec csd epochs fwd (rs : list GroupRun.FreqReplies) :
  forall start,
    flat_map
      (fun ir => pick sel_dec (GroupRun.freq_events csd epochs fwd
                                 (fst ir) (snd ir)))
      (combine (seq start (List.length rs)) rs)
    = map (DFreqCov csd) (seq start (List.length rs)).
Proof.
  induction rs as [| r rs IH]; intros start; [reflexivity |].
  cbn [List.length seq combine map flat_map].
  now rewrite IH.
Qed.

(** In a run of the group-study script that ends normally, each pass computes
    the time-frequency representation and its baseline cross-spectral
    density (from -1 to 0) before anything is decimated; it then decimates
    the time-frequency object and the epochs by 20, and computes the
    time-series covariance (up to 0) and both source estimates from the
    decimated objects, while the covariances of the frequency loop are read,
    index after index from 0, from the density computed before the
    decimation. *)
Theorem decimation_comes_after_the_time_frequency_transform :
  forall (LibState : Type) (lib : Library LibState) (s : LibState),
    outcome_of (GroupStudy.script lib) s = Returns tt ->
    exists passes : list DecPass,
      List.length passes = 3
      /\ pick sel_size (trace_of (GroupStudy.script lib) s)
         = map dc_size passes
      /\ pick sel_dec (trace_of (GroupStudy.script lib) s)
         = flat_map dec_steps passes.
Proof.
  intros LibState lib s Ho. open_transcript Ho.
  exists (map dec_pass_of [r1; r2; r3]).
  split; [reflexivity |]. split.
  - pick_trace.
    cbn [GroupRun.freq_events pick flat_map app sel_size sel_inv].
    rewrite !flat_map_nil. reflexivity.
  - pick_trace. rewrite !freq_steps_of_dec.
    cbn [pick flat_map app sel_dec map].
    unfold dec_steps, dec_pass_of.
    cbn [dc_epochs dc_tfr dc_csd dc_size app].
    rewrite <- !app_assoc, ?app_nil_r. reflexivity.
Qed.

Lemma flat_map_repeat X Y Z (y : Y) (l1 : list X) (l2 : list Z) :
  List.length l1 = List.length l2 ->
  flat_map (fun _ : X * Z => [y]) (combine l1 l2)
  = repeat y (List.length l2).
Proof.
  revert l2. induction l1 as [| x l1 IH]; intros [| z l2] Hlen;
    try discriminate; [reflexivity |].
  simpl. f_equal. apply IH. now injection Hlen.
Qed.

(** In a run of the group-study script that ends normally, the source space
    and the boundary-element model are read once, before the subject loop,
    from the [bem] directory of what [fetch_fsaverage] returned; each pass
    builds one forward solution from them (trans "fsaverage", [eeg=True],
    [mindist=5.0]) and makes every one of its inverse operators, that of the
    time series and one per reported frequency, from this forward solution;
    and both viewers are given that same source space, the subject
    "fsaverage", and the directory above the [fsaverage] directory. *)
Theorem anatomy_is_read_once_and_shared :
  forall (LibState : Type) (lib : Library LibState) (s : LibState),
    outcome_of (GroupStudy.script lib) s = Returns tt ->
    exists fs_dir src bem (passes : list AnPass),
      List.length passes = 3
      /\ pick sel_size (trace_of (GroupStudy.script lib) s)
         = map an_size passes
      /\ pick sel_an (trace_of (GroupStudy.script lib) s)
         = anatomy_steps fs_dir src bem passes.
Proof.
  intros LibState lib s Ho. open_transcript Ho.
  exists fs_dir, src, bem, (map an_pass_of [r1; r2; r3]).
  split; [reflexivity |]. split.
  - pick_trace.
    cbn [GroupRun.freq_events pick flat_map app sel_size sel_inv].
    rewrite !flat_map_nil. reflexivity.
  - pick_trace.
    cbn [GroupRun.freq_events pick flat_map app sel_an map].
    rewrite !flat_map_repeat by (now rewrite length_seq).
    unfold anatomy_steps, an_steps, an_pass_of.
    cbn [flat_map app map an_fwd an_size repeat].
    rewrite <- !app_assoc, ?app_nil_r. reflexivity.
Qed.

Lemma freq_steps_of_cov csd epochs fwd (rs : list GroupRun.FreqReplies) :
  forall start,
    flat_map
      (fun ir => pick sel_cov (GroupRun.freq_events csd epochs fwd
                                 (fst ir) (snd ir)))
      (combine (seq start (List.length rs)) rs)
    = flat_map (cov_iter_steps csd)
        (combine (seq start (List.length (map cov_iter_of rs)))
           (map cov_iter_of rs)).
Proof.
  induction rs as [| r rs IH]; intros start; [reflexivity |].
  cbn [List.length seq combine map flat_map].
  now rewrite IH.
Qed.

(** In a run of the group-study script that ends normally, the inverse
    operator of the time series is made from the covariance
    [compute_covariance] returned for the epochs (up to 0), as it is; and in
    each pass of the frequency loop the covariance taken from the baseline
    density for the frequency index (as a covariance) has its ["data"]
    replaced by the real part of that same ["data"] before the inverse
    operator of the frequency is made from it. *)
Theorem frequency_covariances_are_made_real :
  forall (LibState : Type) (lib : Library LibState) (s : LibState),
    outcome_of (GroupStudy.script lib) s = Returns tt ->
    exists passes : list CovPass,
      List.length passes = 3
      /\ pick sel_size (trace_of (GroupStudy.script lib) s)
         = map (fun p => List.length (cp_iters p)) passes
      /\ pick sel_cov (trace_of (GroupStudy.script lib) s)
         = flat_map cov_steps passes.
Proof.
  intros LibState lib s Ho. open_transcript Ho.
  exists (map cov_pass_of [r1; r2; r3]).
  split; [reflexivity |]. split.
  - pick_trace.
    cbn [GroupRun.freq_events pick flat_map app sel_size sel_inv].
    rewrite !flat_map_nil.
    unfold cov_pass_of. cbn [map cp_iters app]. now rewrite !length_map.
  - pick_trace. rewrite !freq_steps_of_cov.
    cbn [pick flat_map app sel_cov map].
    unfold cov_steps, cov_pass_of.
    cbn [cp_epochs cp_cov0 cp_op0 cp_csd cp_iters app].
    rewrite <- !app_assoc, ?app_nil_r. reflexivity.
Qed.

(** The calls around the inverse operators for whatever number of
    frequencies the library reports. *)
Lemma inverse_operators_of_a_run LibState (lib : Library LibState) s :
  outcome_of (GroupStudy.script lib) s = Returns tt ->
  exists passes : list InvPass,
    List.length passes = 3
    /\ pick sel_size (trace_of (GroupStudy.script lib) s)
       = map (fun p => List.length (i_freq p)) passes
    /\ pick sel_inv (trace_of (GroupStudy.script lib) s)
       = (flat_map inv_steps passes
          ++ [ IViewed (map i_stc passes); IViewed (map i_stcs passes) ])%list.
Proof.
  intros Ho. open_transcript Ho.
  exists (map inv_pass_of [r1; r2; r3]).
  split; [reflexivity |]. split.
  - pick_trace.
    cbn [GroupRun.freq_events pick flat_map app sel_size sel_inv].
    rewrite !flat_map_nil.
    unfold inv_pass_of. cbn [map i_freq app]. now rewrite !length_map.
  - pick_trace.
    rewrite !freq_steps_of_loop.
    cbn [pick flat_map app sel_inv].
    unfold inv_pass_of, inv_steps, last_made, GroupRun.loop_state.
    cbn [map flat_map app i_cov0 i_op0 i_stc i_freq i_stcs
         GroupRun.final_acc GroupStudy.stcs_epochs GroupStudy.stcs_tfr].
    rewrite !length_map, <- !app_assoc. cbn [app].
    rewrite ?app_nil_r. reflexivity.
Qed.

(** In a run of the group-study script that ends normally, whatever number
    of frequencies the library reports for a time-frequency object, the
    frequency loop of the pass makes that many inverse operators, for the
    indices from 0 in order, and [apply_inverse_tfr_epochs] is called once
    after it with the inverse operator made last in the pass; no operator
    made in between is applied. *)
Theorem frequency_loop_runs_once_per_reported_frequency :
  forall (LibState : Type) (lib : Library LibState) (s : LibState),
    outcome_of (GroupStudy.script lib) s = Returns tt ->
    exists passes : list InvPass,
      List.length passes = 3
      /\ pick sel_size (trace_of (GroupStudy.script lib) s)
         = map (fun p => List.length (i_freq p)) passes
      /\ pick sel_inv (trace_of (GroupStudy.script lib) s)
         = (flat_map inv_steps passes
            ++ [ IViewed (map i_stc passes);
                 IViewed (map i_stcs passes) ])%list.
Proof. intros LibState lib s. apply inverse_operators_of_a_run. Qed.

(** In a run of the group-study script that ends normally and in which the
    library reports no frequency, the frequency loop makes no call, and
    [apply_inverse_tfr_epochs] is given the inverse operator of the time
    series, the one [apply_inverse_epochs] was given. *)
Theorem without_frequencies_the_time_series_operator_is_applied :
  forall (LibState : Type) (lib : Library LibState) (s : LibState),
    outcome_of (GroupStudy.script lib) s = Returns tt ->
    Forall (fun n => n = 0)
      (pick sel_size (trace_of (GroupStudy.script lib) s)) ->
    exists passes : list InvPass,
      List.length passes = 3
      /\ pick sel_inv (trace_of (GroupStudy.script lib) s)
         = (flat_map inv_steps_without_frequencies passes
            ++ [ IViewed (map i_stc passes);
                 IViewed (map i_stcs passes) ])%list.
Proof.
  intros LibState lib s Ho H0.
  destruct (inverse_operators_of_a_run lib s Ho)
    as (passes & Hlen & Hsize & Hinv).
  exists passes. split; [exact Hlen |].
  rewrite Hinv. f_equal.
  rewrite Hsize in H0. clear Hsize Hinv Hlen.
  induction passes as [| p passes IH]; [reflexivity |].
  cbn [map] in H0. inversion_clear H0 as [| ? ? Hp Hrest].
  cbn [flat_map]. rewrite (IH Hrest). f_equal.
  unfold inv_steps, inv_steps_without_frequencies, last_made.
  destruct (i_freq p) as [| x l]; [reflexivity | discriminate Hp].
Qed.

(* ------------------------------------------------------------------ *)
(** ** The viewers and the runs that fail *)

Lemma no_viewer_in_pick (evs : list Event) :
  forallb not_a_viewer_call evs = true ->
  forall stcs inst, ~ In (LViewer stcs inst) (pick sel_landmark evs).
Proof.
  induction evs as [| ev evs IH]; intros Hall stcs inst Hin; [exact Hin |].
  cbn [forallb] in Hall. apply andb_true_iff in Hall.
  destruct Hall as [Hev Hall].
  unfold pick in Hin. cbn [flat_map] in Hin. apply in_app_or in Hin.
  destruct Hin as [Hin | Hin]; [| exact (IH Hall stcs inst Hin)].
  unfold not_a_viewer_call in Hev.
  destruct (sel_landmark ev) as [[] |]; simpl in Hin;
    try contradiction; destruct Hin as [Hin | Hin];
    try contradiction; discriminate.
Qed.

Lemma subject_loop_calls_no_viewer LibState (lib : Library LibState)
    src bem montage subs acc :
  emits (for_each subs (GroupStudy.subject_body lib src bem montage) acc)
    (@all_events not_a_viewer_call _).
Proof.
  apply all_for_each. intros sub acc'.
  unfold GroupStudy.subject_body, GroupStudy.freq_body. every_call.
Qed.

Lemma viewers_landmarks LibState (lib : Library LibState)
    subjects_dir src acc :
  emits (GroupStudy.viewers lib subjects_dir src acc)
    (fun evs o =>
       let v1 := LViewer (GroupStudy.stcs_epochs acc)
                   (InstEpochs (GroupStudy.insts_epochs acc)) in
       let v2 := LViewer (GroupStudy.stcs_tfr acc)
                   (InstTfr (GroupStudy.insts_tfr acc)) in
       pick sel_landmark evs = [v1] \/ pick sel_landmark evs = [v1; v2]).
Proof.
  unfold GroupStudy.viewers. repeat step.
  all: cbn; auto.
Qed.

Lemma landmarks_of_three_passes src bem montage r1 r2 r3 :
  pick sel_landmark
    (GroupRun.subjects_events src bem montage GroupStudy.subjects
       [r1; r2; r3])
  = flat_map pass_landmarks
      [pass_of_replies 1 r1; pass_of_replies 2 r2; pass_of_replies 3 r3].
Proof.
  cbn [GroupRun.subjects_events GroupStudy.subjects].
  unfold GroupRun.subject_events.
  pick_trace.
  cbn [GroupRun.freq_events pick flat_map app sel_landmark].
  rewrite !flat_map_nil. reflexivity.
Qed.

Lemma group_study_viewed_lists LibState (lib : Library LibState) :
  emits (GroupStudy.script lib) (fun evs o => viewed_lists_are_complete evs).
Proof.
  unfold GroupStudy.script. repeat step.
  all: try (intros stcs inst Hin; cbn in Hin; contradiction).
  apply emits_bind.
  eapply emits_weaken.
  { apply emits_conj;
      [ apply subject_loop_transcript | apply subject_loop_calls_no_viewer ]. }
  cbv beta. intros evs1 [acc | exn] [Htr Hnov].
  - destruct (Htr _ eq_refl) as (rs & Hlen & -> & -> & _). clear Htr Hnov.
    destruct (three_subjects _ Hlen) as (r1 & r2 & r3 & ->).
    eapply emits_weaken; [apply viewers_landmarks |].
    cbv beta zeta. intros evs2 o2 Hv stcs inst.
    unfold pick. cbn [flat_map sel_landmark app].
    fold (pick sel_landmark
            (GroupRun.subjects_events v6 v7 v8 GroupStudy.subjects
               [r1; r2; r3] ++ evs2)).
    rewrite pick_app, landmarks_of_three_passes.
    intros Hin.
    exists [pass_of_replies 1 r1; pass_of_replies 2 r2;
            pass_of_replies 3 r3].
    split; [reflexivity |]. split; [reflexivity |].
    cbn [flat_map pass_landmarks app pass_of_replies p_sub p_epochs p_tfr
         p_stc_epochs p_stc_tfr] in Hin.
    cbn [map pass_of_replies p_sub p_epochs p_tfr p_stc_epochs p_stc_tfr].
    unfold GroupRun.acc_extend, GroupStudy.empty_acc in Hv.
    cbn [map app GroupStudy.stcs_epochs GroupStudy.stcs_tfr
         GroupStudy.insts_epochs GroupStudy.insts_tfr] in Hv.
    destruct Hv as [Hv | Hv]; rewrite Hv in Hin; cbn [In] in Hin;
      repeat match goal with
             | H : _ \/ _ |- _ => destruct H
             | H : False |- _ => destruct H
             end;
      try discriminate;
      match goal with
      | H : LViewer _ _ = LViewer _ _ |- _ => injection H as <- <-
      end; auto.
  - intros stcs inst Hin. exfalso.
    unfold pick in Hin. cbn [flat_map sel_landmark app] in Hin.
    exact (no_viewer_in_pick _ Hnov _ _ Hin).
Qed.

(** Whatever the library does and wherever a run of the group-study script
    fails, a viewer is never given a partial group: if [view_vol_stc] is
    called at all, the three passes of the subject loop are complete before
    it, and the lists it is given hold the results of all three subjects,
    in subject order. *)
Theorem viewers_are_given_complete_lists_only :
  forall (LibState : Type) (lib : Library LibState) (s : LibState)
         (stcs : list StcGen) (inst : InstList),
    In (LViewer stcs inst)
       (pick sel_landmark (trace_of (GroupStudy.script lib) s)) ->
    exists passes : list Pass,
      map p_sub passes = [1; 2; 3]%Z
      /\ firstn 15 (pick sel_landmark (trace_of (GroupStudy.script lib) s))
         = flat_map pass_landmarks passes
      /\ ((stcs = map p_stc_epochs passes
           /\ inst = InstEpochs (map p_epochs passes))
          \/ (stcs = map p_stc_tfr passes
              /\ inst = InstTfr (map p_tfr passes))).
Proof.
  intros LibState lib s.
  exact (emits_run s (group_study_viewed_lists lib)).
Qed.

(* ================================================================== *)
(** * More of the XDAWN script *)

Lemma xdawn_channels LibState (lib : Library LibState) :
  emits (XdawnDenoising.script lib)
    (fun evs o =>
       o = Returns tt ->
       exists raw info1 info2 picks,
         pick sel_ch evs = ch_steps raw info1 info2 picks).
Proof.
  unfold XdawnDenoising.script.
  repeat step.
  all: intros Ho; try discriminate Ho.
  do 4 eexists. reflexivity.
Qed.

Lemma xdawn_transform LibState (lib : Library LibState) :
  emits (XdawnDenoising.script lib)
    (fun evs o =>
       o = Returns tt ->
       exists raw epochs cov xd,
         pick sel_xd evs = xd_steps raw epochs cov xd).
Proof.
  unfold XdawnDenoising.script.
  repeat step.
  all: intros Ho; try discriminate Ho.
  do 4 eexists. reflexivity.
Qed.

Lemma xdawn_plots LibState (lib : Library LibState) :
  emits (XdawnDenoising.script lib)
    (fun evs o =>
       o = Returns tt ->
       exists epochs before denoised after,
         pick sel_plot evs = plot_steps epochs before denoised after).
Proof.
  unfold XdawnDenoising.script.
  repeat step.
  all: intros Ho; try discriminate Ho.
  do 4 eexists. reflexivity.
Qed.

(** In a run of the XDAWN script that ends normally, the channel MEG 2443 is
    written into the ["bads"] of the recording's info before the channels
    are picked; the channels are picked from the recording's info, MEG only,
    with [exclude="bads"]; and the picks returned are the ones given both to
    [mne.Epochs] and to [compute_raw_covariance], on that same recording. *)
Theorem bad_channel_is_marked_before_channels_are_picked :
  forall (LibState : Type) (lib : Library LibState) (s : LibState),
    outcome_of (XdawnDenoising.script lib) s = Returns tt ->
    exists raw info1 info2 picks,
      pick sel_ch (trace_of (XdawnDenoising.script lib) s)
      = ch_steps raw info1 info2 picks.
Proof.
  intros LibState lib s. exact (emits_run s (xdawn_channels lib)).
Qed.

(** In a run of the XDAWN script that ends normally, the recording is
    loaded with [preload=True] and filtered between 1 and 20 (FIR design
    "firwin") before it is segmented and before the signal covariance is
    estimated from it; the Xdawn object is made with two components and
    this covariance; and this object is the one fitted on, and then applied
    to, the epochs of that recording. *)
Theorem xdawn_is_made_from_the_covariance_of_the_filtered_recording :
  forall (LibState : Type) (lib : Library LibState) (s : LibState),
    outcome_of (XdawnDenoising.script lib) s = Returns tt ->
    exists raw epochs cov xd,
      pick sel_xd (trace_of (XdawnDenoising.script lib) s)
      = xd_steps raw epochs cov xd.
Proof.
  intros LibState lib s. exact (emits_run s (xdawn_transform lib)).
Qed.

(** In a run of the XDAWN script that ends normally, two images are made,
    with the same channel (230) and the same limits (-500, 500): the first,
    before the fit, of the class "vis_r" of the epochs; the second, after
    the fit and the apply, of the class "vis_r" of what [apply] returned for
    these epochs. *)
Theorem images_before_and_after_share_their_settings :
  forall (LibState : Type) (lib : Library LibState) (s : LibState),
    outcome_of (XdawnDenoising.script lib) s = Returns tt ->
    exists epochs before denoised after,
      pick sel_plot (trace_of (XdawnDenoising.script lib) s)
      = plot_steps epochs before denoised after.
Proof.
  intros LibState lib s. exact (emits_run s (xdawn_plots lib)).
Qed.

(* ================================================================== *)
(** * Runs that meet the conditions *)

Lemma group_sample_run_ends_normally :
  outcome_of (GroupStudy.script sample_lib) 0 = Returns tt.
Proof. vm_compute. reflexivity. Defined.

Lemma xdawn_sample_run_ends_normally :
  outcome_of (XdawnDenoising.script sample_lib) 0 = Returns tt.
Proof. vm_compute. reflexivity. Defined.

Lemma recordings_witness :
  outcome_of (GroupStudy.script sample_lib) 0 = Returns tt
  /\ exists (montage : Montage) (passes : list RecPass),
       map rc_sub passes = [1; 2; 3]%Z
       /\ Forall (fun p => List.length (rc_raws p) = List.length (rc_files p))
            passes
       /\ pick sel_rec (trace_of (GroupStudy.script sample_lib) 0)
          = (RMontageMade "standard_1005" montage
             :: flat_map (rec_steps montage) passes)%list.
Proof.
  split; [exact group_sample_run_ends_normally |].
  exact (recordings_are_read_once_and_concatenated_in_order sample_lib 0
           group_sample_run_ends_normally).
Defined.

Lemma bad_epochs_witness :
  outcome_of (GroupStudy.script sample_lib) 0 = Returns tt
  /\ exists passes : list PrePass,
       List.length passes = 3
       /\ pick sel_pre (trace_of (GroupStudy.script sample_lib) 0)
          = flat_map pre_steps passes.
Proof.
  split; [exact group_sample_run_ends_normally |].
  exact (bad_epochs_are_dropped_before_filter_and_ica sample_lib 0
           group_sample_run_ends_normally).
Defined.

Lemma ica_excludes_witness :
  outcome_of (GroupStudy.script sample_lib) 0 = Returns tt
  /\ exists passes : list IcaPass,
       List.length passes = 3
       /\ pick sel_ica (trace_of (GroupStudy.script sample_lib) 0)
          = flat_map ica_steps passes.
Proof.
  split; [exact group_sample_run_ends_normally |].
  exact (ica_excludes_eog_then_muscle_components sample_lib 0
           group_sample_run_ends_normally).
Defined.

Lemma decimation_witness :
  outcome_of (GroupStudy.script sample_lib) 0 = Returns tt
  /\ exists passes : list DecPass,
       List.length passes = 3
       /\ pick sel_size (trace_of (GroupStudy.script sample_lib) 0)
          = map dc_size passes
       /\ pick sel_dec (trace_of (GroupStudy.script sample_lib) 0)
          = flat_map dec_steps passes.
Proof.
  split; [exact group_sample_run_ends_normally |].
  exact (decimation_comes_after_the_time_frequency_transform sample_lib 0
           group_sample_run_ends_normally).
Defined.

Lemma anatomy_witness :
  outcome_of (GroupStudy.script sample_lib) 0 = Returns tt
  /\ exists fs_dir src bem (passes : list AnPass),
       List.length passes = 3
       /\ pick sel_size (trace_of (GroupStudy.script sample_lib) 0)
          = map an_size passes
       /\ pick sel_an (trace_of (GroupStudy.script sample_lib) 0)
          = anatomy_steps fs_dir src bem passes.
Proof.
  split; [exact group_sample_run_ends_normally |].
  exact (anatomy_is_read_once_and_shared sample_lib 0
           group_sample_run_ends_normally).
Defined.

Lemma frequency_covariances_witness :
  outcome_of (GroupStudy.script sample_lib) 0 = Returns tt
  /\ exists passes : list CovPass,
       List.length passes = 3
       /\ pick sel_size (trace_of (GroupStudy.script sample_lib) 0)
          = map (fun p => List.length (cp_iters p)) passes
       /\ pick sel_cov (trace_of (GroupStudy.script sample_lib) 0)
          = flat_map cov_steps passes.
Proof.
  split; [exact group_sample_run_ends_normally |].
  exact (frequency_covariances_are_made_real sample_lib 0
           group_sample_run_ends_normally).
Defined.

(** A run in which the library reports four frequencies: four passes of the
    frequency loop for each subject. *)
Lemma frequency_loop_witness :
  outcome_of (GroupStudy.script (with_size 4 sample_lib)) 0 = Returns tt
  /\ pick sel_size (trace_of (GroupStudy.script (with_size 4 sample_lib)) 0)
     = [4; 4; 4]
  /\ exists passes : list InvPass,
       List.length passes = 3
       /\ pick sel_size
            (trace_of (GroupStudy.script (with_size 4 sample_lib)) 0)
          = map (fun p => List.length (i_freq p)) passes
       /\ pick sel_inv
            (trace_of (GroupStudy.script (with_size 4 sample_lib)) 0)
          = (flat_map inv_steps passes
             ++ [ IViewed (map i_stc passes);
                  IViewed (map i_stcs passes) ])%list.
Proof.
  assert (Ho : outcome_of (GroupStudy.script (with_size 4 sample_lib)) 0
               = Returns tt) by (vm_compute; reflexivity).
  split; [exact Ho |]. split; [vm_compute; reflexivity |].
  exact (frequency_loop_runs_once_per_reported_frequency
           (with_size 4 sample_lib) 0 Ho).
Defined.

(** A run in which the library reports no frequency. *)
Lemma without_frequencies_witness :
  outcome_of (GroupStudy.script (with_size 0 sample_lib)) 0 = Returns tt
  /\ Forall (fun n => n = 0)
       (pick sel_size
          (trace_of (GroupStudy.script (with_size 0 sample_lib)) 0))
  /\ exists passes : list InvPass,
       List.length passes = 3
       /\ pick sel_inv
            (trace_of (GroupStudy.script (with_size 0 sample_lib)) 0)
          = (flat_map inv_steps_without_frequencies passes
             ++ [ IViewed (map i_stc passes);
                  IViewed (map i_stcs passes) ])%list.
Proof.
  assert (Ho : outcome_of (GroupStudy.script (with_size 0 sample_lib)) 0
               = Returns tt) by (vm_compute; reflexivity).
  assert (H0 : Forall (fun n => n = 0)
                 (pick sel_size
                    (trace_of (GroupStudy.script (with_size 0 sample_lib))
                       0)))
    by (vm_compute; repeat constructor).
  split; [exact Ho |]. split; [exact H0 |].
  exact (without_frequencies_the_time_series_operator_is_applied
           (with_size 0 sample_lib) 0 Ho H0).
Defined.

(** A run that fails in [go_to_extreme], right after the first viewer was
    made: the viewer had been given the complete lists. *)
Lemma complete_lists_witness :
  outcome_of (GroupStudy.script (fail_at 290 sample_lib)) (0, 0)
  = Raises (mkExc "RuntimeError" "raised by the library")
  /\ In (LViewer [mkRef CStcGen 28; mkRef CStcGen 101; mkRef CStcGen 174]
           (InstEpochs
              [mkRef CEpochs 11; mkRef CEpochs 84; mkRef CEpochs 157]))
        (pick sel_landmark
           (trace_of (GroupStudy.script (fail_at 290 sample_lib)) (0, 0)))
  /\ exists passes : list Pass,
       map p_sub passes = [1; 2; 3]%Z
       /\ firstn 15
            (pick sel_landmark
               (trace_of (GroupStudy.script (fail_at 290 sample_lib))
                  (0, 0)))
          = flat_map pass_landmarks passes
       /\ (([mkRef CStcGen 28; mkRef CStcGen 101; mkRef CStcGen 174]
            = map p_stc_epochs passes
            /\ InstEpochs
                 [mkRef CEpochs 11; mkRef CEpochs 84; mkRef CEpochs 157]
               = InstEpochs (map p_epochs passes))
           \/ ([mkRef CStcGen 28; mkRef CStcGen 101; mkRef CStcGen 174]
               = map p_stc_tfr passes
               /\ InstEpochs
                    [mkRef CEpochs 11; mkRef CEpochs 84; mkRef CEpochs 157]
                  = InstTfr (map p_tfr passes))).
Proof.
  assert (Hin : In (LViewer
                      [mkRef CStcGen 28; mkRef CStcGen 101;
                       mkRef CStcGen 174]
                      (InstEpochs
                         [mkRef CEpochs 11; mkRef CEpochs 84;
                          mkRef CEpochs 157]))
                  (pick sel_landmark
                     (trace_of (GroupStudy.script (fail_at 290 sample_lib))
                        (0, 0)))).
  { vm_compute. repeat first [left; reflexivity | right]. }
  split; [vm_compute; reflexivity |]. split; [exact Hin |].
  exact (viewers_are_given_complete_lists_only
           (fail_at 290 sample_lib) (0, 0) _ _ Hin).
Defined.

Lemma channels_witness :
  outcome_of (XdawnDenoising.script sample_lib) 0 = Returns tt
  /\ exists raw info1 info2 picks,
       pick sel_ch (trace_of (XdawnDenoising.script sample_lib) 0)
       = ch_steps raw info1 info2 picks.
Proof.
  split; [exact xdawn_sample_run_ends_normally |].
  exact (bad_channel_is_marked_before_channels_are_picked sample_lib 0
           xdawn_sample_run_ends_normally).
Defined.

Lemma transform_witness :
  outcome_of (XdawnDenoising.script sample_lib) 0 = Returns tt
  /\ exists raw epochs cov xd,
       pick sel_xd (trace_of (XdawnDenoising.script sample_lib) 0)
       = xd_steps raw epochs cov xd.
Proof.
  split; [exact xdawn_sample_run_ends_normally |].
  exact (xdawn_is_made_from_the_covariance_of_the_filtered_recording
           sample_lib 0 xdawn_sample_run_ends_normally).
Defined.

Lemma images_witness :
  outcome_of (XdawnDenoising.script sample_lib) 0 = Returns tt
  /\ exists epochs before denoised after,
       pick sel_plot (trace_of (XdawnDenoising.script sample_lib) 0)
       = plot_steps epochs before denoised after.
Proof.
  split; [exact xdawn_sample_run_ends_normally |].
  exact (images_before_and_after_share_their_settings sample_lib 0
           xdawn_sample_run_ends_normally).
Defined.
